(** * The Mutual Intent Agreement broker of mcpgw

    A shallow embedding of [mcpgw/core/intent_contract.py] and
    [mcpgw/core/intent_broker.py]: the contract data model, the
    [IntentBroker] operations (declare, negotiate, validate, drift
    analysis, sweep) and the lifecycle properties they maintain; and of
    the failure handling of [validate_transaction_intent] in
    [mcpgw/llm/ollama_client.py].

    Modelling conventions.
    - A Python [dict] is an insertion-ordered association list
      ([PyDict]): the sweep iterates over [active_contracts] and reads
      the clock once per expiring contract, so the iteration order is
      part of the behaviour.
    - A [datetime] is the number of microseconds since
      0001-01-01T00:00:00; [isoformat]/[fromisoformat] round-trip and are
      the identity on that number.  [timedelta] and [datetime] arithmetic
      raise [OverflowError] out of range, as in CPython.
    - [datetime.utcnow()], [uuid.uuid4()] and the LLM analyzer are the
      environment: successive clock readings, successive identifiers and
      the analyzer's answers are given by an [Env]; the state counts the
      readings taken and logs every analyzer call.
    - A Python exception leaves the mutations made before it in place, so
      the monad returns the state next to the outcome also when it
      raises.  Only [Exception] subclasses are modelled (what
      [except Exception] catches). *)

From Stdlib Require Import String List ZArith Bool Lia PrimFloat.
Import ListNotations.

Local Open Scope string_scope.
Local Open Scope Z_scope.

Set Implicit Arguments.
Set Warnings "-register-all".

(* ------------------------------------------------------------------ *)
(** ** Python dictionaries *)

Module PyDict.

Definition dict (V : Type) : Type := list (string * V).

(** [d.get(k)] *)
Fixpoint get {V} (d : dict V) (k : string) : option V :=
  match d with
  | [] => None
  | (k', v) :: r => if String.eqb k' k then Some v else get r k
  end.

(** [d[k] = v]: an existing key keeps its position, a new key goes last. *)
Fixpoint set {V} (d : dict V) (k : string) (v : V) : dict V :=
  match d with
  | [] => [(k, v)]
  | (k', v') :: r =>
      if String.eqb k' k then (k', v) :: r else (k', v') :: set r k v
  end.

(** [del d[k]] for a key that is present.  Keys are unique in every
    dictionary the broker builds, so at most one entry goes. *)
Definition del {V} (d : dict V) (k : string) : dict V :=
  filter (fun kv => negb (String.eqb (fst kv) k)) d.

(** In-place mutation of the object stored under [k]. *)
Definition alter {V} (f : V -> V) (k : string) (d : dict V) : dict V :=
  match get d k with
  | Some v => set d k (f v)
  | None => d
  end.

Definition keys {V} (d : dict V) : list string := map fst d.
Definition values {V} (d : dict V) : list V := map snd d.
Definition len {V} (d : dict V) : Z := Z.of_nat (length d).

(** [k in d] *)
Definition mem {V} (d : dict V) (k : string) : bool :=
  match get d k with Some _ => true | None => false end.

End PyDict.

Abbreviation dict := PyDict.dict.

(** [x in l] for a list of strings. *)
Definition str_in (x : string) (l : list string) : bool :=
  existsb (String.eqb x) l.

(* ------------------------------------------------------------------ *)
(** ** Python values of type [Any] *)

Inductive PyValue : Type :=
| PyNone
| PyBool (b : bool)
| PyInt (z : Z)
| PyFloat (f : float)
| PyStr (s : string)
| PyList (l : list PyValue)
| PyDictV (d : list (string * PyValue)).

(** [Dict[str, Any]]: request and response bodies, analyzer reports. *)
Definition Payload : Type := dict PyValue.

(** Truth value of an object, as tested by [if x:]. *)
Definition truthy (v : PyValue) : bool :=
  match v with
  | PyNone => false
  | PyBool b => b
  | PyInt z => negb (z =? 0)
  | PyFloat f => negb (PrimFloat.eqb f 0%float)
  | PyStr s => negb (String.eqb s "")
  | PyList l => match l with [] => false | _ => true end
  | PyDictV d => match d with [] => false | _ => true end
  end.

(** [v == "s"] for a value against a string literal. *)
Definition py_eq_str (v : PyValue) (s : string) : bool :=
  match v with
  | PyStr s' => String.eqb s' s
  | _ => false
  end.

(** Truth value of an [Optional[Dict]] argument: [None] and [{}] are false. *)
Definition payload_truthy (p : option Payload) : bool :=
  match p with
  | Some (_ :: _) => true
  | _ => false
  end.

(** Truth value of an [Optional[List[str]]]. *)
Definition list_truthy {A} (l : list A) : bool :=
  match l with [] => false | _ => true end.

(* ------------------------------------------------------------------ *)
(** ** Exceptions and outcomes *)

(** An exception: its class name and [str(e)]. *)
Record PyExc : Type := Exc { exc_class : string; exc_str : string }.

Definition ValueError (msg : string) : PyExc := Exc "ValueError" msg.
Definition OverflowError (msg : string) : PyExc := Exc "OverflowError" msg.
(** [str(KeyError(k))] is [repr(k)]; exact for keys without quotes or
    escapes, which the generated identifiers are. *)
Definition KeyError (k : string) : PyExc := Exc "KeyError" ("'" ++ k ++ "'").

Inductive Outcome (A : Type) : Type :=
| Returned (a : A)
| Raised (e : PyExc).
Arguments Returned {A} a.
Arguments Raised {A} e.

(* ------------------------------------------------------------------ *)
(** ** Dates *)

Definition datetime : Type := Z.

Definition MICROS_PER_MINUTE : Z := 60000000.
Definition MICROS_PER_HOUR : Z := 3600000000.
Definition MICROS_PER_DAY : Z := 86400000000.
(** [datetime.max], 9999-12-31T23:59:59.999999. *)
Definition DATETIME_MAX : Z := 3652059 * MICROS_PER_DAY - 1.
Definition TIMEDELTA_MAX_DAYS : Z := 999999999.

(** [timedelta(microseconds=us)], [None] for [OverflowError]. *)
Definition timedelta (us : Z) : option Z :=
  let days := us / MICROS_PER_DAY in
  if (- TIMEDELTA_MAX_DAYS <=? days) && (days <=? TIMEDELTA_MAX_DAYS)
  then Some us else None.

(** [t + delta] on a datetime, [None] for [OverflowError]. *)
Definition datetime_add (t : datetime) (delta : Z) : option datetime :=
  let r := t + delta in
  if (0 <=? r) && (r <=? DATETIME_MAX) then Some r else None.

Definition date_overflow : PyExc := OverflowError "date value out of range".

(* ------------------------------------------------------------------ *)
(** ** intent_contract.py: the data model *)

Inductive IntentCompatibilityStatus : Type :=
| COMPATIBLE | INCOMPATIBLE | REQUIRES_NEGOTIATION | ANALYSIS_FAILED.

Inductive IntentValidationResult : Type :=
| VALID | INVALID | SUSPICIOUS | DRIFT_DETECTED.

(** [IntentValidationResult.value] *)
Definition validation_value (r : IntentValidationResult) : string :=
  match r with
  | VALID => "valid"
  | INVALID => "invalid"
  | SUSPICIOUS => "suspicious"
  | DRIFT_DETECTED => "drift_detected"
  end.

Definition is_valid (r : IntentValidationResult) : bool :=
  match r with VALID => true | _ => false end.

Record ClientIntentDeclaration : Type := {
  purpose : string;
  data_requirements : list string;
  intent_constraints : list string;        (* [constraints] *)
  duration : option Z;
  context : Payload;
  client_id : string;
  declared_at : datetime
}.

Record ServerCapabilityDeclaration : Type := {
  provides : list string;
  boundaries : list string;
  capability_rate_limits : dict Z;         (* [rate_limits] *)
  data_sensitivity : string;
  supported_operations : list string;
  server_id : string;
  registered_at : datetime
}.

Record IntentCompatibilityResult : Type := {
  status : IntentCompatibilityStatus;
  compat_confidence_score : float;         (* [confidence_score] *)
  compatibility_reasons : list string;
  suggested_constraints : list string;
  risk_assessment : Payload;
  analysis_metadata : Payload
}.

Record IntentContract : Type := {
  contract_id : string;
  client_intent : option ClientIntentDeclaration;
  server_capability : option ServerCapabilityDeclaration;
  compatibility_result : option IntentCompatibilityResult;
  agreed_purpose : string;
  allowed_operations : list string;
  data_access_scope : list string;
  constraints : list string;
  rate_limits : dict Z;
  created_at : datetime;
  expires_at : option datetime;
  is_active : bool;
  violation_count : Z;
  last_validated : option datetime;
  transaction_count : Z;
  successful_transactions : Z;
  failed_transactions : Z
}.

(** Fields of [ServerResponseValidation] carry the prefix [rv_]. *)
Record ServerResponseValidation : Type := {
  rv_contract_id : string;
  rv_transaction_id : string;
  rv_validation_result : IntentValidationResult;
  rv_confidence_score : float;
  rv_validation_reasons : list string;
  rv_data_compliance_score : float;
  rv_privacy_violations : list string;
  rv_data_leakage_risks : list string;
  rv_unexpected_data : list string;
  rv_suggested_action : string;
  rv_validated_at : datetime
}.

(** Fields of [IntentTransactionValidation] carry the prefix [tv_]. *)
Record IntentTransactionValidation : Type := {
  tv_contract_id : string;
  tv_transaction_id : string;
  tv_validation_result : IntentValidationResult;
  tv_confidence_score : float;
  tv_validation_reasons : list string;
  tv_intent_alignment_score : float;
  tv_risk_factors : list string;
  tv_suggested_action : string;
  tv_validated_at : datetime;
  tv_client_protection : option ServerResponseValidation;
  tv_server_protection : bool
}.

(** The dictionary appended to the ledger by [validate_transaction]. *)
Record TransactionRecord : Type := {
  tx_transaction_id : string;
  tx_timestamp : datetime;
  tx_request : Payload;
  tx_response : option Payload;
  tx_validation_result : string;
  tx_intent_alignment_score : float
}.

(** *** Field assignments on a contract *)

Definition set_is_active (b : bool) (c : IntentContract) : IntentContract :=
  {| contract_id := contract_id c; client_intent := client_intent c;
     server_capability := server_capability c;
     compatibility_result := compatibility_result c;
     agreed_purpose := agreed_purpose c;
     allowed_operations := allowed_operations c;
     data_access_scope := data_access_scope c;
     constraints := constraints c; rate_limits := rate_limits c;
     created_at := created_at c; expires_at := expires_at c;
     is_active := b;
     violation_count := violation_count c;
     last_validated := last_validated c;
     transaction_count := transaction_count c;
     successful_transactions := successful_transactions c;
     failed_transactions := failed_transactions c |}.

Definition set_expires_at (e : option datetime) (c : IntentContract)
  : IntentContract :=
  {| contract_id := contract_id c; client_intent := client_intent c;
     server_capability := server_capability c;
     compatibility_result := compatibility_result c;
     agreed_purpose := agreed_purpose c;
     allowed_operations := allowed_operations c;
     data_access_scope := data_access_scope c;
     constraints := constraints c; rate_limits := rate_limits c;
     created_at := created_at c; expires_at := e;
     is_active := is_active c;
     violation_count := violation_count c;
     last_validated := last_validated c;
     transaction_count := transaction_count c;
     successful_transactions := successful_transactions c;
     failed_transactions := failed_transactions c |}.

(** The terms a negotiation writes on a fresh contract. *)
Definition set_terms (active : bool) (agreed : string)
    (ops scope cons : list string) (limits : dict Z) (c : IntentContract)
  : IntentContract :=
  {| contract_id := contract_id c; client_intent := client_intent c;
     server_capability := server_capability c;
     compatibility_result := compatibility_result c;
     agreed_purpose := agreed;
     allowed_operations := ops;
     data_access_scope := scope;
     constraints := cons; rate_limits := limits;
     created_at := created_at c; expires_at := expires_at c;
     is_active := active;
     violation_count := violation_count c;
     last_validated := last_validated c;
     transaction_count := transaction_count c;
     successful_transactions := successful_transactions c;
     failed_transactions := failed_transactions c |}.

(** *** Methods of [IntentContract] that do not read the clock *)

(** [record_transaction(success)], given the reading of [utcnow()]. *)
Definition record_transaction_at (now : datetime) (success : bool)
    (c : IntentContract) : IntentContract :=
  {| contract_id := contract_id c; client_intent := client_intent c;
     server_capability := server_capability c;
     compatibility_result := compatibility_result c;
     agreed_purpose := agreed_purpose c;
     allowed_operations := allowed_operations c;
     data_access_scope := data_access_scope c;
     constraints := constraints c; rate_limits := rate_limits c;
     created_at := created_at c; expires_at := expires_at c;
     is_active := is_active c;
     violation_count := violation_count c;
     last_validated := Some now;
     transaction_count := transaction_count c + 1;
     successful_transactions :=
       if success then successful_transactions c + 1
       else successful_transactions c;
     failed_transactions :=
       if success then failed_transactions c
       else failed_transactions c + 1 |}.

Definition VIOLATION_THRESHOLD : Z := 5.

(** [record_violation()] *)
Definition record_violation (c : IntentContract) : IntentContract :=
  {| contract_id := contract_id c; client_intent := client_intent c;
     server_capability := server_capability c;
     compatibility_result := compatibility_result c;
     agreed_purpose := agreed_purpose c;
     allowed_operations := allowed_operations c;
     data_access_scope := data_access_scope c;
     constraints := constraints c; rate_limits := rate_limits c;
     created_at := created_at c; expires_at := expires_at c;
     is_active :=
       if VIOLATION_THRESHOLD <=? violation_count c + 1 then false
       else is_active c;
     violation_count := violation_count c + 1;
     last_validated := last_validated c;
     transaction_count := transaction_count c;
     successful_transactions := successful_transactions c;
     failed_transactions := failed_transactions c |}.

(** *** Field assignments on a transaction verdict *)

Definition tv_set_ids (cid tid : string) (v : IntentTransactionValidation)
  : IntentTransactionValidation :=
  {| tv_contract_id := cid; tv_transaction_id := tid;
     tv_validation_result := tv_validation_result v;
     tv_confidence_score := tv_confidence_score v;
     tv_validation_reasons := tv_validation_reasons v;
     tv_intent_alignment_score := tv_intent_alignment_score v;
     tv_risk_factors := tv_risk_factors v;
     tv_suggested_action := tv_suggested_action v;
     tv_validated_at := tv_validated_at v;
     tv_client_protection := tv_client_protection v;
     tv_server_protection := tv_server_protection v |}.

Definition tv_set_client_protection (p : option ServerResponseValidation)
    (v : IntentTransactionValidation) : IntentTransactionValidation :=
  {| tv_contract_id := tv_contract_id v;
     tv_transaction_id := tv_transaction_id v;
     tv_validation_result := tv_validation_result v;
     tv_confidence_score := tv_confidence_score v;
     tv_validation_reasons := tv_validation_reasons v;
     tv_intent_alignment_score := tv_intent_alignment_score v;
     tv_risk_factors := tv_risk_factors v;
     tv_suggested_action := tv_suggested_action v;
     tv_validated_at := tv_validated_at v;
     tv_client_protection := p;
     tv_server_protection := tv_server_protection v |}.

(** The three assignments made when the response check is not valid:
    [validation_result], [risk_factors.extend(...)], [suggested_action]. *)
Definition tv_escalate (result : IntentValidationResult)
    (more_risks : list string) (action : string)
    (v : IntentTransactionValidation) : IntentTransactionValidation :=
  {| tv_contract_id := tv_contract_id v;
     tv_transaction_id := tv_transaction_id v;
     tv_validation_result := result;
     tv_confidence_score := tv_confidence_score v;
     tv_validation_reasons := tv_validation_reasons v;
     tv_intent_alignment_score := tv_intent_alignment_score v;
     tv_risk_factors := (tv_risk_factors v ++ more_risks)%list;
     tv_suggested_action := action;
     tv_validated_at := tv_validated_at v;
     tv_client_protection := tv_client_protection v;
     tv_server_protection := tv_server_protection v |}.

Definition rv_set_ids (cid tid : string) (v : ServerResponseValidation)
  : ServerResponseValidation :=
  {| rv_contract_id := cid; rv_transaction_id := tid;
     rv_validation_result := rv_validation_result v;
     rv_confidence_score := rv_confidence_score v;
     rv_validation_reasons := rv_validation_reasons v;
     rv_data_compliance_score := rv_data_compliance_score v;
     rv_privacy_violations := rv_privacy_violations v;
     rv_data_leakage_risks := rv_data_leakage_risks v;
     rv_unexpected_data := rv_unexpected_data v;
     rv_suggested_action := rv_suggested_action v;
     rv_validated_at := rv_validated_at v |}.

(* ------------------------------------------------------------------ *)
(** ** The environment: clock, identifiers, analyzer *)

(** One entry per call made on [OllamaIntentAnalyzer], with its arguments. *)
Inductive AnalyzerCall : Type :=
| CallCompatibility (ci : ClientIntentDeclaration)
    (sc : ServerCapabilityDeclaration)
| CallTransaction (request : Payload) (response : option Payload)
    (contract_purpose : string) (contract_constraints : list string)
| CallResponse (ci : option ClientIntentDeclaration)
    (sc : option ServerCapabilityDeclaration)
    (request response : Payload) (contract_constraints : list string)
| CallDrift (original_purpose : string)
    (recent : list TransactionRecord) (time_window_hours : Z).

Definition is_response_call (c : AnalyzerCall) : bool :=
  match c with CallResponse _ _ _ _ _ => true | _ => false end.

(** The analyzer as the broker sees it: a black box whose answer may
    depend on every call made before, and which may raise. *)
Record Analyzer : Type := {
  llm_analyze_intent_compatibility :
    list AnalyzerCall -> ClientIntentDeclaration ->
    ServerCapabilityDeclaration -> Outcome IntentCompatibilityResult;
  llm_validate_transaction_intent :
    list AnalyzerCall -> Payload -> option Payload -> string ->
    list string -> Outcome IntentTransactionValidation;
  llm_validate_server_response :
    list AnalyzerCall -> option ClientIntentDeclaration ->
    option ServerCapabilityDeclaration -> Payload -> Payload ->
    list string -> Outcome ServerResponseValidation;
  llm_analyze_intent_drift :
    list AnalyzerCall -> string -> list TransactionRecord -> Z ->
    Outcome Payload
}.

Record Env : Type := {
  utcnow_reading : nat -> datetime;   (* the n-th value of datetime.utcnow() *)
  uuid4_value : nat -> string;        (* the n-th value of str(uuid.uuid4()) *)
  analyzer : Analyzer
}.

(* ------------------------------------------------------------------ *)
(** ** ollama_client.py: how the shipped analyzer validates a transaction *)

(** [IntentBroker.__init__] builds its analyzer as
    [OllamaIntentAnalyzer(ollama_client)].  What the [try] block of its
    [validate_transaction_intent] relies on is not looked into here:
    [ollama_generate] is [await self.ollama.generate(prompt, system_prompt)]
    for the prompt built from the four arguments, which raises when Ollama
    cannot be reached or answers with an error status; [read_reply] is
    [_parse_json_response] followed by the construction of the verdict,
    which raises on a reply it cannot convert; [failure_stamp] is the
    clock as read for [validated_at] in the [except] block.  The prompt is
    built before the [try], by [json.dumps], which does not raise on a
    [Payload]. *)
Record TransactionOracle : Type := {
  ollama_generate :
    list AnalyzerCall -> Payload -> option Payload -> string ->
    list string -> Outcome string;
  read_reply : string -> Outcome IntentTransactionValidation;
  failure_stamp : list AnalyzerCall -> datetime
}.

(** The [try] block of [validate_transaction_intent]. *)
Definition transaction_analysis (o : TransactionOracle)
    (h : list AnalyzerCall) (request_data : Payload)
    (response_data : option Payload) (contract_purpose : string)
    (contract_constraints : list string)
  : Outcome IntentTransactionValidation :=
  match ollama_generate o h request_data response_data contract_purpose
          contract_constraints with
  | Returned response => read_reply o response
  | Raised e => Raised e
  end.

(** The verdict built by its [except Exception as e] block. *)
Definition analysis_failure_verdict (stamp : datetime) (e : PyExc)
  : IntentTransactionValidation :=
  {| tv_contract_id := ""; tv_transaction_id := "";
     tv_validation_result := INVALID; tv_confidence_score := 0%float;
     tv_validation_reasons := ["Validation failed: " ++ exc_str e];
     tv_intent_alignment_score := 0%float;
     tv_risk_factors := ["analysis_failure"];
     tv_suggested_action := "deny";
     tv_validated_at := stamp; tv_client_protection := None;
     tv_server_protection := true |}.

(** [OllamaIntentAnalyzer.validate_transaction_intent]: whatever goes
    wrong in the [try] block comes back as a verdict. *)
Definition validate_transaction_intent (o : TransactionOracle)
    (h : list AnalyzerCall) (request_data : Payload)
    (response_data : option Payload) (contract_purpose : string)
    (contract_constraints : list string)
  : Outcome IntentTransactionValidation :=
  match transaction_analysis o h request_data response_data contract_purpose
          contract_constraints with
  | Returned validation => Returned validation
  | Raised e => Returned (analysis_failure_verdict (failure_stamp o h) e)
  end.


(* ------------------------------------------------------------------ *)
(** ** intent_broker.py: the broker's state *)

Record NegotiationStats : Type := {
  total_negotiations : Z;
  successful_contracts : Z;
  failed_negotiations : Z;
  stat_active_contracts : Z              (* key ["active_contracts"] *)
}.

Record IntentBroker : Type := {
  client_intents : dict ClientIntentDeclaration;
  server_capabilities : dict ServerCapabilityDeclaration;
  active_contracts : dict IntentContract;
  client_sessions : dict string;
  contract_transactions : dict (list TransactionRecord);
  negotiation_stats : NegotiationStats
}.

(** [IntentBroker.__init__] *)
Definition IntentBroker_init : IntentBroker :=
  {| client_intents := []; server_capabilities := [];
     active_contracts := []; client_sessions := [];
     contract_transactions := [];
     negotiation_stats :=
       {| total_negotiations := 0; successful_contracts := 0;
          failed_negotiations := 0; stat_active_contracts := 0 |} |}.

Definition with_client_intents (d : dict ClientIntentDeclaration)
    (b : IntentBroker) : IntentBroker :=
  {| client_intents := d; server_capabilities := server_capabilities b;
     active_contracts := active_contracts b;
     client_sessions := client_sessions b;
     contract_transactions := contract_transactions b;
     negotiation_stats := negotiation_stats b |}.

Definition with_server_capabilities (d : dict ServerCapabilityDeclaration)
    (b : IntentBroker) : IntentBroker :=
  {| client_intents := client_intents b; server_capabilities := d;
     active_contracts := active_contracts b;
     client_sessions := client_sessions b;
     contract_transactions := contract_transactions b;
     negotiation_stats := negotiation_stats b |}.

Definition with_active_contracts (d : dict IntentContract)
    (b : IntentBroker) : IntentBroker :=
  {| client_intents := client_intents b;
     server_capabilities := server_capabilities b;
     active_contracts := d;
     client_sessions := client_sessions b;
     contract_transactions := contract_transactions b;
     negotiation_stats := negotiation_stats b |}.

Definition with_client_sessions (d : dict string)
    (b : IntentBroker) : IntentBroker :=
  {| client_intents := client_intents b;
     server_capabilities := server_capabilities b;
     active_contracts := active_contracts b;
     client_sessions := d;
     contract_transactions := contract_transactions b;
     negotiation_stats := negotiation_stats b |}.

Definition with_contract_transactions (d : dict (list TransactionRecord))
    (b : IntentBroker) : IntentBroker :=
  {| client_intents := client_intents b;
     server_capabilities := server_capabilities b;
     active_contracts := active_contracts b;
     client_sessions := client_sessions b;
     contract_transactions := d;
     negotiation_stats := negotiation_stats b |}.

Definition with_negotiation_stats (st : NegotiationStats)
    (b : IntentBroker) : IntentBroker :=
  {| client_intents := client_intents b;
     server_capabilities := server_capabilities b;
     active_contracts := active_contracts b;
     client_sessions := client_sessions b;
     contract_transactions := contract_transactions b;
     negotiation_stats := st |}.

(** The broker together with what it has consumed of its environment. *)
Record World : Type := {
  self : IntentBroker;
  clock_reads : nat;                   (* calls of datetime.utcnow() so far *)
  uuid_draws : nat;                    (* calls of uuid.uuid4() so far *)
  analyzer_calls : list AnalyzerCall   (* calls on the analyzer, oldest first *)
}.

Definition World_init : World :=
  {| self := IntentBroker_init; clock_reads := 0; uuid_draws := 0;
     analyzer_calls := [] |}.

Definition with_self (b : IntentBroker) (w : World) : World :=
  {| self := b; clock_reads := clock_reads w; uuid_draws := uuid_draws w;
     analyzer_calls := analyzer_calls w |}.

(* ------------------------------------------------------------------ *)
(** ** The monad of broker code: state that survives exceptions *)

Definition M (A : Type) : Type := World -> Outcome A * World.

Definition ret {A} (a : A) : M A := fun w => (Returned a, w).

Definition raise {A} (e : PyExc) : M A := fun w => (Raised e, w).

Definition bind {A B} (m : M A) (k : A -> M B) : M B :=
  fun w =>
    let (o, w') := m w in
    match o with
    | Returned a => k a w'
    | Raised e => (Raised e, w')
    end.

(** [try: body except Exception as e: handler] *)
Definition try_except {A} (body : M A) (handler : PyExc -> M A) : M A :=
  fun w =>
    let (o, w') := body w in
    match o with
    | Returned a => (Returned a, w')
    | Raised e => handler e w'
    end.

Declare Scope py_scope.
Delimit Scope py_scope with py.
Notation "x <- m ;; k" := (bind m (fun x => k))
  (at level 61, m at next level, right associativity) : py_scope.
Notation "m ;; k" := (bind m (fun _ => k))
  (at level 61, right associativity) : py_scope.
Local Open Scope py_scope.

Definition exec {A} (m : M A) (w : World) : World := snd (m w).
Definition result {A} (m : M A) (w : World) : Outcome A := fst (m w).

Definition get_self : M IntentBroker := fun w => (Returned (self w), w).

Definition modify_self (f : IntentBroker -> IntentBroker) : M unit :=
  fun w => (Returned tt, with_self (f (self w)) w).

Definition when (b : bool) (m : M unit) : M unit :=
  if b then m else ret tt.

(** An [Optional] computed by date arithmetic, raising on overflow. *)
Definition or_raise {A} (o : option A) (e : PyExc) : M A :=
  match o with Some a => ret a | None => raise e end.

Section Broker.

Variable env : Env.

(** [datetime.utcnow()] *)
Definition utcnow : M datetime :=
  fun w =>
    (Returned (utcnow_reading env (clock_reads w)),
     {| self := self w; clock_reads := S (clock_reads w);
        uuid_draws := uuid_draws w; analyzer_calls := analyzer_calls w |}).

(** [str(uuid.uuid4())] *)
Definition uuid4 : M string :=
  fun w =>
    (Returned (uuid4_value env (uuid_draws w)),
     {| self := self w; clock_reads := clock_reads w;
        uuid_draws := S (uuid_draws w); analyzer_calls := analyzer_calls w |}).

(** [await self.analyzer.method(args)]: the call is logged, the answer is
    the analyzer's given the calls made before. *)
Definition ask {A} (c : AnalyzerCall)
    (answer : list AnalyzerCall -> Outcome A) : M A :=
  fun w =>
    (answer (analyzer_calls w),
     {| self := self w; clock_reads := clock_reads w;
        uuid_draws := uuid_draws w;
        analyzer_calls := (analyzer_calls w ++ [c])%list |}).

(** Mutation of the contract object stored under [cid]. *)
Definition modify_contract (cid : string)
    (f : IntentContract -> IntentContract) : M unit :=
  modify_self (fun b =>
    with_active_contracts (PyDict.alter f cid (active_contracts b)) b).

Definition modify_stats (f : NegotiationStats -> NegotiationStats) : M unit :=
  modify_self (fun b => with_negotiation_stats (f (negotiation_stats b)) b).

Definition incr_total (st : NegotiationStats) : NegotiationStats :=
  {| total_negotiations := total_negotiations st + 1;
     successful_contracts := successful_contracts st;
     failed_negotiations := failed_negotiations st;
     stat_active_contracts := stat_active_contracts st |}.

Definition incr_successful (st : NegotiationStats) : NegotiationStats :=
  {| total_negotiations := total_negotiations st;
     successful_contracts := successful_contracts st + 1;
     failed_negotiations := failed_negotiations st;
     stat_active_contracts := stat_active_contracts st |}.

Definition incr_failed (st : NegotiationStats) : NegotiationStats :=
  {| total_negotiations := total_negotiations st;
     successful_contracts := successful_contracts st;
     failed_negotiations := failed_negotiations st + 1;
     stat_active_contracts := stat_active_contracts st |}.

Definition set_active_stat (n : Z) (st : NegotiationStats)
  : NegotiationStats :=
  {| total_negotiations := total_negotiations st;
     successful_contracts := successful_contracts st;
     failed_negotiations := failed_negotiations st;
     stat_active_contracts := n |}.

(** *** [IntentContract]: construction and clock-reading methods *)

(** [__post_init__]: [expires_at = created_at + timedelta(minutes=duration)]
    when the intent has a non-zero duration. *)
Definition post_init (c : IntentContract) : M IntentContract :=
  match client_intent c with
  | Some ci =>
      match duration ci with
      | Some d =>
          if d =? 0 then ret c
          else
            delta <- or_raise (timedelta (d * MICROS_PER_MINUTE))
                       (OverflowError "timedelta out of range") ;;
            e <- or_raise (datetime_add (created_at c) delta) date_overflow ;;
            ret (set_expires_at (Some e) c)
      | None => ret c
      end
  | None => ret c
  end.

(** [IntentContract(client_intent=..., server_capability=...,
    compatibility_result=..., is_active=..., agreed_purpose=...)]: the
    default factories draw the identifier, then read the clock. *)
Definition IntentContract_new (ci : option ClientIntentDeclaration)
    (sc : option ServerCapabilityDeclaration)
    (cr : option IntentCompatibilityResult)
    (active : bool) (agreed : string) : M IntentContract :=
  cid <- uuid4 ;;
  now <- utcnow ;;
  post_init
    {| contract_id := cid; client_intent := ci; server_capability := sc;
       compatibility_result := cr; agreed_purpose := agreed;
       allowed_operations := []; data_access_scope := [];
       constraints := []; rate_limits := [];
       created_at := now; expires_at := None; is_active := active;
       violation_count := 0; last_validated := None;
       transaction_count := 0; successful_transactions := 0;
       failed_transactions := 0 |}.

(** [is_expired()]: the clock is read only when [expires_at] is set. *)
Definition is_expired (c : IntentContract) : M bool :=
  match expires_at c with
  | None => ret false
  | Some e => now <- utcnow ;; ret (e <? now)
  end.

(** [contract.record_transaction(success)] on the stored object. *)
Definition record_transaction (cid : string) (success : bool) : M unit :=
  now <- utcnow ;;
  modify_contract cid (record_transaction_at now success).

(** *** Phase 1: declarations *)

Definition declare_client_intent (intent : ClientIntentDeclaration)
  : M string :=
  intent_id <- uuid4 ;;
  modify_self (fun b =>
    with_client_intents (PyDict.set (client_intents b) intent_id intent) b) ;;
  ret intent_id.

Definition register_server_capability
    (capability : ServerCapabilityDeclaration) : M string :=
  capability_id <- uuid4 ;;
  modify_self (fun b =>
    with_server_capabilities
      (PyDict.set (server_capabilities b) capability_id capability) b) ;;
  ret capability_id.

(** *** Phase 2: negotiation *)

(** The terms written on the contract, by compatibility status. *)
Definition negotiated_terms (ci : ClientIntentDeclaration)
    (sc : ServerCapabilityDeclaration) (cr : IntentCompatibilityResult)
    (additional_constraints : option (list string)) (c : IntentContract)
  : IntentContract :=
  match status cr with
  | COMPATIBLE =>
      let cons0 := intent_constraints ci in
      let cons1 :=
        if list_truthy (suggested_constraints cr)
        then (cons0 ++ suggested_constraints cr)%list else cons0 in
      let cons2 :=
        match additional_constraints with
        | Some (x :: l) => (cons1 ++ x :: l)%list
        | _ => cons1
        end in
      set_terms true (purpose ci) (supported_operations sc)
        (data_requirements ci) cons2 (capability_rate_limits sc) c
  | REQUIRES_NEGOTIATION =>
      set_terms false ("PENDING: " ++ purpose ci) (allowed_operations c)
        (data_access_scope c) (constraints c) (rate_limits c) c
  | _ =>
      set_terms false ("REJECTED: " ++ purpose ci) (allowed_operations c)
        (data_access_scope c) (constraints c) (rate_limits c) c
  end.

Definition negotiated_stats (cr : IntentCompatibilityResult) : M unit :=
  match status cr with
  | COMPATIBLE => modify_stats incr_successful
  | REQUIRES_NEGOTIATION => ret tt
  | _ => modify_stats incr_failed
  end.

Definition incr_active (st : NegotiationStats) : NegotiationStats :=
  set_active_stat (stat_active_contracts st + 1) st.

(** [self.contract_transactions[cid] = l] *)
Definition set_ledger (cid : string) (l : list TransactionRecord) : M unit :=
  modify_self (fun b =>
    with_contract_transactions
      (PyDict.set (contract_transactions b) cid l) b).

(** [self.active_contracts[contract.contract_id] = contract] *)
Definition register_contract (contract : IntentContract) : M unit :=
  modify_self (fun b =>
    with_active_contracts
      (PyDict.set (active_contracts b) (contract_id contract) contract) b).

(** The end of the [try] block: counters, storage, ledger, session. *)
Definition store_negotiated (ci : ClientIntentDeclaration)
    (cr : IntentCompatibilityResult) (contract : IntentContract)
  : M IntentContract :=
  negotiated_stats cr ;;
  register_contract contract ;;
  set_ledger (contract_id contract) [] ;;
  when (is_active contract)
    (modify_self (fun b =>
       with_client_sessions
         (PyDict.set (client_sessions b) (client_id ci)
            (contract_id contract)) b) ;;
     modify_stats incr_active) ;;
  ret contract.

(** The [try] block of [negotiate_intent_contract]. *)
Definition negotiate_body (ci : ClientIntentDeclaration)
    (sc : ServerCapabilityDeclaration)
    (additional_constraints : option (list string)) : M IntentContract :=
  cr <- ask (CallCompatibility ci sc)
          (fun h => llm_analyze_intent_compatibility (analyzer env) h ci sc) ;;
  c0 <- IntentContract_new (Some ci) (Some sc) (Some cr) true "" ;;
  store_negotiated ci cr (negotiated_terms ci sc cr additional_constraints c0).

(** The [except Exception as e] block of [negotiate_intent_contract]. *)
Definition negotiate_handler (ci : ClientIntentDeclaration)
    (sc : ServerCapabilityDeclaration) (e : PyExc) : M IntentContract :=
  modify_stats incr_failed ;;
  failed_contract <-
    IntentContract_new (Some ci) (Some sc) None false
      ("FAILED: " ++ exc_str e) ;;
  register_contract failed_contract ;;
  ret failed_contract.

Definition negotiate_intent_contract (client_intent_id : string)
    (server_capability_id : string)
    (additional_constraints : option (list string)) : M IntentContract :=
  modify_stats incr_total ;;
  b <- get_self ;;
  match PyDict.get (client_intents b) client_intent_id with
  | None => raise (ValueError ("Client intent not found: " ++ client_intent_id))
  | Some ci =>
      match PyDict.get (server_capabilities b) server_capability_id with
      | None =>
          raise (ValueError
                   ("Server capability not found: " ++ server_capability_id))
      | Some sc =>
          try_except (negotiate_body ci sc additional_constraints)
                     (negotiate_handler ci sc)
      end
  end.

(** *** Phase 3: validation of a transaction *)

(** [IntentTransactionValidation(...)] built by the broker: the default
    factory of [validated_at] reads the clock. *)
Definition IntentTransactionValidation_new (cid tid : string)
    (res : IntentValidationResult) (confidence : float)
    (reasons : list string) (alignment : float) (risks : list string)
    (action : string) : M IntentTransactionValidation :=
  now <- utcnow ;;
  ret {| tv_contract_id := cid; tv_transaction_id := tid;
         tv_validation_result := res; tv_confidence_score := confidence;
         tv_validation_reasons := reasons;
         tv_intent_alignment_score := alignment;
         tv_risk_factors := risks; tv_suggested_action := action;
         tv_validated_at := now; tv_client_protection := None;
         tv_server_protection := true |}.

(** The fixed verdict of the three early exits. *)
Definition deny_verdict (cid reason risk : string)
  : M IntentTransactionValidation :=
  tid <- uuid4 ;;
  IntentTransactionValidation_new cid tid INVALID 0%float [reason]
    0%float [risk] "deny".

Definition LEDGER_CAP : nat := 100.

(** [l[-100:]] *)
Definition last_hundred {A} (l : list A) : list A :=
  skipn (length l - LEDGER_CAP) l.

(** [self.contract_transactions[cid].append(record)] on the list [l]
    stored there, then the trim to the last hundred. *)
Definition append_to_ledger (cid : string) (l : list TransactionRecord)
    (record : TransactionRecord) : M unit :=
  let appended := (l ++ [record])%list in
  set_ledger cid appended ;;
  when (Nat.ltb LEDGER_CAP (length appended))
    (set_ledger cid (last_hundred appended)).

(** The [try] block of [validate_transaction]. *)
Definition validate_body (contract : IntentContract) (cid tid : string)
    (request_data : Payload) (response_data : option Payload)
  : M IntentTransactionValidation :=
  v0 <- ask (CallTransaction request_data response_data
               (agreed_purpose contract) (constraints contract))
          (fun h => llm_validate_transaction_intent (analyzer env) h
                      request_data response_data
                      (agreed_purpose contract) (constraints contract)) ;;
  let validation := tv_set_ids cid tid v0 in
  let success := is_valid (tv_validation_result validation) in
  record_transaction cid success ;;
  when (negb success) (modify_contract cid record_violation) ;;
  stamp <- utcnow ;;
  let transaction_record :=
    {| tx_transaction_id := tid; tx_timestamp := stamp;
       tx_request := request_data; tx_response := response_data;
       tx_validation_result :=
         validation_value (tv_validation_result validation);
       tx_intent_alignment_score := tv_intent_alignment_score validation |} in
  b <- get_self ;;
  match PyDict.get (contract_transactions b) cid with
  | None => raise (KeyError cid)
  | Some l => append_to_ledger cid l transaction_record ;; ret validation
  end.

(** The [except Exception as e] block of [validate_transaction]. *)
Definition validate_handler (cid tid : string) (e : PyExc)
  : M IntentTransactionValidation :=
  record_transaction cid false ;;
  modify_contract cid record_violation ;;
  IntentTransactionValidation_new cid tid INVALID 0%float
    ["Validation failed: " ++ exc_str e] 0%float ["validation_error"] "deny".

Definition validate_transaction (cid : string) (request_data : Payload)
    (response_data : option Payload) : M IntentTransactionValidation :=
  b <- get_self ;;
  match PyDict.get (active_contracts b) cid with
  | None => deny_verdict cid "Contract not found" "unknown_contract"
  | Some contract =>
      if negb (is_active contract)
      then deny_verdict cid "Contract is not active" "inactive_contract"
      else
        expired <- is_expired contract ;;
        if expired
        then
          modify_contract cid (set_is_active false) ;;
          deny_verdict cid "Contract has expired" "expired_contract"
        else
          tid <- uuid4 ;;
          try_except (validate_body contract cid tid request_data response_data)
                     (validate_handler cid tid)
  end.

(** *** Drift analysis *)

Definition ledger_of (b : IntentBroker) (cid : string)
  : list TransactionRecord :=
  match PyDict.get (contract_transactions b) cid with
  | Some l => l
  | None => []
  end.

(** [d.get(k, default)] *)
Definition get_default (d : Payload) (k : string) (default : PyValue)
  : PyValue :=
  match PyDict.get d k with Some v => v | None => default end.

Definition no_recent_transactions : Payload :=
  [("drift_detected", PyBool false); ("drift_severity", PyStr "none");
   ("drift_indicators", PyList []); ("recommended_action", PyStr "continue");
   ("confidence_score", PyFloat 1%float);
   ("message", PyStr "No recent transactions to analyze")].

Definition drift_failed (e : PyExc) : Payload :=
  [("drift_detected", PyBool false); ("drift_severity", PyStr "unknown");
   ("drift_indicators", PyList [PyStr ("Analysis failed: " ++ exc_str e)]);
   ("recommended_action", PyStr "review");
   ("confidence_score", PyFloat 0%float);
   ("error", PyStr (exc_str e))].

(** The transactions stamped after [cutoff_time]. *)
Definition recent_since (cutoff_time : datetime)
    (l : list TransactionRecord) : list TransactionRecord :=
  filter (fun tx => cutoff_time <? tx_timestamp tx) l.

(** The action taken on the analyzer's report. *)
Definition act_on_drift (cid : string) (drift_analysis : Payload) : M unit :=
  if truthy (get_default drift_analysis "drift_detected" (PyBool false))
  then
    let severity :=
      get_default drift_analysis "drift_severity" (PyStr "unknown") in
    if py_eq_str severity "high"
    then modify_contract cid (set_is_active false)
    else ret tt
  else ret tt.

Definition analyze_intent_drift (cid : string) (time_window_hours : Z)
  : M Payload :=
  b <- get_self ;;
  match PyDict.get (active_contracts b) cid with
  | None => ret [("error", PyStr "Contract not found")]
  | Some contract =>
      now <- utcnow ;;
      delta <- or_raise (timedelta (time_window_hours * MICROS_PER_HOUR))
                 (OverflowError "timedelta out of range") ;;
      cutoff_time <- or_raise (datetime_add now (- delta)) date_overflow ;;
      let recent_transactions := recent_since cutoff_time (ledger_of b cid) in
      match recent_transactions with
      | [] => ret no_recent_transactions
      | _ :: _ =>
          try_except
            (drift_analysis <-
               ask (CallDrift (agreed_purpose contract) recent_transactions
                      time_window_hours)
                 (fun h => llm_analyze_intent_drift (analyzer env) h
                             (agreed_purpose contract) recent_transactions
                             time_window_hours) ;;
             act_on_drift cid drift_analysis ;;
             ret drift_analysis)
            (fun e => ret (drift_failed e))
      end
  end.

(** *** Client protection and the bidirectional check *)

Definition ServerResponseValidation_new (cid tid : string)
    (res : IntentValidationResult) (confidence : float)
    (reasons : list string) (compliance : float)
    (privacy leakage unexpected : list string) (action : string)
  : M ServerResponseValidation :=
  now <- utcnow ;;
  ret {| rv_contract_id := cid; rv_transaction_id := tid;
         rv_validation_result := res; rv_confidence_score := confidence;
         rv_validation_reasons := reasons;
         rv_data_compliance_score := compliance;
         rv_privacy_violations := privacy;
         rv_data_leakage_risks := leakage;
         rv_unexpected_data := unexpected;
         rv_suggested_action := action; rv_validated_at := now |}.

Definition validate_server_response (cid tid : string)
    (request_data response_data : Payload) : M ServerResponseValidation :=
  b <- get_self ;;
  match PyDict.get (active_contracts b) cid with
  | None =>
      ServerResponseValidation_new cid tid INVALID 0%float
        ["Contract not found"] 0%float ["unknown_contract"]
        ["contract_not_found"] [] "deny"
  | Some contract =>
      try_except
        (rv <- ask (CallResponse (client_intent contract)
                      (server_capability contract) request_data
                      response_data (constraints contract))
                 (fun h => llm_validate_server_response (analyzer env) h
                             (client_intent contract)
                             (server_capability contract) request_data
                             response_data (constraints contract)) ;;
         ret (rv_set_ids cid tid rv))
        (fun e =>
           ServerResponseValidation_new cid tid INVALID 0%float
             ["Response validation failed: " ++ exc_str e] 0%float
             ["validation_error"] ["analysis_failed"] [] "deny")
  end.

Definition RESPONSE_RISKS : list string :=
  ["server_response_violation"; "client_protection_triggered"].

Definition validate_bidirectional_transaction (cid : string)
    (request_data : Payload) (response_data : option Payload)
  : M IntentTransactionValidation :=
  tid <- uuid4 ;;
  request_validation <- validate_transaction cid request_data response_data ;;
  if negb (is_valid (tv_validation_result request_validation))
  then ret request_validation
  else
    match response_data with
    | Some (x :: r) =>
        response_validation <-
          validate_server_response cid tid request_data (x :: r) ;;
        let attached :=
          tv_set_client_protection (Some response_validation)
            request_validation in
        if negb (is_valid (rv_validation_result response_validation))
        then ret (tv_escalate SUSPICIOUS RESPONSE_RISKS
                    (rv_suggested_action response_validation) attached)
        else ret attached
    | _ => ret request_validation
    end.

(** *** Session index and sweeper *)

(** [get_contract_by_client]: an empty identifier counts as no session. *)
Definition get_contract_by_client (b : IntentBroker) (client : string)
  : option IntentContract :=
  match PyDict.get (client_sessions b) client with
  | Some cid =>
      if String.eqb cid "" then None else PyDict.get (active_contracts b) cid
  | None => None
  end.

Definition get_active_contracts (b : IntentBroker) : list IntentContract :=
  filter is_active (PyDict.values (active_contracts b)).

(** The first loop of [cleanup_expired_contracts], over the items of
    [active_contracts]; returns [expired_contracts]. *)
Fixpoint sweep_contracts (items : list (string * IntentContract))
  : M (list string) :=
  match items with
  | [] => ret []
  | (cid, contract) :: rest =>
      expired <- is_expired contract ;;
      if expired && is_active contract
      then
        modify_contract cid (set_is_active false) ;;
        more <- sweep_contracts rest ;;
        ret (cid :: more)
      else sweep_contracts rest
  end.

(** The clients whose session points to a swept contract. *)
Definition sessions_of (expired_contracts : list string)
    (sessions : dict string) : list string :=
  map fst (filter (fun kv => str_in (snd kv) expired_contracts) sessions).

Definition cleanup_expired_contracts : M Z :=
  b <- get_self ;;
  expired_contracts <- sweep_contracts (active_contracts b) ;;
  modify_self (fun b =>
    let expired_sessions :=
      sessions_of expired_contracts (client_sessions b) in
    with_client_sessions
      (fold_left (fun d client => PyDict.del d client) expired_sessions
         (client_sessions b)) b) ;;
  modify_self (fun b =>
    with_negotiation_stats
      (set_active_stat
         (Z.of_nat (length (get_active_contracts b)))
         (negotiation_stats b)) b) ;;
  ret (Z.of_nat (length expired_contracts)).

(** *** Histories of broker operations *)

Inductive Op : Type :=
| DeclareIntent (intent : ClientIntentDeclaration)
| RegisterCapability (capability : ServerCapabilityDeclaration)
| Negotiate (client_intent_id server_capability_id : string)
    (additional_constraints : option (list string))
| Validate (cid : string) (request : Payload) (response : option Payload)
| ValidateResponse (cid tid : string) (request response : Payload)
| ValidateBidirectional (cid : string) (request : Payload)
    (response : option Payload)
| AnalyzeDrift (cid : string) (time_window_hours : Z)
| Cleanup.

(** The world after one operation; a raised exception is the caller's
    and leaves the mutations made before it. *)
Definition step (w : World) (op : Op) : World :=
  match op with
  | DeclareIntent i => exec (declare_client_intent i) w
  | RegisterCapability c => exec (register_server_capability c) w
  | Negotiate i c extra => exec (negotiate_intent_contract i c extra) w
  | Validate cid req resp => exec (validate_transaction cid req resp) w
  | ValidateResponse cid tid req resp =>
      exec (validate_server_response cid tid req resp) w
  | ValidateBidirectional cid req resp =>
      exec (validate_bidirectional_transaction cid req resp) w
  | AnalyzeDrift cid h => exec (analyze_intent_drift cid h) w
  | Cleanup => exec cleanup_expired_contracts w
  end.

Definition run (ops : list Op) (w : World) : World := fold_left step ops w.

(** The contract stored under [cid]. *)
Definition contract_of (w : World) (cid : string) : option IntentContract :=
  PyDict.get (active_contracts (self w)) cid.

End Broker.

Arguments contract_of w cid : simpl never.

(* ------------------------------------------------------------------ *)
(** ** Specification vocabulary *)

(** Per-contract lifecycle invariants of the data model. *)
Definition threshold_respected (c : IntentContract) : Prop :=
  VIOLATION_THRESHOLD <= violation_count c -> is_active c = false.

Definition counters_balanced (c : IntentContract) : Prop :=
  successful_transactions c + failed_transactions c = transaction_count c.

Definition contract_ok (c : IntentContract) : Prop :=
  threshold_respected c /\ counters_balanced c.

(** How a stored contract may differ between an earlier and a later world:
    violations only grow, an inactive contract stays inactive, identity
    and expiry are fixed. *)
Definition contract_le (c c' : IntentContract) : Prop :=
  violation_count c <= violation_count c' /\
  (is_active c = false -> is_active c' = false) /\
  expires_at c' = expires_at c /\
  contract_id c' = contract_id c.

(** A contract as its constructor leaves it. *)
Definition pristine (c : IntentContract) : Prop :=
  violation_count c = 0 /\ transaction_count c = 0 /\
  successful_transactions c = 0 /\ failed_transactions c = 0.

Definition ledger_bounded (w : World) : Prop :=
  forall cid l,
    PyDict.get (contract_transactions (self w)) cid = Some l ->
    (length l <= LEDGER_CAP)%nat.

Definition contracts_ok (w : World) : Prop :=
  forall cid c, contract_of w cid = Some c -> contract_ok c.

(** The invariant of every world the broker reaches. *)
Definition Inv (w : World) : Prop := contracts_ok w /\ ledger_bounded w.

Definition inv_step (w w' : World) : Prop := Inv w -> Inv w'.

(** The computation [m], started in [w], ends in a world related to [w]
    by [T], whether it returns or raises. *)
Definition respects (T : World -> World -> Prop) {A} (m : M A) (w : World)
  : Prop :=
  T w (exec m w).

(** Every stored contract is kept under an identifier already drawn. *)
Definition keyed (env : Env) (w : World) : Prop :=
  forall cid c,
    contract_of w cid = Some c ->
    exists i, (i < uuid_draws w)%nat /\ cid = uuid4_value env i.

Definition evolves (w w' : World) : Prop :=
  forall cid c,
    contract_of w cid = Some c ->
    exists c', contract_of w' cid = Some c' /\ contract_le c c'.

Definition keyed_step (env : Env) (w w' : World) : Prop :=
  keyed env w ->
  keyed env w' /\ (uuid_draws w <= uuid_draws w')%nat /\ evolves w w'.

(** [uuid4] never returns the same identifier twice. *)
Definition uuid_fresh (env : Env) : Prop :=
  forall i j, uuid4_value env i = uuid4_value env j -> i = j.

(** [created + timedelta(minutes=d)] overflows neither as a [timedelta]
    nor as a [datetime]. *)
Definition expiry_in_range (d : Z) (created : datetime) : Prop :=
  - TIMEDELTA_MAX_DAYS <= d * MICROS_PER_MINUTE / MICROS_PER_DAY
    <= TIMEDELTA_MAX_DAYS /\
  0 <= created + d * MICROS_PER_MINUTE <= DATETIME_MAX.

(** The expiry [__post_init__] computes for a contract created at
    [created]: none without a duration, and none for a duration of 0. *)
Definition expiry_for (ci : ClientIntentDeclaration) (created : datetime)
  : option datetime :=
  match duration ci with
  | Some d => if d =? 0 then None else Some (created + d * MICROS_PER_MINUTE)
  | None => None
  end.

(** Every violation was recorded with a failed transaction. *)
Definition tallied (c : IntentContract) : Prop :=
  violation_count c = failed_transactions c.

(** The three dictionaries of the broker agree: contracts are tallied,
    an active contract has a ledger, and a session names a stored
    contract. *)
Definition store_consistent (w : World) : Prop :=
  (forall cid c,
     contract_of w cid = Some c ->
     tallied c /\
     (is_active c = true ->
      PyDict.get (contract_transactions (self w)) cid <> None)) /\
  (forall client cid,
     PyDict.get (client_sessions (self w)) client = Some cid ->
     contract_of w cid <> None).

Definition consistent_step (w w' : World) : Prop :=
  store_consistent w -> store_consistent w'.

(** Between [w] and [w'] the response-protection oracle was not called. *)
Definition no_response_call (w w' : World) : Prop :=
  filter is_response_call (analyzer_calls w')
  = filter is_response_call (analyzer_calls w).

(** The reading of claim C6, "risk factors are overwritten from the
    response verdict": every risk factor of the outer verdict is one of
    the findings of the response verdict. *)
Definition risks_from_response (outer : IntentTransactionValidation)
    (rv : ServerResponseValidation) : Prop :=
  forall f, In f (tv_risk_factors outer) ->
    In f (rv_privacy_violations rv ++ rv_data_leakage_risks rv
          ++ rv_unexpected_data rv)%list.

(** The session index is consistent when no client is mapped to an
    inactive contract. *)
Definition sessions_consistent (w : World) : Prop :=
  forall client cid c,
    PyDict.get (client_sessions (self w)) client = Some cid ->
    contract_of w cid = Some c ->
    is_active c = true.

(* ------------------------------------------------------------------ *)
(** ** A scripted environment for concrete runs *)

Module Sample.

(** Identifiers ["#"], ["i#"], ["ii#"], ... : pairwise distinct. *)
Fixpoint uuid (n : nat) : string :=
  match n with
  | O => "#"
  | S k => "i" ++ uuid k
  end.

(** A clock that starts at [start] and advances [tick] per reading. *)
Definition clock (start tick : Z) (n : nat) : datetime :=
  start + tick * Z.of_nat n.

(** 2024-01-01T00:00:00 *)
Definition T0 : datetime := 63839664000000000.

Definition compat (s : IntentCompatibilityStatus)
  : IntentCompatibilityResult :=
  {| status := s; compat_confidence_score := 1%float;
     compatibility_reasons := []; suggested_constraints := [];
     risk_assessment := []; analysis_metadata := [] |}.

Definition verdict (r : IntentValidationResult)
  : IntentTransactionValidation :=
  {| tv_contract_id := ""; tv_transaction_id := "";
     tv_validation_result := r; tv_confidence_score := 1%float;
     tv_validation_reasons := []; tv_intent_alignment_score := 1%float;
     tv_risk_factors := ["r0"];
     tv_suggested_action := if is_valid r then "allow" else "deny";
     tv_validated_at := T0; tv_client_protection := None;
     tv_server_protection := true |}.

Definition response_verdict (r : IntentValidationResult)
  : ServerResponseValidation :=
  {| rv_contract_id := ""; rv_transaction_id := "";
     rv_validation_result := r; rv_confidence_score := 1%float;
     rv_validation_reasons := []; rv_data_compliance_score := 0%float;
     rv_privacy_violations := ["tracking_id"];
     rv_data_leakage_risks := ["pii"]; rv_unexpected_data := ["ssn"];
     rv_suggested_action := "sanitize"; rv_validated_at := T0 |}.

(** An analyzer stub with one fixed answer per method. *)
Definition stub (c : Outcome IntentCompatibilityResult)
    (t : Outcome IntentTransactionValidation)
    (r : Outcome ServerResponseValidation)
    (d : Outcome Payload) : Analyzer :=
  {| llm_analyze_intent_compatibility := fun _ _ _ => c;
     llm_validate_transaction_intent := fun _ _ _ _ _ => t;
     llm_validate_server_response := fun _ _ _ _ _ _ => r;
     llm_analyze_intent_drift := fun _ _ _ _ => d |}.

Definition unreachable : PyExc := Exc "Exception" "Ollama connection failed".

(** [drift_detected], [drift_severity] as the analyzer reports them. *)
Definition drift (detected : bool) (severity : string) : Payload :=
  [("drift_detected", PyBool detected); ("drift_severity", PyStr severity)].

Definition env_of (tick : Z) (a : Analyzer) : Env :=
  {| utcnow_reading := clock T0 tick; uuid4_value := uuid; analyzer := a |}.

(** Transactions are judged [t]; the response check says invalid;
    drift reports [d]. *)
Definition env_with (tick : Z) (t : Outcome IntentTransactionValidation)
    (d : Outcome Payload) : Env :=
  env_of tick
    (stub (Returned (compat COMPATIBLE)) t
       (Returned (response_verdict INVALID)) d).

(** The scenario of the specification: a one-hour weather session. *)
Definition intent : ClientIntentDeclaration :=
  {| purpose := "X"; data_requirements := ["weather"];
     intent_constraints := ["read_only"]; duration := Some 60;
     context := []; client_id := "client-1"; declared_at := T0 |}.

Definition capability : ServerCapabilityDeclaration :=
  {| provides := ["weather"]; boundaries := ["public_only"];
     capability_rate_limits := [("rpm", 60)];
     data_sensitivity := "public"; supported_operations := ["read"];
     server_id := "server-1"; registered_at := T0 |}.

Definition request : Payload := [("method", PyStr "tools/call")].
Definition response : Payload := [("temperature", PyInt 21)].

(** Declare, register and negotiate: the contract is stored under
    [uuid 2]. *)
Definition setup : list Op :=
  [DeclareIntent intent; RegisterCapability capability;
   Negotiate (uuid 0) (uuid 1) None].

Definition cid : string := uuid 2.

Definition validations (n : nat) : list Op :=
  repeat (Validate cid request None) n.

(** Every transaction is judged invalid. *)
Definition env_invalid : Env :=
  env_with 1000000 (Returned (verdict INVALID)) (Returned (drift true "high")).

(** Every transaction is judged valid; drift is reported as high. *)
Definition env_valid : Env :=
  env_with 1000 (Returned (verdict VALID)) (Returned (drift true "high")).

(** A stub whose transaction check raises into the broker (the shipped
    analyzer returns a verdict instead, see [env_down]). *)
Definition env_failing : Env :=
  env_with 1000000 (Raised unreachable) (Returned (drift true "high")).

(** More than an hour passes between two readings of the clock. *)
Definition env_slow : Env :=
  env_with 4000000000 (Returned (verdict VALID)) (Returned (drift true "high")).

(** The drift oracle says severity high, but no drift detected. *)
Definition env_undetected : Env :=
  env_with 1000 (Returned (verdict VALID)) (Returned (drift false "high")).

(** The compatibility oracle asks for a manual negotiation; transactions
    and responses are judged valid. *)
Definition env_pending : Env :=
  env_of 1000
    (stub (Returned (compat REQUIRES_NEGOTIATION)) (Returned (verdict VALID))
       (Returned (response_verdict VALID))
       (Returned (drift true "medium"))).

(** Compatibility is granted and everything is judged valid, but the
    drift oracle cannot be reached. *)
Definition env_all_valid : Env :=
  env_of 1000
    (stub (Returned (compat COMPATIBLE)) (Returned (verdict VALID))
       (Returned (response_verdict VALID)) (Raised unreachable)).

(** The compatibility oracle cannot be reached. *)
Definition env_offline : Env :=
  env_of 1000
    (stub (Raised unreachable) (Returned (verdict VALID))
       (Raised unreachable) (Raised unreachable)).

(** An intent without duration, and one whose duration no [timedelta]
    can hold. *)
Definition intent_forever : ClientIntentDeclaration :=
  {| purpose := "Y"; data_requirements := ["weather"];
     intent_constraints := ["read_only"]; duration := None;
     context := []; client_id := "client-2"; declared_at := T0 |}.

Definition intent_huge : ClientIntentDeclaration :=
  {| purpose := "Z"; data_requirements := ["weather"];
     intent_constraints := []; duration := Some 1000000000000000;
     context := []; client_id := "client-3"; declared_at := T0 |}.

(** The two declarations, not yet negotiated. *)
Definition declared (i : ClientIntentDeclaration) : list Op :=
  [DeclareIntent i; RegisterCapability capability].



(** Every transaction is judged invalid, and more than an hour passes
    between two readings of the clock. *)
Definition env_slow_invalid : Env :=
  env_with 4000000000 (Returned (verdict INVALID))
    (Returned (drift true "high")).

(** Two clients: ["client-2"] holds a contract without expiry, stored
    under [uuid 2] and deactivated by five violations; ["client-1"] holds
    a one-hour contract, stored under [uuid 4], that has run out but was
    never validated against. *)
Definition two_clients : list Op :=
  ([DeclareIntent intent_forever; RegisterCapability capability;
    Negotiate (uuid 0) (uuid 1) None;
    DeclareIntent intent; Negotiate (uuid 3) (uuid 1) None]
   ++ repeat (Validate (uuid 2) request None) 5)%list.

End Sample.

(* ------------------------------------------------------------------ *)
(** ** Facts about dictionaries *)

Local Open Scope list_scope.

Module PyDictFacts.
Import PyDict.

Lemma get_set {V} (d : dict V) k k' v :
  get (set d k v) k' = if String.eqb k k' then Some v else get d k'.
Proof.
  induction d as [|[k0 v0] r IH]; simpl.
  - reflexivity.
  - destruct (String.eqb_spec k0 k) as [->|Hne]; simpl.
    + destruct (String.eqb k k'); reflexivity.
    + rewrite IH.
      destruct (String.eqb_spec k0 k') as [->|Hne']; [|reflexivity].
      destruct (String.eqb_spec k k'); [congruence | reflexivity].
Qed.

Lemma get_set_eq {V} (d : dict V) k v : get (set d k v) k = Some v.
Proof. rewrite get_set, String.eqb_refl. reflexivity. Qed.

Lemma get_set_ne {V} (d : dict V) k k' v :
  k <> k' -> get (set d k v) k' = get d k'.
Proof.
  intros H. rewrite get_set.
  destruct (String.eqb_spec k k'); [contradiction | reflexivity].
Qed.

Lemma get_alter {V} (f : V -> V) k (d : dict V) k' :
  get (alter f k d) k' =
  if String.eqb k k' then option_map f (get d k') else get d k'.
Proof.
  unfold alter.
  destruct (String.eqb_spec k k') as [<-|Hne].
  - destruct (get d k) eqn:E; simpl.
    + apply get_set_eq.
    + exact E.
  - destruct (get d k); [apply get_set_ne; assumption | reflexivity].
Qed.

Lemma get_del {V} (d : dict V) k k' :
  get (del d k) k' = if String.eqb k k' then None else get d k'.
Proof.
  unfold del. induction d as [|[k0 v0] r IH]; simpl.
  - destruct (String.eqb k k'); reflexivity.
  - destruct (String.eqb_spec k0 k) as [->|Hne]; simpl.
    + rewrite IH. destruct (String.eqb k k'); reflexivity.
    + rewrite IH.
      destruct (String.eqb_spec k0 k') as [->|Hne']; [|reflexivity].
      destruct (String.eqb_spec k k'); [congruence | reflexivity].
Qed.

Lemma get_del_all {V} (ks : list string) (d : dict V) k :
  get (fold_left (fun d0 c => del d0 c) ks d) k =
  if str_in k ks then None else get d k.
Proof.
  revert d. induction ks as [|k0 r IH]; intros d; simpl.
  - reflexivity.
  - rewrite IH, get_del. unfold str_in in *.
    rewrite (String.eqb_sym k k0).
    destruct (String.eqb k0 k); simpl; destruct (existsb _ r); reflexivity.
Qed.

(** A visible entry is one of the items. *)
Lemma get_In {V} (d : dict V) k v : get d k = Some v -> In (k, v) d.
Proof.
  induction d as [|[k0 v0] r IH]; simpl; [discriminate|].
  destruct (String.eqb_spec k0 k) as [->|Hne]; intros H.
  - injection H as ->. left. reflexivity.
  - right. apply IH. exact H.
Qed.

End PyDictFacts.

Lemma str_in_In (x : string) (l : list string) : str_in x l = true <-> In x l.
Proof.
  unfold str_in. rewrite existsb_exists. split.
  - intros (y & Hy & E). apply String.eqb_eq in E. subst. exact Hy.
  - intros H. exists x. split; [exact H | apply String.eqb_refl].
Qed.

(* ------------------------------------------------------------------ *)
(** ** Running the monad *)

Lemma exec_bind {A B} (m : M A) (k : A -> M B) w :
  exec (bind m k) w =
  match m w with
  | (Returned a, w') => exec (k a) w'
  | (Raised _, w') => w'
  end.
Proof. unfold exec, bind. destruct (m w) as [[a|e] w']; reflexivity. Qed.

Lemma exec_try {A} (body : M A) (h : PyExc -> M A) w :
  exec (try_except body h) w =
  match body w with
  | (Returned _, w') => w'
  | (Raised e, w') => exec (h e) w'
  end.
Proof. unfold exec, try_except. destruct (body w) as [[a|e] w']; reflexivity. Qed.

(** A [try ... except Exception] whose handler returns never raises. *)
Lemma try_except_returns {A} (body : M A) (h : PyExc -> M A) w :
  (forall e w', exists a, result (h e) w' = Returned a) ->
  exists a, result (try_except body h) w = Returned a.
Proof.
  intros Hh. unfold result, try_except.
  destruct (body w) as [[a|e] w']; simpl.
  - exists a. reflexivity.
  - apply Hh.
Qed.

Section Respects.

Variable T : World -> World -> Prop.
Hypothesis T_refl : forall w, T w w.
Hypothesis T_trans : forall a b c, T a b -> T b c -> T a c.

Lemma respects_ret {A} (a : A) w : respects T (ret a) w.
Proof. apply T_refl. Qed.

Lemma respects_raise {A} e w : respects T (@raise A e) w.
Proof. apply T_refl. Qed.

Lemma respects_get_self {B} (k : IntentBroker -> M B) w :
  respects T (k (self w)) w -> respects T (bind get_self k) w.
Proof. intros H. exact H. Qed.

Lemma respects_bind {A B} (m : M A) (k : A -> M B) w :
  respects T m w ->
  (forall a w', m w = (Returned a, w') -> respects T (k a) w') ->
  respects T (bind m k) w.
Proof.
  unfold respects. intros Hm Hk. rewrite exec_bind.
  unfold exec in Hm. destruct (m w) as [[a|e] w'] eqn:E; simpl in Hm.
  - eapply T_trans; [exact Hm | apply Hk; reflexivity].
  - exact Hm.
Qed.

Lemma respects_try {A} (body : M A) (h : PyExc -> M A) w :
  respects T body w ->
  (forall e w', body w = (Raised e, w') -> respects T (h e) w') ->
  respects T (try_except body h) w.
Proof.
  unfold respects. intros Hm Hk. rewrite exec_try.
  unfold exec in Hm. destruct (body w) as [[a|e] w'] eqn:E; simpl in Hm.
  - exact Hm.
  - eapply T_trans; [exact Hm | apply Hk; reflexivity].
Qed.

Lemma respects_when b (m : M unit) w :
  (b = true -> respects T m w) -> respects T (when b m) w.
Proof.
  destruct b; simpl; intros H; [apply H; reflexivity | apply T_refl].
Qed.

Lemma respects_or_raise {A} (o : option A) e w : respects T (or_raise o e) w.
Proof. destruct o; apply T_refl. Qed.

End Respects.

(* ------------------------------------------------------------------ *)
(** ** Contract-level facts *)

Lemma pristine_ok c : pristine c -> contract_ok c.
Proof.
  intros (Hv & Ht & Hs & Hf). split.
  - unfold threshold_respected, VIOLATION_THRESHOLD. lia.
  - unfold counters_balanced. lia.
Qed.

Lemma record_transaction_at_ok now b c :
  contract_ok c -> contract_ok (record_transaction_at now b c).
Proof.
  intros [Ht Hc]. split.
  - exact Ht.
  - unfold counters_balanced in *. destruct b; simpl; lia.
Qed.

Lemma record_violation_ok c : contract_ok c -> contract_ok (record_violation c).
Proof.
  intros [Ht Hc]. split; [|exact Hc].
  unfold threshold_respected in *. simpl.
  unfold VIOLATION_THRESHOLD in *. intros H.
  destruct (Z.leb_spec 5 (violation_count c + 1)); [reflexivity | lia].
Qed.

Lemma deactivate_ok c : contract_ok c -> contract_ok (set_is_active false c).
Proof. intros [Ht Hc]. split; [intros _; reflexivity | exact Hc]. Qed.

Lemma contract_le_refl c : contract_le c c.
Proof. unfold contract_le. repeat split; auto; lia. Qed.

Lemma contract_le_trans a b c :
  contract_le a b -> contract_le b c -> contract_le a c.
Proof.
  unfold contract_le. intros (H1 & H2 & H3 & H4) (H5 & H6 & H7 & H8).
  repeat split; [lia | auto | congruence | congruence].
Qed.

Lemma record_transaction_at_le now b c :
  contract_le c (record_transaction_at now b c).
Proof. unfold contract_le; simpl. repeat split; auto; lia. Qed.

Lemma record_violation_le c : contract_le c (record_violation c).
Proof.
  unfold contract_le; simpl. repeat split; try lia.
  intros ->. destruct (_ <=? _); reflexivity.
Qed.

Lemma deactivate_le c : contract_le c (set_is_active false c).
Proof. unfold contract_le; simpl. repeat split; auto; lia. Qed.

Lemma negotiated_terms_pristine ci sc cr extra c :
  pristine c -> pristine (negotiated_terms ci sc cr extra c).
Proof. unfold negotiated_terms. destruct (status cr); intros H; exact H. Qed.

Lemma negotiated_terms_id ci sc cr extra c :
  contract_id (negotiated_terms ci sc cr extra c) = contract_id c.
Proof. unfold negotiated_terms. destruct (status cr); reflexivity. Qed.

Lemma last_hundred_length {A} (l : list A) :
  (length (last_hundred l) <= LEDGER_CAP)%nat.
Proof. unfold last_hundred. rewrite length_skipn. lia. Qed.

(** Trimming a ledger of a hundred and one records drops the oldest. *)
Lemma last_hundred_full {A} (x : A) (l : list A) (y : A) :
  length (x :: l) = LEDGER_CAP ->
  last_hundred ((x :: l) ++ [y]) = l ++ [y].
Proof.
  intros H. unfold last_hundred. rewrite length_app, H. reflexivity.
Qed.

(* ------------------------------------------------------------------ *)
(** ** The invariant is kept by every operation *)

Create HintDb broker.

(** Decompose a computation along its binds, handlers and branches, and
    close the leaves with the lemmas on primitives. *)
Ltac walk Rf Tr :=
  repeat first
    [ solve [eauto with broker]
    | apply respects_get_self
    | apply (respects_ret _ Rf)
    | apply (respects_raise _ Rf)
    | apply (respects_or_raise _ Rf)
    | apply (respects_when _ Rf); intros ?
    | apply (respects_bind _ Tr); [ | intros ? ? ? ]
    | apply (respects_try _ Tr); [ | intros ? ? ? ]
    | match goal with
      | |- respects _ (match ?x with _ => _ end) _ => destruct x eqn:?
      end ].

Section Invariant.

Variable env : Env.

Lemma inv_step_refl w : inv_step w w.
Proof. intros H. exact H. Qed.

Lemma inv_step_trans a b c : inv_step a b -> inv_step b c -> inv_step a c.
Proof. unfold inv_step. auto. Qed.

Lemma inv_same_store w w' :
  active_contracts (self w') = active_contracts (self w) ->
  contract_transactions (self w') = contract_transactions (self w) ->
  inv_step w w'.
Proof.
  intros Hc Hl [H1 H2]. split.
  - intros cid c. unfold contract_of. rewrite Hc. apply H1.
  - intros cid l. rewrite Hl. apply H2.
Qed.

Lemma inv_utcnow w : respects inv_step (utcnow env) w.
Proof. apply inv_same_store; reflexivity. Qed.

Lemma inv_uuid4 w : respects inv_step (uuid4 env) w.
Proof. apply inv_same_store; reflexivity. Qed.

Lemma inv_ask {A} c (answer : list AnalyzerCall -> Outcome A) w :
  respects inv_step (ask c answer) w.
Proof. apply inv_same_store; reflexivity. Qed.

Lemma inv_modify_stats f w : respects inv_step (modify_stats f) w.
Proof. apply inv_same_store; reflexivity. Qed.

Lemma inv_modify_other f w :
  (forall b, active_contracts (f b) = active_contracts b) ->
  (forall b, contract_transactions (f b) = contract_transactions b) ->
  respects inv_step (modify_self f) w.
Proof. intros H1 H2. apply inv_same_store; simpl; auto. Qed.

Lemma inv_modify_contract cid f w :
  (forall c, contract_ok c -> contract_ok (f c)) ->
  respects inv_step (modify_contract cid f) w.
Proof.
  intros Hf [H1 H2]. split.
  - intros k c. unfold contract_of. simpl.
    rewrite PyDictFacts.get_alter.
    destruct (String.eqb cid k).
    + destruct (PyDict.get _ k) as [c0|] eqn:E; simpl; [|discriminate].
      intros [= <-]. apply Hf. apply (H1 k). exact E.
    + apply H1.
  - exact H2.
Qed.

Lemma inv_register_contract c w :
  contract_ok c -> respects inv_step (register_contract c) w.
Proof.
  intros Hc [H1 H2]. split.
  - intros k c'. unfold contract_of. simpl. rewrite PyDictFacts.get_set.
    destruct (String.eqb _ k).
    + intros [= <-]. exact Hc.
    + apply H1.
  - exact H2.
Qed.

Lemma inv_set_ledger cid l w :
  (length l <= LEDGER_CAP)%nat -> respects inv_step (set_ledger cid l) w.
Proof.
  intros Hl [H1 H2]. split.
  - exact H1.
  - intros k l'. simpl. rewrite PyDictFacts.get_set.
    destruct (String.eqb cid k).
    + intros [= <-]. exact Hl.
    + apply H2.
Qed.

Lemma exec_append_to_ledger cid l r w :
  exec (append_to_ledger cid l r) w =
  exec (set_ledger cid
          (if Nat.ltb LEDGER_CAP (length (l ++ [r]))
           then last_hundred (l ++ [r]) else l ++ [r])) w.
Proof.
  unfold append_to_ledger, exec, bind, when, set_ledger, modify_self. simpl.
  destruct (Nat.ltb LEDGER_CAP (length (l ++ [r]))) eqn:E; simpl.
  - unfold with_self, with_contract_transactions. simpl. f_equal. f_equal.
    apply (f_equal (fun d => d)).
    induction (contract_transactions (self w)) as [|[k0 v0] d IH]; simpl.
    + rewrite String.eqb_refl. reflexivity.
    + destruct (String.eqb k0 cid) eqn:Ek; simpl; rewrite Ek.
      * reflexivity.
      * f_equal. exact IH.
  - reflexivity.
Qed.

Lemma inv_append_to_ledger cid l r w :
  respects inv_step (append_to_ledger cid l r) w.
Proof.
  unfold respects. rewrite exec_append_to_ledger.
  apply inv_set_ledger.
  destruct (Nat.ltb_spec LEDGER_CAP (length (l ++ [r]))).
  - apply last_hundred_length.
  - assumption.
Qed.

Hint Resolve inv_utcnow inv_uuid4 inv_ask inv_modify_stats
  inv_modify_contract inv_register_contract inv_set_ledger
  inv_append_to_ledger record_transaction_at_ok record_violation_ok
  deactivate_ok pristine_ok negotiated_terms_pristine : broker.


Hint Extern 2 (length _ <= LEDGER_CAP)%nat =>
  unfold LEDGER_CAP; simpl; lia : broker.

Hint Extern 1 (respects inv_step (modify_self _) _) =>
  apply inv_modify_other; reflexivity : broker.

(** What the constructor returns, and what it consumes. *)
Lemma IntentContract_new_returns ci sc cr a p w c w' :
  IntentContract_new env ci sc cr a p w = (Returned c, w') ->
  pristine c /\ contract_id c = uuid4_value env (uuid_draws w) /\
  is_active c = a /\ agreed_purpose c = p /\
  self w' = self w /\ uuid_draws w' = S (uuid_draws w) /\
  analyzer_calls w' = analyzer_calls w.
Proof.
  unfold IntentContract_new, bind, uuid4, utcnow, post_init. simpl.
  destruct ci as [ci|]; simpl.
  - destruct (duration ci) as [d|]; simpl.
    + destruct (d =? 0); simpl.
      * intros [= <- <-]. unfold pristine. simpl. repeat split.
      * unfold or_raise, bind.
        destruct (timedelta _); simpl; [|discriminate].
        destruct (datetime_add _ _); simpl; [|discriminate].
        intros [= <- <-]. unfold pristine. simpl. repeat split.
    + intros [= <- <-]. unfold pristine. simpl. repeat split.
  - intros [= <- <-]. unfold pristine. simpl. repeat split.
Qed.

Lemma IntentContract_new_world ci sc cr a p w :
  self (exec (IntentContract_new env ci sc cr a p) w) = self w /\
  uuid_draws (exec (IntentContract_new env ci sc cr a p) w)
    = S (uuid_draws w) /\
  analyzer_calls (exec (IntentContract_new env ci sc cr a p) w)
    = analyzer_calls w.
Proof.
  unfold exec, IntentContract_new, bind, uuid4, utcnow, post_init. simpl.
  destruct ci as [ci|]; simpl; [|repeat split].
  destruct (duration ci) as [d|]; simpl; [|repeat split].
  destruct (d =? 0); simpl; [repeat split|].
  unfold or_raise, bind.
  destruct (timedelta _); simpl; [|repeat split].
  destruct (datetime_add _ _); simpl; repeat split.
Qed.

Lemma inv_IntentContract_new ci sc cr a p w :
  respects inv_step (IntentContract_new env ci sc cr a p) w.
Proof.
  apply inv_same_store;
    destruct (IntentContract_new_world ci sc cr a p w) as (-> & _);
    reflexivity.
Qed.

Hint Resolve inv_IntentContract_new : broker.

Lemma inv_store_negotiated ci cr c w :
  contract_ok c -> respects inv_step (store_negotiated ci cr c) w.
Proof.
  intros Hc. unfold store_negotiated, negotiated_stats.
  walk inv_step_refl inv_step_trans.
Qed.

Lemma IntentContract_new_pristine ci sc cr a p w c w' :
  IntentContract_new env ci sc cr a p w = (Returned c, w') -> pristine c.
Proof. intros H. apply (IntentContract_new_returns _ _ _ _ _ _ H). Qed.

Hint Resolve inv_store_negotiated IntentContract_new_pristine : broker.

Lemma inv_negotiate i c extra w :
  respects inv_step (negotiate_intent_contract env i c extra) w.
Proof.
  unfold negotiate_intent_contract, negotiate_body, negotiate_handler.
  walk inv_step_refl inv_step_trans.
Qed.

Lemma inv_validate cid req resp w :
  respects inv_step (validate_transaction env cid req resp) w.
Proof.
  unfold validate_transaction, deny_verdict, is_expired, validate_body,
    validate_handler, record_transaction, IntentTransactionValidation_new.
  walk inv_step_refl inv_step_trans.
Qed.

Lemma inv_drift cid hours w :
  respects inv_step (analyze_intent_drift env cid hours) w.
Proof.
  unfold analyze_intent_drift, act_on_drift.
  walk inv_step_refl inv_step_trans.
Qed.

Lemma inv_response cid tid req resp w :
  respects inv_step (validate_server_response env cid tid req resp) w.
Proof.
  unfold validate_server_response, ServerResponseValidation_new.
  walk inv_step_refl inv_step_trans.
Qed.

Hint Resolve inv_validate inv_response : broker.

Lemma inv_bidirectional cid req resp w :
  respects inv_step (validate_bidirectional_transaction env cid req resp) w.
Proof.
  unfold validate_bidirectional_transaction.
  walk inv_step_refl inv_step_trans.
Qed.

Lemma inv_sweep items w : respects inv_step (sweep_contracts env items) w.
Proof.
  revert w. induction items as [|[cid c] rest IH]; intros w; simpl.
  - apply (respects_ret _ inv_step_refl).
  - unfold is_expired. walk inv_step_refl inv_step_trans.
Qed.

Hint Resolve inv_sweep : broker.

Lemma inv_cleanup w : respects inv_step (cleanup_expired_contracts env) w.
Proof.
  unfold cleanup_expired_contracts. walk inv_step_refl inv_step_trans.
Qed.

Lemma inv_declare i w : respects inv_step (declare_client_intent env i) w.
Proof. unfold declare_client_intent. walk inv_step_refl inv_step_trans. Qed.

Lemma inv_register c w :
  respects inv_step (register_server_capability env c) w.
Proof.
  unfold register_server_capability. walk inv_step_refl inv_step_trans.
Qed.

Lemma inv_op w op : inv_step w (step env w op).
Proof.
  destruct op; simpl.
  - apply inv_declare.
  - apply inv_register.
  - apply inv_negotiate.
  - apply inv_validate.
  - apply inv_response.
  - apply inv_bidirectional.
  - apply inv_drift.
  - apply inv_cleanup.
Qed.

Lemma Inv_run ops w : Inv w -> Inv (run env ops w).
Proof.
  revert w. induction ops as [|op ops IH]; intros w H; simpl.
  - exact H.
  - apply IH. apply inv_op. exact H.
Qed.

Lemma Inv_init : Inv World_init.
Proof. split; intros cid x; unfold contract_of; simpl; discriminate. Qed.

End Invariant.

(* ------------------------------------------------------------------ *)
(** ** Stored contracts only move forward *)

Lemma evolves_refl w : evolves w w.
Proof. intros cid c H. exists c. split; [exact H | apply contract_le_refl]. Qed.

Lemma evolves_trans a b c : evolves a b -> evolves b c -> evolves a c.
Proof.
  intros H1 H2 cid x Hx.
  destruct (H1 _ _ Hx) as (y & Hy & Hxy).
  destruct (H2 _ _ Hy) as (z & Hz & Hyz).
  exists z. split; [exact Hz | eapply contract_le_trans; eassumption].
Qed.

Section Permanence.

Variable env : Env.
Hypothesis fresh : uuid_fresh env.

Lemma keyed_step_refl w : keyed_step env w w.
Proof. intros H. repeat split; [exact H | lia | apply evolves_refl]. Qed.

Lemma keyed_step_trans a b c :
  keyed_step env a b -> keyed_step env b c -> keyed_step env a c.
Proof.
  intros H1 H2 Ha.
  destruct (H1 Ha) as (Hb & L1 & E1).
  destruct (H2 Hb) as (Hc & L2 & E2).
  repeat split; [exact Hc | lia | eapply evolves_trans; eassumption].
Qed.

Lemma key_same w w' :
  active_contracts (self w') = active_contracts (self w) ->
  (uuid_draws w <= uuid_draws w')%nat ->
  keyed_step env w w'.
Proof.
  intros Hc Hd Hk. repeat split.
  - intros cid c. unfold contract_of. rewrite Hc. intros H.
    destruct (Hk cid c H) as (i & Hi & ->). exists i. split; [lia | reflexivity].
  - exact Hd.
  - intros cid c. unfold contract_of. rewrite Hc. intros H.
    exists c. split; [exact H | apply contract_le_refl].
Qed.

Lemma key_utcnow w : respects (keyed_step env) (utcnow env) w.
Proof. apply key_same; simpl; [reflexivity | lia]. Qed.

Lemma key_uuid4 w : respects (keyed_step env) (uuid4 env) w.
Proof. apply key_same; simpl; [reflexivity | lia]. Qed.

Lemma key_ask {A} c (answer : list AnalyzerCall -> Outcome A) w :
  respects (keyed_step env) (ask c answer) w.
Proof. apply key_same; simpl; [reflexivity | lia]. Qed.

Lemma key_modify_stats f w : respects (keyed_step env) (modify_stats f) w.
Proof. apply key_same; simpl; [reflexivity | lia]. Qed.

Lemma key_set_ledger cid l w : respects (keyed_step env) (set_ledger cid l) w.
Proof. apply key_same; simpl; [reflexivity | lia]. Qed.

Lemma key_append_to_ledger cid l r w :
  respects (keyed_step env) (append_to_ledger cid l r) w.
Proof.
  unfold respects. rewrite exec_append_to_ledger. apply key_set_ledger.
Qed.

Lemma key_modify_other f w :
  (forall b, active_contracts (f b) = active_contracts b) ->
  respects (keyed_step env) (modify_self f) w.
Proof. intros H. apply key_same; simpl; [apply H | lia]. Qed.

Lemma key_modify_contract cid f w :
  (forall c, contract_le c (f c)) ->
  respects (keyed_step env) (modify_contract cid f) w.
Proof.
  intros Hf Hk. repeat split.
  - intros k c. unfold contract_of. simpl. rewrite PyDictFacts.get_alter.
    destruct (String.eqb cid k).
    + destruct (PyDict.get _ k) as [c0|] eqn:E; simpl; [|discriminate].
      intros _. apply (Hk k c0). exact E.
    + apply Hk.
  - simpl. lia.
  - intros k c. unfold contract_of. simpl. rewrite PyDictFacts.get_alter.
    intros E. rewrite E.
    destruct (String.eqb cid k); simpl.
    + exists (f c). split; [reflexivity | apply Hf].
    + exists c. split; [reflexivity | apply contract_le_refl].
Qed.

(** Storing a contract under the identifier just drawn touches no
    contract stored before. *)
Lemma key_fresh_store w w' c :
  keyed env w ->
  contract_id c = uuid4_value env (uuid_draws w) ->
  active_contracts (self w')
    = PyDict.set (active_contracts (self w)) (contract_id c) c ->
  uuid_draws w' = S (uuid_draws w) ->
  keyed env w' /\ (uuid_draws w <= uuid_draws w')%nat /\ evolves w w'.
Proof.
  intros Hk Hid Hc Hd. repeat split.
  - intros k x. unfold contract_of. rewrite Hc, PyDictFacts.get_set.
    destruct (String.eqb_spec (contract_id c) k) as [<-|Hne].
    + intros _. exists (uuid_draws w). split; [lia | exact Hid].
    + intros H. destruct (Hk k x H) as (i & Hi & ->).
      exists i. split; [lia | reflexivity].
  - lia.
  - intros k x H. unfold contract_of. rewrite Hc, PyDictFacts.get_set.
    destruct (String.eqb_spec (contract_id c) k) as [E|Hne].
    + exfalso. destruct (Hk k x H) as (i & Hi & ->).
      rewrite Hid in E. apply fresh in E. lia.
    + exists x. split; [exact H | apply contract_le_refl].
Qed.

Lemma store_negotiated_world ci cr c w :
  active_contracts (self (exec (store_negotiated ci cr c) w))
    = PyDict.set (active_contracts (self w)) (contract_id c) c /\
  uuid_draws (exec (store_negotiated ci cr c) w) = uuid_draws w.
Proof.
  unfold store_negotiated, negotiated_stats, exec, bind, when.
  destruct (status cr); destruct (is_active c); simpl; split; reflexivity.
Qed.

Lemma key_new_store_negotiated ci sc cr extra w :
  respects (keyed_step env)
    (c0 <- IntentContract_new env (Some ci) (Some sc) (Some cr) true "" ;;
     store_negotiated ci cr (negotiated_terms ci sc cr extra c0))%py w.
Proof.
  unfold respects. rewrite exec_bind.
  destruct (IntentContract_new_world env (Some ci) (Some sc) (Some cr) true
              "" w) as (Hs & Hd & _).
  unfold exec in Hs, Hd.
  destruct (IntentContract_new env _ _ _ _ _ w) as [[c0|e] w1] eqn:E;
    simpl in Hs, Hd.
  - intros Hk.
    destruct (store_negotiated_world ci cr
                (negotiated_terms ci sc cr extra c0) w1) as (Hc & Hd').
    apply key_fresh_store with (c := negotiated_terms ci sc cr extra c0).
    + exact Hk.
    + rewrite negotiated_terms_id.
      apply (IntentContract_new_returns _ _ _ _ _ _ _ E).
    + rewrite Hc, Hs. reflexivity.
    + rewrite Hd', Hd. reflexivity.
  - apply key_same; [rewrite Hs; reflexivity | lia].
Qed.

Lemma key_new_register ci sc p w :
  respects (keyed_step env)
    (failed_contract <- IntentContract_new env (Some ci) (Some sc) None
                          false p ;;
     register_contract failed_contract ;;
     ret failed_contract)%py w.
Proof.
  unfold respects. rewrite exec_bind.
  destruct (IntentContract_new_world env (Some ci) (Some sc) None false
              p w) as (Hs & Hd & _).
  unfold exec in Hs, Hd.
  destruct (IntentContract_new env _ _ _ _ _ w) as [[c0|e] w1] eqn:E;
    simpl in Hs, Hd.
  - intros Hk. apply key_fresh_store with (c := c0).
    + exact Hk.
    + apply (IntentContract_new_returns _ _ _ _ _ _ _ E).
    + simpl. rewrite Hs. reflexivity.
    + simpl. exact Hd.
  - apply key_same; [rewrite Hs; reflexivity | lia].
Qed.

Hint Resolve key_utcnow key_uuid4 key_ask key_modify_stats key_set_ledger
  key_append_to_ledger key_modify_contract key_new_store_negotiated
  key_new_register record_transaction_at_le record_violation_le
  deactivate_le : broker.

Hint Extern 1 (respects (keyed_step _) (modify_self _) _) =>
  apply key_modify_other; reflexivity : broker.

Lemma key_negotiate i c extra w :
  respects (keyed_step env) (negotiate_intent_contract env i c extra) w.
Proof.
  unfold negotiate_intent_contract, negotiate_body, negotiate_handler.
  walk keyed_step_refl keyed_step_trans.
Qed.

Lemma key_validate cid req resp w :
  respects (keyed_step env) (validate_transaction env cid req resp) w.
Proof.
  unfold validate_transaction, deny_verdict, is_expired, validate_body,
    validate_handler, record_transaction, IntentTransactionValidation_new.
  walk keyed_step_refl keyed_step_trans.
Qed.

Lemma key_drift cid hours w :
  respects (keyed_step env) (analyze_intent_drift env cid hours) w.
Proof.
  unfold analyze_intent_drift, act_on_drift.
  walk keyed_step_refl keyed_step_trans.
Qed.

Lemma key_response cid tid req resp w :
  respects (keyed_step env) (validate_server_response env cid tid req resp) w.
Proof.
  unfold validate_server_response, ServerResponseValidation_new.
  walk keyed_step_refl keyed_step_trans.
Qed.

Hint Resolve key_validate key_response : broker.

Lemma key_bidirectional cid req resp w :
  respects (keyed_step env)
    (validate_bidirectional_transaction env cid req resp) w.
Proof.
  unfold validate_bidirectional_transaction.
  walk keyed_step_refl keyed_step_trans.
Qed.

Lemma key_sweep items w :
  respects (keyed_step env) (sweep_contracts env items) w.
Proof.
  revert w. induction items as [|[cid c] rest IH]; intros w; simpl.
  - apply (respects_ret _ keyed_step_refl).
  - unfold is_expired. walk keyed_step_refl keyed_step_trans.
Qed.

Hint Resolve key_sweep : broker.

Lemma key_cleanup w :
  respects (keyed_step env) (cleanup_expired_contracts env) w.
Proof.
  unfold cleanup_expired_contracts. walk keyed_step_refl keyed_step_trans.
Qed.

Lemma key_declare i w :
  respects (keyed_step env) (declare_client_intent env i) w.
Proof.
  unfold declare_client_intent. walk keyed_step_refl keyed_step_trans.
Qed.

Lemma key_register c w :
  respects (keyed_step env) (register_server_capability env c) w.
Proof.
  unfold register_server_capability.
  walk keyed_step_refl keyed_step_trans.
Qed.

Lemma key_op w op : keyed_step env w (step env w op).
Proof.
  destruct op; simpl.
  - apply key_declare.
  - apply key_register.
  - apply key_negotiate.
  - apply key_validate.
  - apply key_response.
  - apply key_bidirectional.
  - apply key_drift.
  - apply key_cleanup.
Qed.

Lemma key_run ops w : keyed_step env w (run env ops w).
Proof.
  revert w. induction ops as [|op ops IH]; intros w; simpl.
  - apply keyed_step_refl.
  - eapply keyed_step_trans; [apply key_op | apply IH].
Qed.

Lemma keyed_init : keyed env World_init.
Proof. intros cid c. unfold contract_of. simpl. discriminate. Qed.

Lemma keyed_reachable ops : keyed env (run env ops World_init).
Proof. destruct (@key_run ops World_init keyed_init) as [H _]. exact H. Qed.

(** Whatever happens next, a stored contract is still stored, with at
    least as many violations, and inactive if it was. *)
Lemma stored_forever w after cid c :
  keyed env w ->
  contract_of w cid = Some c ->
  exists c', contract_of (run env after w) cid = Some c' /\ contract_le c c'.
Proof.
  intros Hk Hc. destruct (@key_run after w Hk) as (_ & _ & He).
  apply He. exact Hc.
Qed.

(** C1.  In every world the broker reaches, a contract whose
    [violation_count] has reached the threshold of 5 is inactive; and
    after any further operations it is still stored, still inactive, and
    its [violation_count] has not decreased. *)
Theorem violation_threshold_is_permanent (before after : list Op) cid c :
  contract_of (run env before World_init) cid = Some c ->
  VIOLATION_THRESHOLD <= violation_count c ->
  is_active c = false /\
  exists c',
    contract_of (run env after (run env before World_init)) cid = Some c' /\
    is_active c' = false /\
    violation_count c <= violation_count c'.
Proof.
  intros Hc Hv.
  assert (Ha : is_active c = false).
  { destruct (Inv_run env before Inv_init) as [Hok _].
    destruct (Hok cid c Hc) as [Ht _]. apply Ht. exact Hv. }
  split; [exact Ha|].
  destruct (@stored_forever _ after _ _ (keyed_reachable before) Hc)
    as (c' & Hc' & Hle & Hact & _).
  exists c'. repeat split; auto.
Qed.

(** The contract after a drift analysis that reaches the analyzer. *)
Lemma drift_outcome w cid c hours delta cutoff tx txs d :
  contract_of w cid = Some c ->
  timedelta (hours * MICROS_PER_HOUR) = Some delta ->
  datetime_add (utcnow_reading env (clock_reads w)) (- delta) = Some cutoff ->
  recent_since cutoff (ledger_of (self w) cid) = tx :: txs ->
  llm_analyze_intent_drift (analyzer env) (analyzer_calls w)
    (agreed_purpose c) (tx :: txs) hours = Returned d ->
  result (analyze_intent_drift env cid hours) w = Returned d /\
  contract_of (exec (analyze_intent_drift env cid hours) w) cid =
    Some (if truthy (get_default d "drift_detected" (PyBool false))
             && py_eq_str (get_default d "drift_severity" (PyStr "unknown"))
                  "high"
          then set_is_active false c else c).
Proof.
  unfold contract_of. intros Hc Hd Hcut Hrec Hllm.
  unfold result, exec, analyze_intent_drift, bind, get_self. simpl.
  rewrite Hc. rewrite Hd. simpl. rewrite Hcut. simpl. rewrite Hrec.
  unfold try_except. simpl. rewrite Hllm.
  unfold act_on_drift.
  destruct (truthy _); simpl.
  - destruct (py_eq_str _ _); simpl.
    + split; [reflexivity|].
      rewrite PyDictFacts.get_alter, String.eqb_refl, Hc. reflexivity.
    + split; [reflexivity | exact Hc].
  - split; [reflexivity | exact Hc].
Qed.

(** C9 (amended).  For a reachable contract with a transaction in the
    window, when the drift oracle reports drift ([drift_detected] true)
    with severity [high], [analyze_intent_drift] deactivates the contract
    and no later operation reactivates it; on severity [medium] the
    contract is left as it was. *)
Theorem detected_high_drift_deactivates (before after : list Op)
    cid c hours delta cutoff tx txs d :
  let w := run env before World_init in
  let w' := exec (analyze_intent_drift env cid hours) w in
  let severity := get_default d "drift_severity" (PyStr "unknown") in
  contract_of w cid = Some c ->
  timedelta (hours * MICROS_PER_HOUR) = Some delta ->
  datetime_add (utcnow_reading env (clock_reads w)) (- delta) = Some cutoff ->
  recent_since cutoff (ledger_of (self w) cid) = tx :: txs ->
  llm_analyze_intent_drift (analyzer env) (analyzer_calls w)
    (agreed_purpose c) (tx :: txs) hours = Returned d ->
  (truthy (get_default d "drift_detected" (PyBool false)) = true ->
   py_eq_str severity "high" = true ->
   contract_of w' cid = Some (set_is_active false c) /\
   exists c', contract_of (run env after w') cid = Some c' /\
              is_active c' = false) /\
  (py_eq_str severity "medium" = true -> contract_of w' cid = Some c).
Proof.
  intros w w' severity Hc Hd Hcut Hrec Hllm.
  destruct (@drift_outcome w cid c hours delta cutoff tx txs d
              Hc Hd Hcut Hrec Hllm) as [_ Hout].
  fold w' in Hout. fold severity in Hout. split.
  - intros Ht Hs. rewrite Ht, Hs in Hout. simpl in Hout.
    split; [exact Hout|].
    assert (Hk : keyed env w').
    { destruct (@key_drift cid hours w (keyed_reachable before)) as [H _].
      exact H. }
    destruct (@stored_forever _ after _ _ Hk Hout)
      as (c' & Hc' & _ & Hact & _).
    exists c'. split; [exact Hc' | apply Hact; reflexivity].
  - intros Hm. rewrite Hout.
    assert (Hh : py_eq_str severity "high" = false).
    { unfold py_eq_str in *. destruct severity; try discriminate.
      apply String.eqb_eq in Hm. subst. reflexivity. }
    rewrite Hh, andb_false_r. reflexivity.
Qed.

End Permanence.

(* ------------------------------------------------------------------ *)
(** ** Single operations *)

Section Operations.

Variable env : Env.

(** C7.  For every contract of every world the broker reaches, whatever
    the analyzer answered or raised along the way,
    [successful_transactions + failed_transactions = transaction_count]. *)
Theorem counters_always_balanced (ops : list Op) cid c :
  contract_of (run env ops World_init) cid = Some c ->
  successful_transactions c + failed_transactions c = transaction_count c.
Proof.
  intros Hc. destruct (Inv_run env ops Inv_init) as [Hok _].
  destruct (Hok cid c Hc) as [_ Hb]. exact Hb.
Qed.

(** C2.  Validating against a contract whose [expires_at] lies before
    the clock returns an [INVALID] verdict with action ["deny"], makes no
    analyzer call, and leaves the contract inactive, whether or not it
    was active before. *)
Theorem expired_contract_is_denied w cid c e req resp :
  contract_of w cid = Some c ->
  expires_at c = Some e ->
  e < utcnow_reading env (clock_reads w) ->
  exists v c',
    result (validate_transaction env cid req resp) w = Returned v /\
    tv_validation_result v = INVALID /\
    tv_suggested_action v = "deny" /\
    analyzer_calls (exec (validate_transaction env cid req resp) w)
      = analyzer_calls w /\
    contract_of (exec (validate_transaction env cid req resp) w) cid
      = Some c' /\
    is_active c' = false.
Proof.
  unfold contract_of. intros Hc He Hlt.
  unfold result, exec, validate_transaction, bind, get_self. simpl.
  rewrite Hc. destruct (is_active c) eqn:Ha; simpl.
  - unfold is_expired. rewrite He. simpl.
    apply Z.ltb_lt in Hlt. rewrite Hlt. simpl.
    eexists. exists (set_is_active false c).
    repeat split.
    rewrite PyDictFacts.get_alter, String.eqb_refl, Hc. reflexivity.
  - eexists. exists c. repeat split; assumption.
Qed.

Lemma is_expired_world c w :
  self (exec (is_expired env c) w) = self w /\
  analyzer_calls (exec (is_expired env c) w) = analyzer_calls w /\
  uuid_draws (exec (is_expired env c) w) = uuid_draws w.
Proof.
  unfold is_expired. destruct (expires_at c); repeat split.
Qed.

(** An active contract that has not expired gets its transaction
    identifier and goes to the analyzer. *)
Lemma validate_reaches_analyzer w cid c req resp :
  contract_of w cid = Some c ->
  is_active c = true ->
  result (is_expired env c) w = Returned false ->
  validate_transaction env cid req resp w =
  try_except
    (validate_body env c cid (uuid4_value env (uuid_draws w)) req resp)
    (validate_handler env cid (uuid4_value env (uuid_draws w)))
    (exec (uuid4 env) (exec (is_expired env c) w)).
Proof.
  unfold contract_of. intros Hc Ha He.
  destruct (is_expired_world c w) as (_ & _ & Hd).
  unfold validate_transaction, bind, get_self. rewrite Hc, Ha. simpl.
  unfold result, exec in *.
  destruct (is_expired env c w) as [[b|x] w1]; simpl in *;
    [|discriminate].
  injection He as ->. rewrite Hd. reflexivity.
Qed.

Lemma append_to_ledger_run cid l r w :
  append_to_ledger cid l r w =
  (Returned tt,
   exec (set_ledger cid
           (if Nat.ltb LEDGER_CAP (length (l ++ [r]))
            then last_hundred (l ++ [r]) else l ++ [r])) w).
Proof.
  rewrite <- exec_append_to_ledger.
  unfold append_to_ledger, exec, bind, when, set_ledger, modify_self. simpl.
  destruct (Nat.ltb LEDGER_CAP (length (l ++ [r]))); reflexivity.
Qed.

(** The record a returning analyzer call leaves in the ledger. *)
Lemma validate_appends w cid c req resp v0 l :
  contract_of w cid = Some c ->
  is_active c = true ->
  result (is_expired env c) w = Returned false ->
  llm_validate_transaction_intent (analyzer env) (analyzer_calls w) req resp
    (agreed_purpose c) (constraints c) = Returned v0 ->
  PyDict.get (contract_transactions (self w)) cid = Some l ->
  exists r,
    tx_transaction_id r = uuid4_value env (uuid_draws w) /\
    tx_request r = req /\ tx_response r = resp /\
    tx_validation_result r = validation_value (tv_validation_result v0) /\
    PyDict.get
      (contract_transactions
         (self (exec (validate_transaction env cid req resp) w))) cid
    = Some (if Nat.ltb LEDGER_CAP (length (l ++ [r]))
            then last_hundred (l ++ [r]) else l ++ [r]).
Proof.
  intros Hc Ha He Hllm Hl.
  unfold exec at 1.
  rewrite (@validate_reaches_analyzer w cid c req resp Hc Ha He).
  destruct (is_expired_world c w) as (Hs & Hcalls & _).
  set (w1 := exec (is_expired env c) w) in *.
  unfold try_except, validate_body, bind, ask. simpl.
  rewrite Hcalls, Hllm. simpl.
  unfold record_transaction, bind, utcnow, when. simpl.
  destruct (is_valid (tv_validation_result v0)); simpl; rewrite Hs, Hl;
    rewrite append_to_ledger_run; simpl;
    (eexists; repeat apply conj;
       [ | | | | apply PyDictFacts.get_set_eq ]; reflexivity).
Qed.

(** C8.  In every world the broker reaches, the ledger of a contract
    holds at most 100 records; and when it holds exactly 100 and a
    validated transaction is recorded, the oldest record goes and the
    new one is last, the others keeping their order. *)
Theorem ledger_is_a_sliding_window (ops : list Op) cid l :
  let w := run env ops World_init in
  PyDict.get (contract_transactions (self w)) cid = Some l ->
  (length l <= LEDGER_CAP)%nat /\
  forall c req resp v0 oldest rest,
    contract_of w cid = Some c ->
    is_active c = true ->
    result (is_expired env c) w = Returned false ->
    llm_validate_transaction_intent (analyzer env) (analyzer_calls w)
      req resp (agreed_purpose c) (constraints c) = Returned v0 ->
    l = oldest :: rest ->
    length l = LEDGER_CAP ->
    exists r,
      tx_transaction_id r = uuid4_value env (uuid_draws w) /\
      tx_request r = req /\
      PyDict.get
        (contract_transactions
           (self (exec (validate_transaction env cid req resp) w))) cid
      = Some (rest ++ [r]).
Proof.
  intros w Hl. split.
  - destruct (Inv_run env ops Inv_init) as [_ Hb]. apply (Hb cid l Hl).
  - intros c req resp v0 oldest rest Hc Ha He Hllm -> Hlen.
    destruct (@validate_appends w cid c req resp v0 (oldest :: rest)
                Hc Ha He Hllm Hl) as (r & Hid & Hreq & _ & _ & Hget).
    exists r. repeat split; [exact Hid | exact Hreq |].
    rewrite Hget, (@last_hundred_full _ oldest rest r Hlen).
    rewrite length_app, Hlen. reflexivity.
Qed.

(** The [except] block of [validate_transaction], reached when the call
    on the analyzer itself raises (the shipped analyzer does not: it
    turns a failure into a verdict): the broker returns an [INVALID]
    verdict with action ["deny"] whose reason embeds the cause, and it
    has incremented [transaction_count], [failed_transactions] and
    [violation_count]; the ledger is left as it was. *)
Lemma raising_analyzer_is_recorded w cid c req resp exn :
  let w' := exec (validate_transaction env cid req resp) w in
  contract_of w cid = Some c ->
  is_active c = true ->
  result (is_expired env c) w = Returned false ->
  llm_validate_transaction_intent (analyzer env) (analyzer_calls w) req resp
    (agreed_purpose c) (constraints c) = Raised exn ->
  exists v c',
    result (validate_transaction env cid req resp) w = Returned v /\
    tv_validation_result v = INVALID /\
    tv_suggested_action v = "deny" /\
    tv_validation_reasons v = [("Validation failed: " ++ exc_str exn)%string] /\
    contract_of w' cid = Some c' /\
    transaction_count c' = transaction_count c + 1 /\
    failed_transactions c' = failed_transactions c + 1 /\
    successful_transactions c' = successful_transactions c /\
    violation_count c' = violation_count c + 1 /\
    contract_transactions (self w') = contract_transactions (self w).
Proof.
  intros w' Hc Ha He Hllm. unfold w', result, exec.
  rewrite (@validate_reaches_analyzer w cid c req resp Hc Ha He).
  destruct (is_expired_world c w) as (Hs & Hcalls & _).
  set (w1 := exec (is_expired env c) w) in *.
  unfold try_except, validate_body, bind, ask. simpl.
  rewrite Hcalls, Hllm. simpl.
  eexists. exists (record_violation (record_transaction_at
                     (utcnow_reading env (clock_reads w1)) false c)).
  repeat split.
  - unfold contract_of. simpl.
    rewrite !PyDictFacts.get_alter, String.eqb_refl, Hs.
    unfold contract_of in Hc. rewrite Hc. reflexivity.
  - rewrite Hs. reflexivity.
Qed.

(** C4 (amended).  Negotiating with an unknown client-intent or
    server-capability handle raises [ValueError] naming the missing
    declaration (the client intent when both are unknown), creates no
    contract and calls nothing; the only change is [total_negotiations],
    incremented by one. *)
Theorem negotiate_unknown_handle w iid sid extra :
  let w' := exec (negotiate_intent_contract env iid sid extra) w in
  PyDict.get (client_intents (self w)) iid = None \/
  PyDict.get (server_capabilities (self w)) sid = None ->
  result (negotiate_intent_contract env iid sid extra) w
    = Raised (ValueError
                match PyDict.get (client_intents (self w)) iid with
                | None => ("Client intent not found: " ++ iid)%string
                | Some _ => ("Server capability not found: " ++ sid)%string
                end) /\
  self w' = with_negotiation_stats (incr_total (negotiation_stats (self w)))
              (self w) /\
  active_contracts (self w') = active_contracts (self w) /\
  client_sessions (self w') = client_sessions (self w) /\
  contract_transactions (self w') = contract_transactions (self w) /\
  successful_contracts (negotiation_stats (self w'))
    = successful_contracts (negotiation_stats (self w)) /\
  failed_negotiations (negotiation_stats (self w'))
    = failed_negotiations (negotiation_stats (self w)) /\
  stat_active_contracts (negotiation_stats (self w'))
    = stat_active_contracts (negotiation_stats (self w)) /\
  total_negotiations (negotiation_stats (self w'))
    = total_negotiations (negotiation_stats (self w)) + 1 /\
  analyzer_calls w' = analyzer_calls w /\
  uuid_draws w' = uuid_draws w /\
  clock_reads w' = clock_reads w.
Proof.
  intros w' H. unfold w', result, exec, negotiate_intent_contract, bind.
  simpl.
  destruct (PyDict.get (client_intents (self w)) iid) as [ci|]; simpl.
  - destruct H as [H|H]; [discriminate|]. rewrite H. simpl.
    repeat split.
  - repeat split.
Qed.

(** ** The response oracle is only called by the response check *)

Lemma rc_refl w : no_response_call w w.
Proof. reflexivity. Qed.

Lemma rc_trans a b c :
  no_response_call a b -> no_response_call b c -> no_response_call a c.
Proof. unfold no_response_call. congruence. Qed.

Lemma rc_utcnow w : respects no_response_call (utcnow env) w.
Proof. reflexivity. Qed.

Lemma rc_uuid4 w : respects no_response_call (uuid4 env) w.
Proof. reflexivity. Qed.

Lemma rc_modify_self f w : respects no_response_call (modify_self f) w.
Proof. reflexivity. Qed.

Lemma rc_modify_contract cid f w :
  respects no_response_call (modify_contract cid f) w.
Proof. reflexivity. Qed.

Lemma rc_set_ledger cid l w : respects no_response_call (set_ledger cid l) w.
Proof. reflexivity. Qed.

Lemma rc_ask {A} c (answer : list AnalyzerCall -> Outcome A) w :
  is_response_call c = false -> respects no_response_call (ask c answer) w.
Proof.
  intros H. unfold respects, no_response_call. simpl.
  rewrite filter_app. simpl. rewrite H. apply app_nil_r.
Qed.

Hint Resolve rc_utcnow rc_uuid4 rc_modify_self rc_modify_contract
  rc_set_ledger rc_ask : broker.

Lemma rc_validate cid req resp w :
  respects no_response_call (validate_transaction env cid req resp) w.
Proof.
  unfold validate_transaction, deny_verdict, is_expired, validate_body,
    validate_handler, record_transaction, IntentTransactionValidation_new.
  walk rc_refl rc_trans.
Qed.

(** C5.  When the request check returns a verdict that is not [VALID],
    [validate_bidirectional_transaction] returns that verdict in the
    world the request check left: nothing of the response path has run,
    and the response oracle has not been called. *)
Theorem bidirectional_fails_fast w cid req resp v w1 :
  validate_transaction env cid req resp (exec (uuid4 env) w)
    = (Returned v, w1) ->
  tv_validation_result v <> VALID ->
  validate_bidirectional_transaction env cid req resp w = (Returned v, w1) /\
  no_response_call w w1.
Proof.
  intros Hv Hne. split.
  - unfold validate_bidirectional_transaction, bind. simpl.
    unfold exec in Hv. simpl in Hv. rewrite Hv.
    destruct (tv_validation_result v); [contradiction | | | ]; reflexivity.
  - pose proof (rc_validate cid req resp (exec (uuid4 env) w)) as H.
    unfold respects in H.
    replace (exec (validate_transaction env cid req resp)
               (exec (uuid4 env) w)) with w1 in H
      by (unfold exec at 1; rewrite Hv; reflexivity).
    exact H.
Qed.

(** C6 (amended).  When the request check returns [VALID], the response
    is a non-empty dictionary and the response check returns a verdict
    that is not [VALID], the outer verdict is the request verdict made
    [SUSPICIOUS], with the response verdict attached as
    [client_protection], the two fixed tags of [RESPONSE_RISKS] appended
    to its risk factors, and the suggested action of the response
    verdict. *)
Theorem invalid_response_escalates w cid req x r v w1 rv w2 :
  validate_transaction env cid req (Some (x :: r)) (exec (uuid4 env) w)
    = (Returned v, w1) ->
  tv_validation_result v = VALID ->
  validate_server_response env cid (uuid4_value env (uuid_draws w)) req
    (x :: r) w1 = (Returned rv, w2) ->
  rv_validation_result rv <> VALID ->
  exists outer,
    validate_bidirectional_transaction env cid req (Some (x :: r)) w
      = (Returned outer, w2) /\
    outer = tv_escalate SUSPICIOUS RESPONSE_RISKS (rv_suggested_action rv)
              (tv_set_client_protection (Some rv) v) /\
    tv_validation_result outer = SUSPICIOUS /\
    tv_client_protection outer = Some rv /\
    tv_risk_factors outer = tv_risk_factors v ++ RESPONSE_RISKS /\
    tv_suggested_action outer = rv_suggested_action rv.
Proof.
  intros Hv Hvalid Hrv Hne.
  eexists. split; [|repeat split].
  unfold validate_bidirectional_transaction, bind. simpl.
  unfold exec in Hv. simpl in Hv. rewrite Hv, Hvalid. simpl.
  rewrite Hrv.
  destruct (rv_validation_result rv); [contradiction | | | ]; reflexivity.
Qed.

(** ** The sweep *)

Lemma is_expired_run c w :
  exists b w',
    is_expired env c w = (Returned b, w') /\
    self w' = self w /\ (clock_reads w <= clock_reads w')%nat /\
    (forall e, expires_at c = Some e ->
       b = (e <? utcnow_reading env (clock_reads w))).
Proof.
  unfold is_expired. destruct (expires_at c) as [e|].
  - eexists. eexists. split; [reflexivity|]. simpl.
    repeat split; [lia|]. intros e' [= ->]. reflexivity.
  - exists false, w. repeat split; [lia|]. discriminate.
Qed.

(** What the first loop of the sweep does to the stored contracts. *)
Lemma sweep_spec items w :
  exists expired w',
    sweep_contracts env items w = (Returned expired, w') /\
    client_sessions (self w') = client_sessions (self w) /\
    (clock_reads w <= clock_reads w')%nat /\
    forall k,
      contract_of w' k = contract_of w k \/
      (In k expired /\
       contract_of w' k = option_map (set_is_active false) (contract_of w k)).
Proof.
  revert w. induction items as [|[cid c] rest IH]; intros w; simpl.
  - exists [], w. repeat split; [lia|]. intros k. left. reflexivity.
  - destruct (is_expired_run c w) as (b & w1 & E & Hs & Hclk & _).
    unfold bind. rewrite E.
    destruct (b && is_active c); simpl.
    + set (w2 := with_self _ w1).
      destruct (IH w2) as (more & w' & E' & Hs' & Hclk' & Hk).
      rewrite E'. exists (cid :: more), w'.
      split; [reflexivity|]. split; [rewrite Hs'; simpl; rewrite Hs; reflexivity|].
      split; [simpl in Hclk'; lia|].
      intros k.
      assert (H2 : contract_of w2 k =
                   if String.eqb cid k
                   then option_map (set_is_active false) (contract_of w k)
                   else contract_of w k).
      { unfold contract_of, w2. simpl. rewrite PyDictFacts.get_alter, Hs.
        reflexivity. }
      destruct (String.eqb_spec cid k) as [->|Hne].
      * right. split; [left; reflexivity|].
        destruct (Hk k) as [H|[_ H]]; rewrite H, H2; [reflexivity|].
        destruct (contract_of w k); reflexivity.
      * destruct (Hk k) as [H|[Hin H]]; rewrite H, H2.
        -- left. reflexivity.
        -- right. split; [right; exact Hin | reflexivity].
    + destruct (IH w1) as (more & w' & E' & Hs' & Hclk' & Hk).
      rewrite E'. exists more, w'.
      split; [reflexivity|]. split; [congruence|]. split; [lia|].
      intros k. unfold contract_of in *. rewrite <- Hs. apply Hk.
Qed.

(** A contract that is past its expiry at every reading of the pass ends
    the pass inactive. *)
Lemma sweep_deactivates items w k c e :
  In (k, c) items ->
  contract_of w k = Some c ->
  expires_at c = Some e ->
  (forall n, (clock_reads w <= n)%nat -> e < utcnow_reading env n) ->
  exists c',
    contract_of (exec (sweep_contracts env items) w) k = Some c' /\
    is_active c' = false.
Proof.
  assert (Hdone : forall rest w0 c0,
            contract_of w0 k = Some c0 -> is_active c0 = false ->
            exists c',
              contract_of (exec (sweep_contracts env rest) w0) k = Some c' /\
              is_active c' = false).
  { intros rest w0 c0 H0 Ha.
    destruct (sweep_spec rest w0) as (ex & w' & E & _ & _ & Hk).
    unfold exec. rewrite E. simpl.
    destruct (Hk k) as [H|[_ H]]; rewrite H, H0.
    - exists c0. split; [reflexivity | exact Ha].
    - eexists. split; reflexivity. }
  revert w. induction items as [|[cid c0] rest IH]; intros w Hin Hc He Hclk;
    [contradiction|].
  simpl.
  destruct (is_expired_run c0 w) as (b & w1 & E & Hs & Hclk1 & Hb).
  assert (Hc1 : contract_of w1 k = Some c).
  { unfold contract_of in *. rewrite Hs. exact Hc. }
  unfold exec, bind. rewrite E.
  destruct (b && is_active c0) eqn:Hsw; simpl.
  - set (w2 := with_self _ w1).
    destruct (sweep_contracts env rest w2) as [[more|x] w'] eqn:E'.
    + change w' with (snd (Returned more, w')). rewrite <- E'.
      destruct (String.eqb_spec cid k) as [->|Hne].
      * apply (Hdone rest w2 (set_is_active false c)); [|reflexivity].
        unfold contract_of, w2. simpl.
        rewrite PyDictFacts.get_alter, String.eqb_refl.
        unfold contract_of in Hc1. rewrite Hc1. reflexivity.
      * apply IH.
        -- destruct Hin as [[= -> ->]|Hin]; [contradiction | exact Hin].
        -- unfold contract_of, w2. simpl. rewrite PyDictFacts.get_alter.
           destruct (String.eqb_spec cid k); [contradiction|]. exact Hc1.
        -- exact He.
        -- intros n Hn. apply Hclk. simpl in Hn. lia.
    + destruct (sweep_spec rest w2) as (ex & w'' & E'' & _).
      rewrite E'' in E'. discriminate.
  - destruct Hin as [[= -> ->]|Hin].
    + (* the contract itself: it is expired, so it was already inactive *)
      assert (Ha : is_active c = false).
      { rewrite (Hb e He) in Hsw.
        assert (Ht : (e <? utcnow_reading env (clock_reads w)) = true)
          by (apply Z.ltb_lt, Hclk; lia).
        rewrite Ht in Hsw. exact Hsw. }
      apply (Hdone rest w1 c Hc1 Ha).
    + apply IH; [exact Hin | exact Hc1 | exact He |].
      intros n Hn. apply Hclk. lia.
Qed.

Lemma sessions_of_In expired (sessions : dict string) client cid :
  PyDict.get sessions client = Some cid ->
  In cid expired ->
  str_in client (sessions_of expired sessions) = true.
Proof.
  intros Hg Hin. apply str_in_In. unfold sessions_of.
  apply (in_map fst _ (client, cid)). apply filter_In. split.
  - apply PyDictFacts.get_In. exact Hg.
  - simpl. apply str_in_In. exact Hin.
Qed.

End Operations.

(* ------------------------------------------------------------------ *)
(** ** Concrete runs *)

Lemma Sample_uuid_fresh tick a : uuid_fresh (Sample.env_of tick a).
Proof.
  unfold uuid_fresh. simpl. intros i.
  induction i as [|i IH]; intros [|j]; simpl; intros H.
  - reflexivity.
  - discriminate.
  - discriminate.
  - injection H as H. f_equal. apply IH. exact H.
Qed.

(** The scenario of the specification: five invalid validations
    deactivate the contract, and nothing afterwards brings it back. *)
Lemma violation_threshold_witness :
  exists c,
    contract_of
      (run Sample.env_invalid (Sample.setup ++ Sample.validations 5)
         World_init) Sample.cid = Some c /\
    violation_count c = 5 /\
    is_active c = false /\
    exists c',
      contract_of
        (run Sample.env_invalid
           (Sample.validations 2 ++
            [Cleanup; Negotiate (Sample.uuid 0) (Sample.uuid 1) None])
           (run Sample.env_invalid (Sample.setup ++ Sample.validations 5)
              World_init)) Sample.cid = Some c' /\
      is_active c' = false /\
      violation_count c <= violation_count c'.
Proof.
  eexists. split; [vm_compute; reflexivity|]. split; [reflexivity|].
  apply (@violation_threshold_is_permanent Sample.env_invalid
           (Sample_uuid_fresh _ _)
           (Sample.setup ++ Sample.validations 5)).
  - vm_compute. reflexivity.
  - vm_compute. discriminate.
Defined.

Lemma counters_balanced_witness :
  exists c,
    contract_of
      (run Sample.env_failing (Sample.setup ++ Sample.validations 3)
         World_init) Sample.cid = Some c /\
    transaction_count c = 3 /\
    successful_transactions c + failed_transactions c = transaction_count c.
Proof.
  eexists. split; [vm_compute; reflexivity|]. split; [reflexivity|].
  apply (@counters_always_balanced Sample.env_failing
           (Sample.setup ++ Sample.validations 3) Sample.cid).
  vm_compute. reflexivity.
Defined.

(** A one-hour contract validated when the clock has moved on by more
    than an hour. *)
Lemma expired_contract_witness :
  exists c e v c',
    contract_of (run Sample.env_slow Sample.setup World_init) Sample.cid
      = Some c /\
    is_active c = true /\
    expires_at c = Some e /\
    result (validate_transaction Sample.env_slow Sample.cid Sample.request
              None)
      (run Sample.env_slow Sample.setup World_init) = Returned v /\
    tv_validation_result v = INVALID /\
    tv_suggested_action v = "deny" /\
    analyzer_calls
      (exec (validate_transaction Sample.env_slow Sample.cid Sample.request
               None)
         (run Sample.env_slow Sample.setup World_init))
    = analyzer_calls (run Sample.env_slow Sample.setup World_init) /\
    contract_of
      (exec (validate_transaction Sample.env_slow Sample.cid Sample.request
               None)
         (run Sample.env_slow Sample.setup World_init)) Sample.cid
    = Some c' /\
    is_active c' = false.
Proof.
  destruct (@expired_contract_is_denied Sample.env_slow
              (run Sample.env_slow Sample.setup World_init) Sample.cid
              _ _ Sample.request None
              ltac:(vm_compute; reflexivity)
              ltac:(vm_compute; reflexivity)
              ltac:(vm_compute; reflexivity))
    as (v & c' & H).
  eexists. eexists. exists v, c'.
  split; [vm_compute; reflexivity|]. split; [reflexivity|].
  split; [reflexivity|]. exact H.
Defined.

(** With a stub analyzer that raises into the broker, no record is
    appended to the ledger of the contract. *)
Lemma raising_analyzer_appends_no_record :
  let w := run Sample.env_failing Sample.setup World_init in
  let w' :=
    exec (validate_transaction Sample.env_failing Sample.cid Sample.request
            None) w in
  (exists c, contract_of w Sample.cid = Some c /\ is_active c = true) /\
  ledger_of (self w) Sample.cid = [] /\
  ledger_of (self w') Sample.cid = [] /\
  length (ledger_of (self w') Sample.cid)
    <> S (length (ledger_of (self w) Sample.cid)).
Proof.
  split; [eexists; split; [vm_compute; reflexivity | reflexivity]|].
  split; [vm_compute; reflexivity|].
  split; [vm_compute; reflexivity|].
  vm_compute. discriminate.
Qed.

Lemma raising_analyzer_witness :
  exists c v c',
    contract_of (run Sample.env_failing Sample.setup World_init) Sample.cid
      = Some c /\
    result (validate_transaction Sample.env_failing Sample.cid
              Sample.request None)
      (run Sample.env_failing Sample.setup World_init) = Returned v /\
    tv_validation_result v = INVALID /\
    tv_suggested_action v = "deny" /\
    tv_validation_reasons v = ["Validation failed: Ollama connection failed"] /\
    contract_of
      (exec (validate_transaction Sample.env_failing Sample.cid
               Sample.request None)
         (run Sample.env_failing Sample.setup World_init)) Sample.cid
    = Some c' /\
    transaction_count c' = transaction_count c + 1 /\
    failed_transactions c' = failed_transactions c + 1 /\
    successful_transactions c' = successful_transactions c /\
    violation_count c' = violation_count c + 1 /\
    contract_transactions
      (self (exec (validate_transaction Sample.env_failing Sample.cid
                     Sample.request None)
               (run Sample.env_failing Sample.setup World_init)))
    = contract_transactions
        (self (run Sample.env_failing Sample.setup World_init)).
Proof.
  destruct (@raising_analyzer_is_recorded Sample.env_failing
              (run Sample.env_failing Sample.setup World_init) Sample.cid
              _ Sample.request None Sample.unreachable
              ltac:(vm_compute; reflexivity)
              ltac:(vm_compute; reflexivity)
              ltac:(vm_compute; reflexivity)
              ltac:(vm_compute; reflexivity))
    as (v & c' & H).
  eexists. exists v, c'.
  split; [vm_compute; reflexivity|]. exact H.
Defined.

(** C4, as stated, fails: a negotiation with unknown handles changes a
    negotiation counter. *)
Lemma negotiate_unknown_handle_counts :
  let w' :=
    exec (negotiate_intent_contract Sample.env_valid "no-intent"
            "no-capability" None) World_init in
  result (negotiate_intent_contract Sample.env_valid "no-intent"
            "no-capability" None) World_init
    = Raised (ValueError "Client intent not found: no-intent") /\
  total_negotiations (negotiation_stats (self World_init)) = 0 /\
  total_negotiations (negotiation_stats (self w')) = 1 /\
  negotiation_stats (self w') <> negotiation_stats (self World_init).
Proof.
  repeat split. vm_compute. discriminate.
Qed.

Lemma negotiate_unknown_handle_witness :
  result (negotiate_intent_contract Sample.env_valid (Sample.uuid 0)
            "no-capability" None)
    (run Sample.env_valid [DeclareIntent Sample.intent] World_init)
  = Raised (ValueError "Server capability not found: no-capability") /\
  active_contracts
    (self (exec (negotiate_intent_contract Sample.env_valid (Sample.uuid 0)
                   "no-capability" None)
             (run Sample.env_valid [DeclareIntent Sample.intent] World_init)))
  = [] /\
  total_negotiations
    (negotiation_stats
       (self (exec (negotiate_intent_contract Sample.env_valid
                      (Sample.uuid 0) "no-capability" None)
                (run Sample.env_valid [DeclareIntent Sample.intent]
                   World_init))))
  = 1.
Proof.
  destruct (@negotiate_unknown_handle Sample.env_valid
              (run Sample.env_valid [DeclareIntent Sample.intent] World_init)
              (Sample.uuid 0) "no-capability" None
              ltac:(right; vm_compute; reflexivity))
    as (Hr & _ & Hc & _ & _ & _ & _ & _ & Ht & _).
  split; [exact Hr|]. split; [exact Hc | exact Ht].
Defined.

Lemma bidirectional_fails_fast_witness :
  exists v w1,
    validate_transaction Sample.env_invalid Sample.cid Sample.request
      (Some Sample.response)
      (exec (uuid4 Sample.env_invalid)
         (run Sample.env_invalid Sample.setup World_init))
    = (Returned v, w1) /\
    tv_validation_result v = INVALID /\
    validate_bidirectional_transaction Sample.env_invalid Sample.cid
      Sample.request (Some Sample.response)
      (run Sample.env_invalid Sample.setup World_init)
    = (Returned v, w1) /\
    no_response_call (run Sample.env_invalid Sample.setup World_init) w1.
Proof.
  eexists. eexists.
  split; [vm_compute; reflexivity|]. split; [reflexivity|].
  apply (@bidirectional_fails_fast Sample.env_invalid).
  - vm_compute. reflexivity.
  - vm_compute. discriminate.
Defined.

(** C6, as stated, fails: the risk factor of the request verdict is still
    there, and the risk factors of the outer verdict are not findings of
    the response verdict. *)
Lemma response_verdict_does_not_overwrite_risks :
  exists outer rv,
    result (validate_bidirectional_transaction Sample.env_valid Sample.cid
              Sample.request (Some Sample.response))
      (run Sample.env_valid Sample.setup World_init) = Returned outer /\
    tv_validation_result outer = SUSPICIOUS /\
    tv_client_protection outer = Some rv /\
    rv_validation_result rv = INVALID /\
    tv_risk_factors outer
      = ["r0"; "server_response_violation"; "client_protection_triggered"] /\
    ~ risks_from_response outer rv.
Proof.
  eexists. eexists.
  split; [vm_compute; reflexivity|]. split; [reflexivity|].
  split; [reflexivity|]. split; [reflexivity|]. split; [reflexivity|].
  intros H. specialize (H "r0" (or_introl eq_refl)). simpl in H.
  destruct H as [H|[H|[H|[]]]]; discriminate.
Qed.

Lemma invalid_response_witness :
  exists v w1 rv w2 outer,
    validate_transaction Sample.env_valid Sample.cid Sample.request
      (Some Sample.response)
      (exec (uuid4 Sample.env_valid)
         (run Sample.env_valid Sample.setup World_init))
    = (Returned v, w1) /\
    tv_validation_result v = VALID /\
    validate_server_response Sample.env_valid Sample.cid (Sample.uuid 3)
      Sample.request Sample.response w1 = (Returned rv, w2) /\
    rv_validation_result rv = INVALID /\
    validate_bidirectional_transaction Sample.env_valid Sample.cid
      Sample.request (Some Sample.response)
      (run Sample.env_valid Sample.setup World_init)
    = (Returned outer, w2) /\
    tv_validation_result outer = SUSPICIOUS /\
    tv_client_protection outer = Some rv /\
    tv_risk_factors outer = tv_risk_factors v ++ RESPONSE_RISKS /\
    tv_suggested_action outer = rv_suggested_action rv.
Proof.
  destruct (@invalid_response_escalates Sample.env_valid
              (run Sample.env_valid Sample.setup World_init) Sample.cid
              Sample.request ("temperature", PyInt 21) [] _ _ _ _
              ltac:(vm_compute; reflexivity)
              ltac:(reflexivity)
              ltac:(vm_compute; reflexivity)
              ltac:(vm_compute; discriminate))
    as (outer & H1 & _ & H2).
  eexists. eexists. eexists. eexists. exists outer.
  split; [vm_compute; reflexivity|]. split; [reflexivity|].
  split; [vm_compute; reflexivity|]. split; [reflexivity|].
  split; [exact H1 | exact H2].
Defined.

(** A hundred valid transactions fill the ledger; the next one pushes
    the first record out. *)
Lemma ledger_window_witness :
  exists l oldest rest r,
    PyDict.get
      (contract_transactions
         (self (run Sample.env_valid (Sample.setup ++ Sample.validations 100)
                  World_init))) Sample.cid = Some l /\
    l = oldest :: rest /\
    length l = 100%nat /\
    tx_transaction_id oldest = Sample.uuid 3 /\
    tx_transaction_id r = Sample.uuid 103 /\
    PyDict.get
      (contract_transactions
         (self (exec (validate_transaction Sample.env_valid Sample.cid
                        Sample.request None)
                  (run Sample.env_valid
                     (Sample.setup ++ Sample.validations 100) World_init))))
      Sample.cid = Some (rest ++ [r]).
Proof.
  destruct (@ledger_is_a_sliding_window Sample.env_valid
              (Sample.setup ++ Sample.validations 100) Sample.cid _
              ltac:(vm_compute; reflexivity)) as [_ H].
  destruct (H _ Sample.request None _ _ _
              ltac:(vm_compute; reflexivity)
              ltac:(vm_compute; reflexivity)
              ltac:(vm_compute; reflexivity)
              ltac:(vm_compute; reflexivity)
              ltac:(reflexivity)
              ltac:(reflexivity)) as (r & Hid & _ & Hget).
  eexists. eexists. eexists. exists r.
  split; [vm_compute; reflexivity|]. split; [reflexivity|].
  split; [reflexivity|]. split; [reflexivity|].
  split; [exact Hid | exact Hget].
Defined.

(** C9, as stated, fails: a report of severity [high] that does not say
    drift was detected leaves the contract active. *)
Lemma undetected_high_severity_keeps_contract_active :
  let w :=
    run Sample.env_undetected (Sample.setup ++ Sample.validations 1)
      World_init in
  let w' := exec (analyze_intent_drift Sample.env_undetected Sample.cid 24) w in
  result (analyze_intent_drift Sample.env_undetected Sample.cid 24) w
    = Returned (Sample.drift false "high") /\
  py_eq_str
    (get_default (Sample.drift false "high") "drift_severity"
       (PyStr "unknown")) "high" = true /\
  length (analyzer_calls w') = S (length (analyzer_calls w)) /\
  exists c, contract_of w' Sample.cid = Some c /\ is_active c = true.
Proof.
  split; [vm_compute; reflexivity|]. split; [reflexivity|].
  split; [vm_compute; reflexivity|].
  eexists. split; [vm_compute; reflexivity | reflexivity].
Qed.

Lemma detected_high_drift_witness :
  exists c c',
    contract_of
      (run Sample.env_valid (Sample.setup ++ Sample.validations 1) World_init)
      Sample.cid = Some c /\
    is_active c = true /\
    contract_of
      (exec (analyze_intent_drift Sample.env_valid Sample.cid 24)
         (run Sample.env_valid (Sample.setup ++ Sample.validations 1)
            World_init)) Sample.cid = Some (set_is_active false c) /\
    contract_of
      (run Sample.env_valid (Sample.validations 2)
         (exec (analyze_intent_drift Sample.env_valid Sample.cid 24)
            (run Sample.env_valid (Sample.setup ++ Sample.validations 1)
               World_init))) Sample.cid = Some c' /\
    is_active c' = false.
Proof.
  destruct (@detected_high_drift_deactivates Sample.env_valid
              (Sample_uuid_fresh _ _)
              (Sample.setup ++ Sample.validations 1) (Sample.validations 2)
              Sample.cid _ 24 _ _ _ _ (Sample.drift true "high")
              ltac:(vm_compute; reflexivity)
              ltac:(vm_compute; reflexivity)
              ltac:(vm_compute; reflexivity)
              ltac:(vm_compute; reflexivity)
              ltac:(vm_compute; reflexivity)) as [H _].
  destruct (H eq_refl eq_refl) as (H1 & c' & H2 & H3).
  eexists. exists c'.
  split; [vm_compute; reflexivity|]. split; [reflexivity|].
  split; [exact H1|]. split; [exact H2 | exact H3].
Defined.

(** C10, as stated, fails: after five violations and a pass of the
    sweeper, the session of the client still maps to the deactivated
    contract. *)
Lemma sweep_keeps_session_of_violating_contract :
  let w :=
    run Sample.env_invalid
      (Sample.setup ++ Sample.validations 5 ++ [Cleanup]) World_init in
  PyDict.get (client_sessions (self w)) "client-1" = Some Sample.cid /\
  (exists c, get_contract_by_client (self w) "client-1" = Some c /\
             violation_count c = 5 /\ is_active c = false) /\
  ~ sessions_consistent w.
Proof.
  split; [vm_compute; reflexivity|].
  split; [eexists; split; [vm_compute; reflexivity | split; reflexivity]|].
  intros H.
  pose proof (H "client-1" Sample.cid) as X. vm_compute in X.
  specialize (X _ eq_refl eq_refl). discriminate.
Qed.

(* ------------------------------------------------------------------ *)
(** ** Further properties of the broker operations *)

Section Verdicts.

Variable env : Env.

Lemma validate_returns w cid req resp :
  exists v, result (validate_transaction env cid req resp) w = Returned v.
Proof.
  unfold validate_transaction, result, bind, get_self. simpl.
  destruct (PyDict.get (active_contracts (self w)) cid) as [c|];
    [|eexists; reflexivity].
  destruct (is_active c); simpl; [|eexists; reflexivity].
  destruct (is_expired_run env c w) as (b & w1 & E & _). rewrite E.
  destruct b; simpl; [eexists; reflexivity|].
  apply try_except_returns. intros e w'. eexists. reflexivity.
Qed.

(** X1. [validate_transaction] absorbs every exception: whatever the world,
    the arguments and the analyzer, it returns a verdict. *)
Theorem validate_transaction_never_raises w cid req resp :
  exists v, result (validate_transaction env cid req resp) w = Returned v.
Proof. apply validate_returns. Qed.

(** X2. An unknown contract identifier is refused without consulting the
    analyzer and without touching the broker. *)
Theorem validate_unknown_contract w cid req resp :
  PyDict.get (active_contracts (self w)) cid = None ->
  exists v,
    result (validate_transaction env cid req resp) w = Returned v /\
    tv_validation_result v = INVALID /\
    tv_suggested_action v = "deny" /\
    tv_risk_factors v = ["unknown_contract"] /\
    tv_validation_reasons v = ["Contract not found"] /\
    tv_contract_id v = cid /\
    self (exec (validate_transaction env cid req resp) w) = self w /\
    analyzer_calls (exec (validate_transaction env cid req resp) w)
      = analyzer_calls w.
Proof.
  intros H. unfold validate_transaction, result, exec, bind, get_self. simpl.
  rewrite H. eexists. repeat split.
Qed.

(** X3. An inactive contract is refused before its expiry is even looked at:
    the broker is left untouched (the contract stays as it is) and the
    analyzer is not consulted. *)
Theorem validate_inactive_contract w cid c req resp :
  contract_of w cid = Some c ->
  is_active c = false ->
  exists v,
    result (validate_transaction env cid req resp) w = Returned v /\
    tv_validation_result v = INVALID /\
    tv_suggested_action v = "deny" /\
    tv_risk_factors v = ["inactive_contract"] /\
    self (exec (validate_transaction env cid req resp) w) = self w /\
    clock_reads (exec (validate_transaction env cid req resp) w)
      = S (clock_reads w) /\
    analyzer_calls (exec (validate_transaction env cid req resp) w)
      = analyzer_calls w.
Proof.
  unfold contract_of. intros Hc Ha.
  unfold validate_transaction, result, exec, bind, get_self. simpl.
  rewrite Hc, Ha. simpl. eexists. repeat split.
Qed.

Lemma response_check_frame w cid tid req resp :
  (exists rv,
     result (validate_server_response env cid tid req resp) w = Returned rv /\
     rv_contract_id rv = cid /\ rv_transaction_id rv = tid) /\
  self (exec (validate_server_response env cid tid req resp) w) = self w.
Proof.
  unfold validate_server_response, result, exec, bind, get_self. simpl.
  destruct (PyDict.get (active_contracts (self w)) cid) as [c|].
  - unfold try_except, bind, ask. simpl.
    destruct (llm_validate_server_response _ _ _ _ _ _ _) as [rv|e]; simpl;
      split; try reflexivity; eexists; repeat split.
  - split; [eexists; repeat split | reflexivity].
Qed.

(** X4. The response check only reads the broker: it never raises and it
    leaves contracts, counters, ledger and sessions as they were. *)
Theorem validate_server_response_is_read_only w cid tid req resp :
  (exists rv,
     result (validate_server_response env cid tid req resp) w = Returned rv /\
     rv_contract_id rv = cid /\ rv_transaction_id rv = tid) /\
  self (exec (validate_server_response env cid tid req resp) w) = self w.
Proof. apply response_check_frame. Qed.

(** X5. For an unknown contract the response check answers with its fixed
    verdict and does not consult the analyzer. *)
Theorem validate_server_response_unknown_contract w cid tid req resp :
  PyDict.get (active_contracts (self w)) cid = None ->
  exists rv,
    result (validate_server_response env cid tid req resp) w = Returned rv /\
    rv_validation_result rv = INVALID /\
    rv_suggested_action rv = "deny" /\
    rv_privacy_violations rv = ["unknown_contract"] /\
    rv_data_leakage_risks rv = ["contract_not_found"] /\
    analyzer_calls (exec (validate_server_response env cid tid req resp) w)
      = analyzer_calls w.
Proof.
  intros H.
  unfold validate_server_response, result, exec, bind, get_self. simpl.
  rewrite H. eexists. repeat split.
Qed.

(** The world a validation leaves when the analyzer answers. *)
Lemma validate_outcome w cid c req resp v0 l :
  contract_of w cid = Some c ->
  is_active c = true ->
  result (is_expired env c) w = Returned false ->
  llm_validate_transaction_intent (analyzer env) (analyzer_calls w) req resp
    (agreed_purpose c) (constraints c) = Returned v0 ->
  PyDict.get (contract_transactions (self w)) cid = Some l ->
  let now := utcnow_reading env (clock_reads (exec (is_expired env c) w)) in
  result (validate_transaction env cid req resp) w
    = Returned (tv_set_ids cid (uuid4_value env (uuid_draws w)) v0) /\
  contract_of (exec (validate_transaction env cid req resp) w) cid
    = Some (if is_valid (tv_validation_result v0)
            then record_transaction_at now true c
            else record_violation (record_transaction_at now false c)) /\
  analyzer_calls (exec (validate_transaction env cid req resp) w)
    = analyzer_calls w
      ++ [CallTransaction req resp (agreed_purpose c) (constraints c)] /\
  client_sessions (self (exec (validate_transaction env cid req resp) w))
    = client_sessions (self w).
Proof.
  intros Hc Ha He Hllm Hl now. unfold result, exec.
  rewrite (@validate_reaches_analyzer env w cid c req resp Hc Ha He).
  destruct (is_expired_world env c w) as (Hs & Hcalls & _).
  unfold now. clear now.
  set (w1 := exec (is_expired env c) w) in *.
  unfold try_except, validate_body, bind, ask. simpl.
  rewrite Hcalls, Hllm. simpl.
  unfold record_transaction, bind, utcnow, when. simpl.
  unfold contract_of in *.
  destruct (is_valid (tv_validation_result v0)); simpl; rewrite Hs, Hl;
    rewrite append_to_ledger_run; simpl;
    rewrite ?PyDictFacts.get_alter, !String.eqb_refl, Hc;
    repeat split.
Qed.

(** X6. A transaction the analyzer judges [VALID] counts as one successful
    transaction; violations and activity are left alone, and the verdict
    returned is the analyzer's, stamped with the contract and transaction
    identifiers. *)
Theorem valid_transaction_is_counted w cid c req resp v0 l :
  let w' := exec (validate_transaction env cid req resp) w in
  contract_of w cid = Some c ->
  is_active c = true ->
  result (is_expired env c) w = Returned false ->
  llm_validate_transaction_intent (analyzer env) (analyzer_calls w) req resp
    (agreed_purpose c) (constraints c) = Returned v0 ->
  PyDict.get (contract_transactions (self w)) cid = Some l ->
  tv_validation_result v0 = VALID ->
  result (validate_transaction env cid req resp) w
    = Returned (tv_set_ids cid (uuid4_value env (uuid_draws w)) v0) /\
  exists c',
    contract_of w' cid = Some c' /\
    transaction_count c' = transaction_count c + 1 /\
    successful_transactions c' = successful_transactions c + 1 /\
    failed_transactions c' = failed_transactions c /\
    violation_count c' = violation_count c /\
    is_active c' = true /\
    last_validated c' <> None.
Proof.
  intros w' Hc Ha He Hllm Hl Hv.
  destruct (@validate_outcome w cid c req resp v0 l Hc Ha He Hllm Hl)
    as (Hr & Hc' & _).
  split; [exact Hr|]. fold w' in Hc'. rewrite Hv in Hc'. simpl in Hc'.
  eexists. split; [exact Hc'|]. simpl. repeat split; auto. discriminate.
Qed.

(** X7. A transaction the analyzer judges anything but [VALID] (invalid,
    suspicious or drift) counts as one failed transaction and one
    violation, and deactivates the contract exactly when the violations
    reach the threshold of 5. *)
Theorem rejected_transaction_is_a_violation w cid c req resp v0 l :
  let w' := exec (validate_transaction env cid req resp) w in
  contract_of w cid = Some c ->
  is_active c = true ->
  result (is_expired env c) w = Returned false ->
  llm_validate_transaction_intent (analyzer env) (analyzer_calls w) req resp
    (agreed_purpose c) (constraints c) = Returned v0 ->
  PyDict.get (contract_transactions (self w)) cid = Some l ->
  tv_validation_result v0 <> VALID ->
  exists c',
    contract_of w' cid = Some c' /\
    transaction_count c' = transaction_count c + 1 /\
    successful_transactions c' = successful_transactions c /\
    failed_transactions c' = failed_transactions c + 1 /\
    violation_count c' = violation_count c + 1 /\
    (is_active c' = false <-> VIOLATION_THRESHOLD <= violation_count c + 1).
Proof.
  intros w' Hc Ha He Hllm Hl Hv.
  destruct (@validate_outcome w cid c req resp v0 l Hc Ha He Hllm Hl)
    as (_ & Hc' & _).
  fold w' in Hc'.
  assert (Hf : is_valid (tv_validation_result v0) = false)
    by (destruct (tv_validation_result v0); [contradiction | | | ]; reflexivity).
  rewrite Hf in Hc'.
  eexists. split; [exact Hc'|]. simpl. repeat split; auto.
  - destruct (Z.leb_spec VIOLATION_THRESHOLD (violation_count c + 1));
      [auto | rewrite Ha; discriminate].
  - intros H. apply Z.leb_le in H. rewrite H. reflexivity.
Qed.

(** X8. A validation that reaches the analyzer consults it exactly once, with
    the request, the response, and the purpose and constraints agreed in
    the contract. *)
Theorem validation_consults_analyzer_once w cid c req resp :
  contract_of w cid = Some c ->
  is_active c = true ->
  result (is_expired env c) w = Returned false ->
  analyzer_calls (exec (validate_transaction env cid req resp) w)
    = analyzer_calls w
      ++ [CallTransaction req resp (agreed_purpose c) (constraints c)].
Proof.
  intros Hc Ha He. unfold exec.
  rewrite (@validate_reaches_analyzer env w cid c req resp Hc Ha He).
  destruct (is_expired_world env c w) as (Hs & Hcalls & _).
  set (w1 := exec (is_expired env c) w) in *.
  unfold try_except, validate_body, bind, ask. simpl.
  rewrite Hcalls.
  destruct (llm_validate_transaction_intent _ _ _ _ _ _) as [v0|e]; simpl.
  - unfold record_transaction, bind, utcnow, when. simpl.
    destruct (is_valid (tv_validation_result v0)); simpl;
      destruct (PyDict.get _ cid) as [l|]; simpl;
      rewrite ?append_to_ledger_run; reflexivity.
  - reflexivity.
Qed.

(** X9. Drift analysis of an unknown contract answers with an error report;
    nothing is read, called or changed. *)
Theorem drift_of_unknown_contract w cid hours :
  PyDict.get (active_contracts (self w)) cid = None ->
  analyze_intent_drift env cid hours w
    = (Returned [("error", PyStr "Contract not found")], w).
Proof.
  intros H. unfold analyze_intent_drift, bind, get_self. rewrite H.
  reflexivity.
Qed.

(** X10. With no transaction inside the window (in particular with an empty
    ledger, or none at all) drift analysis reports no drift with full
    confidence, without consulting the analyzer and without touching the
    broker. *)
Theorem drift_with_empty_window w cid c hours delta cutoff :
  contract_of w cid = Some c ->
  timedelta (hours * MICROS_PER_HOUR) = Some delta ->
  datetime_add (utcnow_reading env (clock_reads w)) (- delta) = Some cutoff ->
  recent_since cutoff (ledger_of (self w) cid) = [] ->
  result (analyze_intent_drift env cid hours) w
    = Returned no_recent_transactions /\
  self (exec (analyze_intent_drift env cid hours) w) = self w /\
  analyzer_calls (exec (analyze_intent_drift env cid hours) w)
    = analyzer_calls w.
Proof.
  unfold contract_of. intros Hc Hd Hcut Hrec.
  unfold result, exec, analyze_intent_drift, bind, get_self. simpl.
  rewrite Hc, Hd. simpl. rewrite Hcut. simpl. rewrite Hrec.
  repeat split.
Qed.

(** X11. When the drift oracle raises, the analysis returns its fallback
    report carrying the cause, and the broker is left untouched: the
    contract stays as it was. *)
Theorem drift_analyzer_failure w cid c hours delta cutoff tx txs exn :
  contract_of w cid = Some c ->
  timedelta (hours * MICROS_PER_HOUR) = Some delta ->
  datetime_add (utcnow_reading env (clock_reads w)) (- delta) = Some cutoff ->
  recent_since cutoff (ledger_of (self w) cid) = tx :: txs ->
  llm_analyze_intent_drift (analyzer env) (analyzer_calls w)
    (agreed_purpose c) (tx :: txs) hours = Raised exn ->
  result (analyze_intent_drift env cid hours) w = Returned (drift_failed exn) /\
  truthy (get_default (drift_failed exn) "drift_detected" (PyBool true))
    = false /\
  get_default (drift_failed exn) "error" PyNone = PyStr (exc_str exn) /\
  self (exec (analyze_intent_drift env cid hours) w) = self w.
Proof.
  unfold contract_of. intros Hc Hd Hcut Hrec Hllm.
  unfold result, exec, analyze_intent_drift, bind, get_self. simpl.
  rewrite Hc, Hd. simpl. rewrite Hcut. simpl. rewrite Hrec.
  unfold try_except. simpl. rewrite Hllm. repeat split.
Qed.

(** X12. Drift analysis never reactivates and never touches counters: it
    either leaves the contract as it is or deactivates it. *)
Theorem drift_only_deactivates w cid c hours :
  contract_of w cid = Some c ->
  contract_of (exec (analyze_intent_drift env cid hours) w) cid = Some c \/
  contract_of (exec (analyze_intent_drift env cid hours) w) cid
    = Some (set_is_active false c).
Proof.
  unfold contract_of. intros Hc.
  unfold exec, analyze_intent_drift, bind, get_self. simpl.
  rewrite Hc. unfold or_raise.
  destruct (timedelta _) as [delta|]; simpl; [|left; exact Hc].
  destruct (datetime_add _ _) as [cutoff|]; simpl; [|left; exact Hc].
  destruct (recent_since _ _) as [|tx txs]; simpl; [left; exact Hc|].
  unfold try_except. simpl.
  destruct (llm_analyze_intent_drift _ _ _ _ _) as [d|e]; simpl;
    [|left; exact Hc].
  unfold act_on_drift.
  destruct (truthy _); simpl; [|left; exact Hc].
  destruct (py_eq_str _ _); simpl; [|left; exact Hc].
  right. rewrite PyDictFacts.get_alter, String.eqb_refl, Hc. reflexivity.
Qed.

(** X13. With a valid request and no response to inspect ([None] or the empty
    dictionary), the bidirectional check is the request check: same
    verdict, same world, no response oracle. *)
Theorem bidirectional_without_response w cid req resp v w1 :
  validate_transaction env cid req resp (exec (uuid4 env) w)
    = (Returned v, w1) ->
  payload_truthy resp = false ->
  validate_bidirectional_transaction env cid req resp w = (Returned v, w1) /\
  no_response_call w w1.
Proof.
  intros Hv Hresp. split.
  - unfold validate_bidirectional_transaction, bind. simpl.
    unfold exec in Hv. simpl in Hv. rewrite Hv.
    destruct (negb (is_valid (tv_validation_result v))); [reflexivity|].
    destruct resp as [[|x r]|]; [reflexivity | discriminate | reflexivity].
  - pose proof (rc_validate env cid req resp (exec (uuid4 env) w)) as H.
    unfold respects in H.
    replace (exec (validate_transaction env cid req resp)
               (exec (uuid4 env) w)) with w1 in H
      by (unfold exec at 1; rewrite Hv; reflexivity).
    exact H.
Qed.

(** X14. When both checks say [VALID], the outer verdict is the request
    verdict with the response verdict attached and nothing else
    changed. *)
Theorem bidirectional_both_valid w cid req x r v w1 rv w2 :
  validate_transaction env cid req (Some (x :: r)) (exec (uuid4 env) w)
    = (Returned v, w1) ->
  tv_validation_result v = VALID ->
  validate_server_response env cid (uuid4_value env (uuid_draws w)) req
    (x :: r) w1 = (Returned rv, w2) ->
  rv_validation_result rv = VALID ->
  validate_bidirectional_transaction env cid req (Some (x :: r)) w
    = (Returned (tv_set_client_protection (Some rv) v), w2) /\
  self w2 = self w1.
Proof.
  intros Hv Hvalid Hrv Hrvalid. split.
  - unfold validate_bidirectional_transaction, bind. simpl.
    unfold exec in Hv. simpl in Hv. rewrite Hv, Hvalid. simpl.
    rewrite Hrv, Hrvalid. reflexivity.
  - destruct (response_check_frame w1 cid
                (uuid4_value env (uuid_draws w)) req (x :: r)) as [_ H].
    unfold exec in H. rewrite Hrv in H. exact H.
Qed.


End Verdicts.

Section Negotiation.

Variable env : Env.

(** The caller-supplied constraints, [None] standing for none. *)
Lemma negotiated_constraints ci sc cr extra c :
  status cr = COMPATIBLE ->
  constraints (negotiated_terms ci sc cr extra c)
  = intent_constraints ci ++ suggested_constraints cr
    ++ match extra with Some l => l | None => [] end.
Proof.
  intros Hs. unfold negotiated_terms. rewrite Hs. simpl.
  destruct (suggested_constraints cr) as [|s0 sl]; simpl;
    destruct extra as [[|x l]|]; simpl;
    rewrite ?app_nil_r, <- ?app_assoc; reflexivity.
Qed.

Lemma negotiate_compatible_run w iid sid extra ci sc cr d :
  let w' := exec (negotiate_intent_contract env iid sid extra) w in
  let cid := uuid4_value env (uuid_draws w) in
  let created := utcnow_reading env (clock_reads w) in
  PyDict.get (client_intents (self w)) iid = Some ci ->
  PyDict.get (server_capabilities (self w)) sid = Some sc ->
  llm_analyze_intent_compatibility (analyzer env) (analyzer_calls w) ci sc
    = Returned cr ->
  status cr = COMPATIBLE ->
  duration ci = Some d -> d <> 0 ->
  - TIMEDELTA_MAX_DAYS <= d * MICROS_PER_MINUTE / MICROS_PER_DAY
    <= TIMEDELTA_MAX_DAYS ->
  0 <= created + d * MICROS_PER_MINUTE <= DATETIME_MAX ->
  exists c,
    result (negotiate_intent_contract env iid sid extra) w = Returned c /\
    contract_id c = cid /\
    is_active c = true /\
    agreed_purpose c = purpose ci /\
    allowed_operations c = supported_operations sc /\
    data_access_scope c = data_requirements ci /\
    constraints c = intent_constraints ci ++ suggested_constraints cr
                    ++ match extra with Some l => l | None => [] end /\
    rate_limits c = capability_rate_limits sc /\
    created_at c = created /\
    expires_at c = Some (created + d * MICROS_PER_MINUTE) /\
    violation_count c = 0 /\ transaction_count c = 0 /\
    contract_of w' cid = Some c /\
    PyDict.get (contract_transactions (self w')) cid = Some [] /\
    PyDict.get (client_sessions (self w')) (client_id ci) = Some cid /\
    total_negotiations (negotiation_stats (self w'))
      = total_negotiations (negotiation_stats (self w)) + 1 /\
    successful_contracts (negotiation_stats (self w'))
      = successful_contracts (negotiation_stats (self w)) + 1 /\
    failed_negotiations (negotiation_stats (self w'))
      = failed_negotiations (negotiation_stats (self w)) /\
    stat_active_contracts (negotiation_stats (self w'))
      = stat_active_contracts (negotiation_stats (self w)) + 1.
Proof.
  intros w' cid created Hi Hs Hllm Hst Hd Hnz Htd Hdt.
  assert (Htd' : timedelta (d * MICROS_PER_MINUTE)
                 = Some (d * MICROS_PER_MINUTE)).
  { unfold timedelta.
    destruct (Z.leb_spec (- TIMEDELTA_MAX_DAYS)
                (d * MICROS_PER_MINUTE / MICROS_PER_DAY)); [|lia].
    destruct (Z.leb_spec (d * MICROS_PER_MINUTE / MICROS_PER_DAY)
                TIMEDELTA_MAX_DAYS); [reflexivity | lia]. }
  assert (Hdt' : datetime_add created (d * MICROS_PER_MINUTE)
                 = Some (created + d * MICROS_PER_MINUTE)).
  { unfold datetime_add.
    destruct (Z.leb_spec 0 (created + d * MICROS_PER_MINUTE)); [|lia].
    destruct (Z.leb_spec (created + d * MICROS_PER_MINUTE) DATETIME_MAX);
      [reflexivity | lia]. }
  apply Z.eqb_neq in Hnz.
  unfold w', result, exec, negotiate_intent_contract, bind, get_self. simpl.
  rewrite Hi, Hs.
  unfold try_except, negotiate_body, bind, ask. simpl. rewrite Hllm.
  unfold IntentContract_new, bind, uuid4, utcnow, post_init. simpl.
  rewrite Hd, Hnz. unfold or_raise, bind. rewrite Htd'. simpl.
  fold created. rewrite Hdt'. simpl.
  unfold store_negotiated, negotiated_stats, bind. rewrite Hst. simpl.
  rewrite negotiated_terms_id. simpl. fold cid.
  match goal with
  | |- context [when (is_active ?t) _ _] =>
      assert (Hact : is_active t = true)
        by (unfold negotiated_terms; rewrite Hst; reflexivity);
      rewrite Hact
  end.
  simpl. eexists. split; [reflexivity|].
  rewrite negotiated_constraints by exact Hst.
  unfold negotiated_terms. rewrite Hst. simpl.
  unfold contract_of. simpl.
  rewrite !PyDictFacts.get_set_eq. repeat split.
Qed.

(** The constructor when the expiry is in range. *)
Lemma IntentContract_new_in_range ci sc cr a p w :
  (forall d, duration ci = Some d -> d <> 0 ->
     expiry_in_range d (utcnow_reading env (clock_reads w))) ->
  IntentContract_new env (Some ci) sc cr a p w
  = (Returned
       (set_expires_at (expiry_for ci (utcnow_reading env (clock_reads w)))
          {| contract_id := uuid4_value env (uuid_draws w);
             client_intent := Some ci; server_capability := sc;
             compatibility_result := cr; agreed_purpose := p;
             allowed_operations := []; data_access_scope := [];
             constraints := []; rate_limits := [];
             created_at := utcnow_reading env (clock_reads w);
             expires_at := None; is_active := a;
             violation_count := 0; last_validated := None;
             transaction_count := 0; successful_transactions := 0;
             failed_transactions := 0 |}),
     {| self := self w; clock_reads := S (clock_reads w);
        uuid_draws := S (uuid_draws w);
        analyzer_calls := analyzer_calls w |}).
Proof.
  intros Hr.
  unfold IntentContract_new, bind, uuid4, utcnow, post_init, expiry_for.
  simpl. destruct (duration ci) as [d|]; [|reflexivity].
  destruct (Z.eqb_spec d 0) as [->|Hnz]; [reflexivity|].
  destruct (Hr d eq_refl Hnz) as [Htd Hdt].
  unfold or_raise, bind, timedelta.
  destruct (Z.leb_spec (- TIMEDELTA_MAX_DAYS)
              (d * MICROS_PER_MINUTE / MICROS_PER_DAY)); [|lia].
  destruct (Z.leb_spec (d * MICROS_PER_MINUTE / MICROS_PER_DAY)
              TIMEDELTA_MAX_DAYS); [|lia].
  simpl. unfold datetime_add.
  destruct (Z.leb_spec 0
              (utcnow_reading env (clock_reads w) + d * MICROS_PER_MINUTE));
    [|lia].
  destruct (Z.leb_spec
              (utcnow_reading env (clock_reads w) + d * MICROS_PER_MINUTE)
              DATETIME_MAX); [|lia].
  reflexivity.
Qed.

(** X17. Negotiation of a pair the analyzer does not find compatible: the
    contract is stored for audit, inactive, with an empty ledger and a
    purpose marked pending or rejected; the session index is not
    touched, and only a rejection counts as a failed negotiation. *)
Theorem negotiate_not_compatible w iid sid extra ci sc cr :
  let w' := exec (negotiate_intent_contract env iid sid extra) w in
  let cid := uuid4_value env (uuid_draws w) in
  PyDict.get (client_intents (self w)) iid = Some ci ->
  PyDict.get (server_capabilities (self w)) sid = Some sc ->
  llm_analyze_intent_compatibility (analyzer env) (analyzer_calls w) ci sc
    = Returned cr ->
  status cr <> COMPATIBLE ->
  (forall d, duration ci = Some d -> d <> 0 ->
     expiry_in_range d (utcnow_reading env (clock_reads w))) ->
  exists c,
    result (negotiate_intent_contract env iid sid extra) w = Returned c /\
    contract_id c = cid /\
    is_active c = false /\
    agreed_purpose c
      = ((match status cr with
          | REQUIRES_NEGOTIATION => "PENDING: "
          | _ => "REJECTED: "
          end) ++ purpose ci)%string /\
    allowed_operations c = [] /\ constraints c = [] /\
    contract_of w' cid = Some c /\
    PyDict.get (contract_transactions (self w')) cid = Some [] /\
    client_sessions (self w') = client_sessions (self w) /\
    successful_contracts (negotiation_stats (self w'))
      = successful_contracts (negotiation_stats (self w)) /\
    stat_active_contracts (negotiation_stats (self w'))
      = stat_active_contracts (negotiation_stats (self w)) /\
    failed_negotiations (negotiation_stats (self w'))
      = failed_negotiations (negotiation_stats (self w))
        + match status cr with REQUIRES_NEGOTIATION => 0 | _ => 1 end.
Proof.
  intros w' cid Hi Hs Hllm Hst Hr.
  unfold w', result, exec, negotiate_intent_contract, bind, get_self. simpl.
  rewrite Hi, Hs.
  unfold try_except, negotiate_body, bind, ask. simpl. rewrite Hllm.
  rewrite IntentContract_new_in_range by exact Hr. simpl.
  unfold store_negotiated, negotiated_stats, negotiated_terms, bind.
  unfold contract_of.
  destruct (status cr); [contradiction | | | ]; simpl;
    (eexists; repeat apply conj; try reflexivity;
     try apply PyDictFacts.get_set_eq; lia).
Qed.

(** X18. When the compatibility oracle raises, negotiation does not: it
    returns an inactive contract whose purpose records the cause, stores
    it for audit without a ledger and without a session, and counts a
    failed negotiation. *)
Theorem negotiate_analyzer_failure w iid sid extra ci sc exn :
  let w' := exec (negotiate_intent_contract env iid sid extra) w in
  let cid := uuid4_value env (uuid_draws w) in
  PyDict.get (client_intents (self w)) iid = Some ci ->
  PyDict.get (server_capabilities (self w)) sid = Some sc ->
  llm_analyze_intent_compatibility (analyzer env) (analyzer_calls w) ci sc
    = Raised exn ->
  (forall d, duration ci = Some d -> d <> 0 ->
     expiry_in_range d (utcnow_reading env (clock_reads w))) ->
  exists c,
    result (negotiate_intent_contract env iid sid extra) w = Returned c /\
    contract_id c = cid /\
    is_active c = false /\
    agreed_purpose c = ("FAILED: " ++ exc_str exn)%string /\
    compatibility_result c = None /\
    contract_of w' cid = Some c /\
    contract_transactions (self w') = contract_transactions (self w) /\
    client_sessions (self w') = client_sessions (self w) /\
    failed_negotiations (negotiation_stats (self w'))
      = failed_negotiations (negotiation_stats (self w)) + 1 /\
    total_negotiations (negotiation_stats (self w'))
      = total_negotiations (negotiation_stats (self w)) + 1 /\
    successful_contracts (negotiation_stats (self w'))
      = successful_contracts (negotiation_stats (self w)).
Proof.
  intros w' cid Hi Hs Hllm Hr.
  unfold w', result, exec, negotiate_intent_contract, bind, get_self. simpl.
  rewrite Hi, Hs.
  unfold try_except, negotiate_body, bind, ask. simpl. rewrite Hllm.
  unfold negotiate_handler, bind. simpl.
  rewrite IntentContract_new_in_range by exact Hr. simpl.
  unfold contract_of. simpl.
  eexists. repeat apply conj; try reflexivity.
  apply PyDictFacts.get_set_eq.
Qed.

(** X19. A duration too long for a [timedelta] escapes the handler of
    negotiation: building the audit contract overflows again, so the
    caller gets [OverflowError]; no contract is stored, and the attempt
    is counted as a failed negotiation. *)
Theorem negotiate_overflow_escapes w iid sid extra ci sc d :
  let w' := exec (negotiate_intent_contract env iid sid extra) w in
  PyDict.get (client_intents (self w)) iid = Some ci ->
  PyDict.get (server_capabilities (self w)) sid = Some sc ->
  duration ci = Some d ->
  TIMEDELTA_MAX_DAYS < Z.abs (d * MICROS_PER_MINUTE / MICROS_PER_DAY) ->
  (exists e,
     result (negotiate_intent_contract env iid sid extra) w = Raised e /\
     exc_class e = "OverflowError") /\
  active_contracts (self w') = active_contracts (self w) /\
  client_sessions (self w') = client_sessions (self w) /\
  failed_negotiations (negotiation_stats (self w'))
    = failed_negotiations (negotiation_stats (self w)) + 1 /\
  total_negotiations (negotiation_stats (self w'))
    = total_negotiations (negotiation_stats (self w)) + 1.
Proof.
  intros w' Hi Hs Hd Hbig.
  assert (Htd : timedelta (d * MICROS_PER_MINUTE) = None).
  { unfold timedelta.
    destruct (Z.leb_spec (- TIMEDELTA_MAX_DAYS)
                (d * MICROS_PER_MINUTE / MICROS_PER_DAY)); [|reflexivity].
    destruct (Z.leb_spec (d * MICROS_PER_MINUTE / MICROS_PER_DAY)
                TIMEDELTA_MAX_DAYS); [lia | reflexivity]. }
  assert (Hnz : (d =? 0) = false).
  { apply Z.eqb_neq. intros ->. unfold TIMEDELTA_MAX_DAYS in Hbig.
    simpl in Hbig. lia. }
  assert (Hnew : forall cr a p w0,
            IntentContract_new env (Some ci) (Some sc) cr a p w0
            = (Raised (OverflowError "timedelta out of range"),
               {| self := self w0; clock_reads := S (clock_reads w0);
                  uuid_draws := S (uuid_draws w0);
                  analyzer_calls := analyzer_calls w0 |})).
  { intros cr a p w0.
    unfold IntentContract_new, bind, uuid4, utcnow, post_init. simpl.
    rewrite Hd, Hnz. unfold or_raise, bind. rewrite Htd. reflexivity. }
  unfold w', result, exec, negotiate_intent_contract, bind, get_self. simpl.
  rewrite Hi, Hs.
  unfold try_except, negotiate_body, bind, ask. simpl.
  destruct (llm_analyze_intent_compatibility _ _ _ _) as [cr|exn];
    rewrite ?Hnew; simpl;
    unfold negotiate_handler, bind; simpl; rewrite Hnew; simpl;
    (split; [eexists; split; reflexivity | repeat split]).
Qed.

(** X16. Negotiation of a compatible pair: the contract returned is active,
    carries the terms derived from the two declarations (constraints of
    the client, then those the analyzer suggests, then the caller's),
    expires [duration] minutes after its creation, and is stored with an
    empty ledger and indexed under the client's identifier; the
    counters of total, successful and active negotiations go up by
    one. *)
Theorem negotiate_compatible w iid sid extra ci sc cr d :
  let w' := exec (negotiate_intent_contract env iid sid extra) w in
  let cid := uuid4_value env (uuid_draws w) in
  let created := utcnow_reading env (clock_reads w) in
  PyDict.get (client_intents (self w)) iid = Some ci ->
  PyDict.get (server_capabilities (self w)) sid = Some sc ->
  llm_analyze_intent_compatibility (analyzer env) (analyzer_calls w) ci sc
    = Returned cr ->
  status cr = COMPATIBLE ->
  duration ci = Some d -> d <> 0 ->
  - TIMEDELTA_MAX_DAYS <= d * MICROS_PER_MINUTE / MICROS_PER_DAY
    <= TIMEDELTA_MAX_DAYS ->
  0 <= created + d * MICROS_PER_MINUTE <= DATETIME_MAX ->
  exists c,
    result (negotiate_intent_contract env iid sid extra) w = Returned c /\
    contract_id c = cid /\
    is_active c = true /\
    agreed_purpose c = purpose ci /\
    allowed_operations c = supported_operations sc /\
    data_access_scope c = data_requirements ci /\
    constraints c = intent_constraints ci ++ suggested_constraints cr
                    ++ match extra with Some l => l | None => [] end /\
    rate_limits c = capability_rate_limits sc /\
    created_at c = created /\
    expires_at c = Some (created + d * MICROS_PER_MINUTE) /\
    violation_count c = 0 /\ transaction_count c = 0 /\
    contract_of w' cid = Some c /\
    PyDict.get (contract_transactions (self w')) cid = Some [] /\
    PyDict.get (client_sessions (self w')) (client_id ci) = Some cid /\
    total_negotiations (negotiation_stats (self w'))
      = total_negotiations (negotiation_stats (self w)) + 1 /\
    successful_contracts (negotiation_stats (self w'))
      = successful_contracts (negotiation_stats (self w)) + 1 /\
    failed_negotiations (negotiation_stats (self w'))
      = failed_negotiations (negotiation_stats (self w)) /\
    stat_active_contracts (negotiation_stats (self w'))
      = stat_active_contracts (negotiation_stats (self w)) + 1.
Proof. apply negotiate_compatible_run. Qed.

(** What a compatible negotiation leaves in the store, whatever the
    duration, as long as the expiry is in range. *)
Lemma negotiate_compatible_store w iid sid extra ci sc cr :
  let w' := exec (negotiate_intent_contract env iid sid extra) w in
  let cid := uuid4_value env (uuid_draws w) in
  PyDict.get (client_intents (self w)) iid = Some ci ->
  PyDict.get (server_capabilities (self w)) sid = Some sc ->
  llm_analyze_intent_compatibility (analyzer env) (analyzer_calls w) ci sc
    = Returned cr ->
  status cr = COMPATIBLE ->
  (forall d, duration ci = Some d -> d <> 0 ->
     expiry_in_range d (utcnow_reading env (clock_reads w))) ->
  exists c,
    result (negotiate_intent_contract env iid sid extra) w = Returned c /\
    contract_id c = cid /\ is_active c = true /\
    expires_at c = expiry_for ci (utcnow_reading env (clock_reads w)) /\
    active_contracts (self w')
      = PyDict.set (active_contracts (self w)) cid c /\
    client_sessions (self w')
      = PyDict.set (client_sessions (self w)) (client_id ci) cid.
Proof.
  intros w' cid Hi Hs Hllm Hst Hr.
  unfold w', result, exec, negotiate_intent_contract, bind, get_self. simpl.
  rewrite Hi, Hs.
  unfold try_except, negotiate_body, bind, ask. simpl. rewrite Hllm.
  rewrite IntentContract_new_in_range by exact Hr. simpl.
  unfold store_negotiated, negotiated_stats, negotiated_terms, bind.
  rewrite Hst. simpl. eexists. repeat apply conj; reflexivity.
Qed.

(** X20. Insert and look up: after a compatible negotiation the session index
    returns the new contract for its client (identifiers are never the
    empty string, which the lookup would take for no session). *)
Theorem negotiated_contract_is_found_by_client w iid sid extra ci sc cr :
  let w' := exec (negotiate_intent_contract env iid sid extra) w in
  PyDict.get (client_intents (self w)) iid = Some ci ->
  PyDict.get (server_capabilities (self w)) sid = Some sc ->
  llm_analyze_intent_compatibility (analyzer env) (analyzer_calls w) ci sc
    = Returned cr ->
  status cr = COMPATIBLE ->
  (forall d, duration ci = Some d -> d <> 0 ->
     expiry_in_range d (utcnow_reading env (clock_reads w))) ->
  uuid4_value env (uuid_draws w) <> ""%string ->
  exists c,
    result (negotiate_intent_contract env iid sid extra) w = Returned c /\
    get_contract_by_client (self w') (client_id ci) = Some c /\
    In c (get_active_contracts (self w')).
Proof.
  intros w' Hi Hs Hllm Hst Hr Hne.
  destruct (@negotiate_compatible_store w iid sid extra ci sc cr
              Hi Hs Hllm Hst Hr) as (c & Hres & Hid & Hact & _ & Hc & Hsess).
  fold w' in Hc, Hsess. exists c. split; [exact Hres|]. split.
  - unfold get_contract_by_client. rewrite Hsess, Hc.
    rewrite PyDictFacts.get_set_eq.
    destruct (String.eqb_spec (uuid4_value env (uuid_draws w)) "");
      [contradiction|].
    apply PyDictFacts.get_set_eq.
  - unfold get_active_contracts. apply filter_In. split; [|exact Hact].
    unfold PyDict.values. apply (in_map snd _ (uuid4_value env (uuid_draws w), c)).
    apply PyDictFacts.get_In. rewrite Hc. apply PyDictFacts.get_set_eq.
Qed.

(** X21. One session per client, but the earlier contract lives on: a second
    compatible negotiation for the same client moves the session to the
    new contract and leaves the contract negotiated before stored and
    exactly as it was (still active if it was). *)
Theorem renegotiation_keeps_the_old_contract
    w iid sid extra ci sc cr old_cid old :
  let w' := exec (negotiate_intent_contract env iid sid extra) w in
  let cid := uuid4_value env (uuid_draws w) in
  PyDict.get (client_intents (self w)) iid = Some ci ->
  PyDict.get (server_capabilities (self w)) sid = Some sc ->
  llm_analyze_intent_compatibility (analyzer env) (analyzer_calls w) ci sc
    = Returned cr ->
  status cr = COMPATIBLE ->
  (forall d, duration ci = Some d -> d <> 0 ->
     expiry_in_range d (utcnow_reading env (clock_reads w))) ->
  PyDict.get (client_sessions (self w)) (client_id ci) = Some old_cid ->
  contract_of w old_cid = Some old ->
  old_cid <> cid ->
  PyDict.get (client_sessions (self w')) (client_id ci) = Some cid /\
  contract_of w' old_cid = Some old.
Proof.
  intros w' cid Hi Hs Hllm Hst Hr Hsold Hold Hne.
  destruct (@negotiate_compatible_store w iid sid extra ci sc cr
              Hi Hs Hllm Hst Hr) as (c & _ & _ & _ & _ & Hc & Hsess).
  fold w' in Hc, Hsess. fold cid in Hc, Hsess. split.
  - rewrite Hsess. apply PyDictFacts.get_set_eq.
  - unfold contract_of. rewrite Hc.
    rewrite PyDictFacts.get_set_ne by congruence. exact Hold.
Qed.

(** X22. A contract negotiated from an intent without duration, or with a
    duration of 0, has no expiry: it is never found expired. *)
Theorem no_duration_means_no_expiry w iid sid extra ci sc cr :
  PyDict.get (client_intents (self w)) iid = Some ci ->
  PyDict.get (server_capabilities (self w)) sid = Some sc ->
  llm_analyze_intent_compatibility (analyzer env) (analyzer_calls w) ci sc
    = Returned cr ->
  status cr = COMPATIBLE ->
  duration ci = None \/ duration ci = Some 0 ->
  exists c,
    result (negotiate_intent_contract env iid sid extra) w = Returned c /\
    is_active c = true /\
    expires_at c = None /\
    forall w0, is_expired env c w0 = (Returned false, w0).
Proof.
  intros Hi Hs Hllm Hst Hd.
  assert (Hr : forall d, duration ci = Some d -> d <> 0 ->
                 expiry_in_range d (utcnow_reading env (clock_reads w))).
  { intros d H Hnz. destruct Hd as [Hd|Hd]; rewrite Hd in H;
      [discriminate | injection H as <-; contradiction]. }
  destruct (@negotiate_compatible_store w iid sid extra ci sc cr
              Hi Hs Hllm Hst Hr) as (c & Hres & _ & Hact & Hexp & _).
  assert (He : expires_at c = None).
  { rewrite Hexp. unfold expiry_for.
    destruct Hd as [Hd|Hd]; rewrite Hd; reflexivity. }
  exists c. repeat split; auto.
  intros w0. unfold is_expired. rewrite He. reflexivity.
Qed.

(** X23. Declaring an intent stores it under a fresh handle: looking the
    handle up gives the declaration back, every other handle resolves as
    before, and nothing else changes. *)
Theorem declared_intent_is_found w intent :
  let w' := exec (declare_client_intent env intent) w in
  let id := uuid4_value env (uuid_draws w) in
  result (declare_client_intent env intent) w = Returned id /\
  PyDict.get (client_intents (self w')) id = Some intent /\
  (forall h, h <> id ->
     PyDict.get (client_intents (self w')) h
       = PyDict.get (client_intents (self w)) h) /\
  server_capabilities (self w') = server_capabilities (self w) /\
  active_contracts (self w') = active_contracts (self w) /\
  client_sessions (self w') = client_sessions (self w) /\
  negotiation_stats (self w') = negotiation_stats (self w).
Proof.
  intros w' id. unfold w', result, exec, declare_client_intent, bind. simpl.
  fold id. repeat split.
  - apply PyDictFacts.get_set_eq.
  - intros h Hh. apply PyDictFacts.get_set_ne. congruence.
Qed.

(** X24. The same for a server capability. *)
Theorem registered_capability_is_found w capability :
  let w' := exec (register_server_capability env capability) w in
  let id := uuid4_value env (uuid_draws w) in
  result (register_server_capability env capability) w = Returned id /\
  PyDict.get (server_capabilities (self w')) id = Some capability /\
  (forall h, h <> id ->
     PyDict.get (server_capabilities (self w')) h
       = PyDict.get (server_capabilities (self w)) h) /\
  client_intents (self w') = client_intents (self w) /\
  active_contracts (self w') = active_contracts (self w).
Proof.
  intros w' id.
  unfold w', result, exec, register_server_capability, bind. simpl.
  fold id. repeat split.
  - apply PyDictFacts.get_set_eq.
  - intros h Hh. apply PyDictFacts.get_set_ne. congruence.
Qed.

End Negotiation.

(* ------------------------------------------------------------------ *)
(** ** The three dictionaries stay consistent *)

Lemma respects_assoc T {A B C} (m : M A) (f : A -> M B) (g : B -> M C) w :
  respects T (bind (bind m f) g) w ->
  respects T (bind m (fun x => bind (f x) g)) w.
Proof.
  unfold respects, exec, bind.
  destruct (m w) as [[a|e] w1]; simpl; [|auto].
  destruct (f a w1) as [[b|e] w2]; auto.
Qed.

Section Consistency.

Variable env : Env.

Lemma cs_refl w : consistent_step w w.
Proof. intros H. exact H. Qed.

Lemma cs_trans a b c :
  consistent_step a b -> consistent_step b c -> consistent_step a c.
Proof. unfold consistent_step. auto. Qed.

Lemma cs_same w w' :
  active_contracts (self w') = active_contracts (self w) ->
  contract_transactions (self w') = contract_transactions (self w) ->
  client_sessions (self w') = client_sessions (self w) ->
  consistent_step w w'.
Proof.
  unfold consistent_step, store_consistent, contract_of.
  intros Hc Hl Hs [H1 H2]. split.
  - intros cid c. rewrite Hc, Hl. apply H1.
  - intros client cid. rewrite Hs, Hc. apply H2.
Qed.

Lemma cs_utcnow w : respects consistent_step (utcnow env) w.
Proof. apply cs_same; reflexivity. Qed.

Lemma cs_uuid4 w : respects consistent_step (uuid4 env) w.
Proof. apply cs_same; reflexivity. Qed.

Lemma cs_ask {A} c (answer : list AnalyzerCall -> Outcome A) w :
  respects consistent_step (ask c answer) w.
Proof. apply cs_same; reflexivity. Qed.

Lemma cs_modify_stats f w : respects consistent_step (modify_stats f) w.
Proof. apply cs_same; reflexivity. Qed.

Lemma cs_modify_other f w :
  (forall b, active_contracts (f b) = active_contracts b) ->
  (forall b, contract_transactions (f b) = contract_transactions b) ->
  (forall b, client_sessions (f b) = client_sessions b) ->
  respects consistent_step (modify_self f) w.
Proof. intros H1 H2 H3. apply cs_same; simpl; auto. Qed.

Lemma cs_set_ledger cid l w : respects consistent_step (set_ledger cid l) w.
Proof.
  unfold respects, consistent_step, store_consistent, contract_of.
  intros [H1 H2]. split.
  - intros k c Hk. destruct (H1 k c Hk) as [Ht Hl]. split; [exact Ht|].
    intros Ha. simpl. rewrite PyDictFacts.get_set.
    destruct (String.eqb cid k); [discriminate | apply Hl; exact Ha].
  - exact H2.
Qed.

Lemma cs_append_to_ledger cid l r w :
  respects consistent_step (append_to_ledger cid l r) w.
Proof. unfold respects. rewrite exec_append_to_ledger. apply cs_set_ledger. Qed.

(** A mutation that keeps the tally and does not activate. *)
Lemma cs_modify_contract cid f w :
  (forall c, tallied c -> tallied (f c)) ->
  (forall c, is_active (f c) = true -> is_active c = true) ->
  respects consistent_step (modify_contract cid f) w.
Proof.
  unfold respects, consistent_step, store_consistent, contract_of.
  intros Hf Hact [H1 H2]. split.
  - intros k c. simpl. rewrite PyDictFacts.get_alter.
    destruct (String.eqb cid k).
    + destruct (PyDict.get _ k) as [c0|] eqn:E; simpl; [|discriminate].
      intros [= <-]. destruct (H1 k c0 E) as [Ht Hl].
      split; [apply Hf; exact Ht | intros Ha; apply Hl, Hact; exact Ha].
    + apply H1.
  - intros client k Hs. simpl. rewrite PyDictFacts.get_alter.
    specialize (H2 client k Hs).
    destruct (String.eqb cid k); [|exact H2].
    destruct (PyDict.get _ k); [discriminate | contradiction].
Qed.

Lemma cs_deactivate cid w :
  respects consistent_step (modify_contract cid (set_is_active false)) w.
Proof. apply cs_modify_contract; [auto | discriminate]. Qed.

(** [record_transaction] and [record_violation] taken together. *)
Lemma cs_record_outcome cid b w :
  respects consistent_step
    (bind (record_transaction env cid b)
       (fun _ => when (negb b) (modify_contract cid record_violation))) w.
Proof.
  assert (H : exec (bind (record_transaction env cid b)
                      (fun _ => when (negb b)
                                  (modify_contract cid record_violation))) w
              = exec (modify_contract cid
                        (fun c =>
                           if b
                           then record_transaction_at
                                  (utcnow_reading env (clock_reads w)) true c
                           else record_violation
                                  (record_transaction_at
                                     (utcnow_reading env (clock_reads w))
                                     false c)))
                  (exec (utcnow env) w)).
  { unfold exec, record_transaction, bind, when, modify_contract,
      modify_self, utcnow, with_self, with_active_contracts.
    destruct b; simpl; [reflexivity|].
    f_equal. f_equal. unfold PyDict.alter.
    rewrite ?PyDictFacts.get_alter.
    destruct (PyDict.get (active_contracts (self w)) cid) as [c|] eqn:E;
      simpl.
    - rewrite PyDictFacts.get_set_eq.
      induction (active_contracts (self w)) as [|[k0 v0] d IH]; simpl in *;
        [discriminate|].
      destruct (String.eqb k0 cid) eqn:Ek; simpl; rewrite Ek.
      + injection E as ->. reflexivity.
      + f_equal. apply IH. exact E.
    - rewrite E. reflexivity. }
  unfold respects. rewrite H.
  eapply cs_trans; [apply cs_utcnow|].
  apply cs_modify_contract.
  - unfold tallied. intros c Hc. destruct b; simpl; lia.
  - intros c. destruct b; simpl; [auto|].
    destruct (_ <=? _); [discriminate | auto].
Qed.

Lemma cs_record_failure cid w :
  respects consistent_step
    (bind (record_transaction env cid false)
       (fun _ => modify_contract cid record_violation)) w.
Proof. apply (@cs_record_outcome cid false w). Qed.

(** Storing a contract as its constructor and the negotiated terms
    leave it, with its ledger and session. *)
Lemma cs_store_negotiated ci cr c w :
  pristine c -> respects consistent_step (store_negotiated ci cr c) w.
Proof.
  intros (Hv & _ & _ & Hf) [H1 H2].
  assert (Hw : active_contracts (self (exec (store_negotiated ci cr c) w))
               = PyDict.set (active_contracts (self w)) (contract_id c) c /\
               contract_transactions
                 (self (exec (store_negotiated ci cr c) w))
               = PyDict.set (contract_transactions (self w))
                   (contract_id c) [] /\
               client_sessions (self (exec (store_negotiated ci cr c) w))
               = if is_active c
                 then PyDict.set (client_sessions (self w)) (client_id ci)
                        (contract_id c)
                 else client_sessions (self w)).
  { unfold store_negotiated, negotiated_stats, exec, bind, when.
    destruct (status cr); destruct (is_active c); simpl;
      repeat split; reflexivity. }
  destruct Hw as (Hc & Hl & Hs).
  unfold store_consistent, contract_of in *. split.
  - intros k x. rewrite Hc, Hl, !PyDictFacts.get_set.
    destruct (String.eqb (contract_id c) k).
    + intros [= <-]. split; [unfold tallied; lia | discriminate].
    + apply H1.
  - intros client k. rewrite Hs, Hc, PyDictFacts.get_set.
    destruct (String.eqb_spec (contract_id c) k) as [_|Hne];
      [discriminate|].
    destruct (is_active c); [|apply H2].
    rewrite PyDictFacts.get_set.
    destruct (String.eqb (client_id ci) client);
      [intros [= E]; contradiction | apply H2].
Qed.

(** Storing the audit contract of a failed negotiation. *)
Lemma cs_register_inactive c w :
  pristine c -> is_active c = false ->
  respects consistent_step (register_contract c) w.
Proof.
  unfold respects, consistent_step, store_consistent, contract_of.
  intros (Hv & _ & _ & Hf) Ha [H1 H2]. split.
  - intros k x. simpl. rewrite PyDictFacts.get_set.
    destruct (String.eqb (contract_id c) k).
    + intros [= <-]. split; [unfold tallied; lia | congruence].
    + apply H1.
  - intros client k Hs. simpl. rewrite PyDictFacts.get_set.
    destruct (String.eqb (contract_id c) k);
      [discriminate | apply (H2 client k Hs)].
Qed.

Lemma IntentContract_new_inactive ci sc cr p w c w' :
  IntentContract_new env ci sc cr false p w = (Returned c, w') ->
  is_active c = false.
Proof. intros H. apply (IntentContract_new_returns _ _ _ _ _ _ _ H). Qed.

Lemma cs_IntentContract_new ci sc cr a p w :
  respects consistent_step (IntentContract_new env ci sc cr a p) w.
Proof.
  destruct (IntentContract_new_world env ci sc cr a p w) as (Hs & _).
  apply cs_same; rewrite Hs; reflexivity.
Qed.

(** Dropping sessions keeps the remaining ones as they were. *)
Lemma cs_drop_sessions (g : IntentBroker -> list string) w :
  respects consistent_step
    (modify_self (fun b =>
       with_client_sessions
         (fold_left (fun d client => PyDict.del d client) (g b)
            (client_sessions b)) b)) w.
Proof.
  unfold respects, consistent_step, store_consistent, contract_of.
  intros [H1 H2]. split.
  - exact H1.
  - intros client k. simpl. rewrite PyDictFacts.get_del_all.
    destruct (str_in client _); [discriminate | apply H2].
Qed.

Hint Resolve cs_utcnow cs_uuid4 cs_ask cs_modify_stats cs_set_ledger
  cs_append_to_ledger cs_deactivate cs_record_outcome cs_record_failure
  cs_store_negotiated cs_register_inactive cs_IntentContract_new
  cs_drop_sessions IntentContract_new_pristine IntentContract_new_inactive
  negotiated_terms_pristine : broker.

Hint Extern 1 (respects consistent_step (modify_self _) _) =>
  apply cs_modify_other; reflexivity : broker.

(** [walk], taking the two recordings of a validation as one step. *)
Ltac walk_outcomes Rf Tr :=
  repeat first
    [ solve [eauto with broker]
    | match goal with
      | |- respects _
             (bind (record_transaction _ _ _) (fun _ => bind _ _)) _ =>
          apply respects_assoc; apply (respects_bind _ Tr);
          [ solve [eauto with broker] | intros ? ? ? ]
      end
    | apply respects_get_self
    | apply (respects_ret _ Rf)
    | apply (respects_raise _ Rf)
    | apply (respects_or_raise _ Rf)
    | apply (respects_when _ Rf); intros ?
    | apply (respects_bind _ Tr); [ | intros ? ? ? ]
    | apply (respects_try _ Tr); [ | intros ? ? ? ]
    | match goal with
      | |- respects _ (match ?x with _ => _ end) _ => destruct x eqn:?
      end ].

Lemma cs_negotiate i c extra w :
  respects consistent_step (negotiate_intent_contract env i c extra) w.
Proof.
  unfold negotiate_intent_contract, negotiate_body, negotiate_handler.
  walk_outcomes cs_refl cs_trans.
Qed.

Lemma cs_validate cid req resp w :
  respects consistent_step (validate_transaction env cid req resp) w.
Proof.
  unfold validate_transaction, deny_verdict, is_expired, validate_body,
    validate_handler, IntentTransactionValidation_new.
  walk_outcomes cs_refl cs_trans.
Qed.

Lemma cs_drift cid hours w :
  respects consistent_step (analyze_intent_drift env cid hours) w.
Proof.
  unfold analyze_intent_drift, act_on_drift.
  walk_outcomes cs_refl cs_trans.
Qed.

Lemma cs_response cid tid req resp w :
  respects consistent_step (validate_server_response env cid tid req resp) w.
Proof.
  unfold validate_server_response, ServerResponseValidation_new.
  walk_outcomes cs_refl cs_trans.
Qed.

Hint Resolve cs_validate cs_response : broker.

Lemma cs_bidirectional cid req resp w :
  respects consistent_step
    (validate_bidirectional_transaction env cid req resp) w.
Proof.
  unfold validate_bidirectional_transaction.
  walk_outcomes cs_refl cs_trans.
Qed.

Lemma cs_sweep items w :
  respects consistent_step (sweep_contracts env items) w.
Proof.
  revert w. induction items as [|[cid c] rest IH]; intros w; simpl.
  - apply (respects_ret _ cs_refl).
  - unfold is_expired. walk_outcomes cs_refl cs_trans.
Qed.

Hint Resolve cs_sweep : broker.

Lemma cs_cleanup w :
  respects consistent_step (cleanup_expired_contracts env) w.
Proof.
  unfold cleanup_expired_contracts. walk_outcomes cs_refl cs_trans.
Qed.

Lemma cs_declare i w :
  respects consistent_step (declare_client_intent env i) w.
Proof. unfold declare_client_intent. walk_outcomes cs_refl cs_trans. Qed.

Lemma cs_register c w :
  respects consistent_step (register_server_capability env c) w.
Proof.
  unfold register_server_capability. walk_outcomes cs_refl cs_trans.
Qed.

Lemma cs_op w op : consistent_step w (step env w op).
Proof.
  destruct op; simpl.
  - apply cs_declare.
  - apply cs_register.
  - apply cs_negotiate.
  - apply cs_validate.
  - apply cs_response.
  - apply cs_bidirectional.
  - apply cs_drift.
  - apply cs_cleanup.
Qed.

Lemma cs_reachable ops : store_consistent (run env ops World_init).
Proof.
  assert (H : forall w, store_consistent w -> store_consistent (run env ops w)).
  { induction ops as [|op ops IH]; intros w Hw; simpl;
      [exact Hw | apply IH, cs_op, Hw]. }
  apply H. split.
  - intros cid c. unfold contract_of. simpl. discriminate.
  - intros client cid. simpl. discriminate.
Qed.

(** X25. Over every history of the broker, violations and failed
    transactions are recorded together: for every stored contract
    [violation_count] equals [failed_transactions]. *)
Theorem violations_equal_failed_transactions (ops : list Op) cid c :
  contract_of (run env ops World_init) cid = Some c ->
  violation_count c = failed_transactions c.
Proof.
  intros Hc. destruct (cs_reachable ops) as [H _].
  destruct (H cid c Hc) as [Ht _]. exact Ht.
Qed.

(** X26. Over every history of the broker, the session index only names
    stored contracts: a client with a session always gets a contract
    back, and contracts are never discarded. *)
Theorem session_names_a_stored_contract (ops : list Op) client cid :
  PyDict.get (client_sessions (self (run env ops World_init))) client
    = Some cid ->
  exists c, contract_of (run env ops World_init) cid = Some c.
Proof.
  intros Hs. destruct (cs_reachable ops) as [_ H].
  specialize (H client cid Hs).
  destruct (contract_of _ cid) as [c|]; [exists c; reflexivity | contradiction].
Qed.

(** The world a validation leaves when the analyzer raises. *)
Lemma validate_failure_outcome w cid c req resp exn :
  contract_of w cid = Some c ->
  is_active c = true ->
  result (is_expired env c) w = Returned false ->
  llm_validate_transaction_intent (analyzer env) (analyzer_calls w) req resp
    (agreed_purpose c) (constraints c) = Raised exn ->
  contract_of (exec (validate_transaction env cid req resp) w) cid
    = Some (record_violation
              (record_transaction_at
                 (utcnow_reading env
                    (clock_reads (exec (is_expired env c) w))) false c)).
Proof.
  intros Hc Ha He Hllm. unfold exec at 1.
  rewrite (@validate_reaches_analyzer env w cid c req resp Hc Ha He).
  destruct (is_expired_world env c w) as (Hs & Hcalls & _).
  set (w1 := exec (is_expired env c) w) in *.
  unfold try_except, validate_body, bind, ask. simpl.
  rewrite Hcalls, Hllm. simpl.
  unfold contract_of in *. simpl.
  rewrite !PyDictFacts.get_alter, String.eqb_refl, Hs, Hc. reflexivity.
Qed.

(** X27. Over every history of the broker, a validation that reaches the
    analyzer is counted exactly once on its contract, whether the
    analyzer answers or raises: the ledger it appends to is always
    there, so the recording is never repeated by the handler. *)
Theorem validation_is_counted_once (ops : list Op) cid c req resp :
  let w := run env ops World_init in
  contract_of w cid = Some c ->
  is_active c = true ->
  result (is_expired env c) w = Returned false ->
  exists c',
    contract_of (exec (validate_transaction env cid req resp) w) cid
      = Some c' /\
    transaction_count c' = transaction_count c + 1 /\
    successful_transactions c' + failed_transactions c'
      = successful_transactions c + failed_transactions c + 1.
Proof.
  intros w Hc Ha He.
  destruct (cs_reachable ops) as [H _]. fold w in H.
  destruct (H cid c Hc) as [_ Hl]. specialize (Hl Ha).
  destruct (PyDict.get (contract_transactions (self w)) cid) as [l|] eqn:El;
    [clear Hl | contradiction].
  destruct (llm_validate_transaction_intent (analyzer env) (analyzer_calls w)
              req resp (agreed_purpose c) (constraints c))
    as [v0|exn] eqn:Ellm.
  - destruct (@validate_outcome env w cid c req resp v0 l Hc Ha He Ellm El)
      as (_ & Hc' & _).
    eexists. split; [exact Hc'|].
    destruct (is_valid (tv_validation_result v0)); simpl; split; lia.
  - eexists. split.
    + apply (@validate_failure_outcome w cid c req resp exn Hc Ha He Ellm).
    + simpl. split; lia.
Qed.

End Consistency.

(* ------------------------------------------------------------------ *)
(** ** Lifetime of a stored contract, ledger growth, the sweep *)

Section Lifetime.

Variable env : Env.
Hypothesis fresh : uuid_fresh env.

(** X28. Contracts are kept for audit and their identity is fixed: over every
    history of the broker, a stored contract is still stored after any
    further operations, under the same identifier and with the same
    [expires_at]. *)
Theorem contract_identity_and_expiry_are_fixed (before after : list Op)
    cid c :
  contract_of (run env before World_init) cid = Some c ->
  exists c',
    contract_of (run env after (run env before World_init)) cid = Some c' /\
    contract_id c' = contract_id c /\
    expires_at c' = expires_at c.
Proof.
  intros Hc.
  destruct (@stored_forever env fresh _ after _ _
              (keyed_reachable fresh before) Hc)
    as (c' & Hc' & _ & _ & He & Hi).
  exists c'. repeat split; assumption.
Qed.

End Lifetime.

Section Sweep.

Variable env : Env.

(** X30. Below the cap the ledger only grows: a validated transaction is
    appended after the records already there, and none is dropped. *)
Theorem ledger_grows_below_cap w cid c req resp v0 l :
  contract_of w cid = Some c ->
  is_active c = true ->
  result (is_expired env c) w = Returned false ->
  llm_validate_transaction_intent (analyzer env) (analyzer_calls w) req resp
    (agreed_purpose c) (constraints c) = Returned v0 ->
  PyDict.get (contract_transactions (self w)) cid = Some l ->
  (length l < LEDGER_CAP)%nat ->
  exists r,
    tx_transaction_id r = uuid4_value env (uuid_draws w) /\
    tx_request r = req /\ tx_response r = resp /\
    tx_validation_result r = validation_value (tv_validation_result v0) /\
    PyDict.get
      (contract_transactions
         (self (exec (validate_transaction env cid req resp) w))) cid
    = Some (l ++ [r]).
Proof.
  intros Hc Ha He Hllm Hl Hlen.
  destruct (@validate_appends env w cid c req resp v0 l Hc Ha He Hllm Hl)
    as (r & H1 & H2 & H3 & H4 & H5).
  exists r. repeat split; auto. rewrite H5.
  destruct (Nat.ltb_spec LEDGER_CAP (length (l ++ [r]))) as [Hgt|_];
    [|reflexivity].
  rewrite length_app in Hgt. simpl in Hgt. lia.
Qed.

Lemma unique_entry {V} (d : dict V) k v x :
  NoDup (PyDict.keys d) -> PyDict.get d k = Some v -> In (k, x) d -> x = v.
Proof.
  unfold PyDict.keys.
  induction d as [|[k0 v0] r IH]; simpl; intros Hnd Hg Hin; [contradiction|].
  inversion Hnd as [|? ? Hnotin Hnd']; subst.
  destruct (String.eqb_spec k0 k) as [->|Hne].
  - injection Hg as <-. destruct Hin as [[= ->]|Hin]; [reflexivity|].
    exfalso. apply Hnotin. apply (in_map fst _ (k, x)). exact Hin.
  - destruct Hin as [[= -> ->]|Hin]; [contradiction|].
    apply IH; assumption.
Qed.

Lemma sweep_skips items w cid c :
  (forall x, In (cid, x) items -> x = c) ->
  contract_of w cid = Some c ->
  expires_at c = None \/ is_active c = false ->
  contract_of (exec (sweep_contracts env items) w) cid = Some c.
Proof.
  revert w. induction items as [|[k0 c0] rest IH]; intros w Hu Hc Hskip;
    [exact Hc|].
  simpl. destruct (is_expired_run env c0 w) as (b & w1 & E & Hs & _ & _).
  assert (Hc1 : contract_of w1 cid = Some c)
    by (unfold contract_of in *; rewrite Hs; exact Hc).
  assert (Hu' : forall x, In (cid, x) rest -> x = c)
    by (intros x Hx; apply Hu; right; exact Hx).
  unfold exec, bind. rewrite E.
  destruct (b && is_active c0) eqn:Hsw; simpl.
  - set (w2 := with_self _ w1).
    assert (Hne : k0 <> cid).
    { intros ->. assert (c0 = c) by (apply Hu; left; reflexivity). subst c0.
      apply andb_true_iff in Hsw. destruct Hsw as [Hb Hact].
      destruct Hskip as [Hn|Hi]; [|congruence].
      unfold is_expired in E. rewrite Hn in E.
      injection E as <- _. discriminate. }
    assert (Hc2 : contract_of w2 cid = Some c).
    { unfold contract_of, w2. simpl. rewrite PyDictFacts.get_alter.
      destruct (String.eqb_spec k0 cid); [contradiction | exact Hc1]. }
    specialize (IH w2 Hu' Hc2 Hskip). unfold exec in IH.
    destruct (sweep_contracts env rest w2) as [[more|x] w']; exact IH.
  - apply (IH w1 Hu' Hc1 Hskip).
Qed.

(** X29. The sweep leaves alone every contract that has no expiry or is
    already inactive (in a store whose keys are distinct, as those of a
    dictionary are): it is neither changed nor removed. *)
Theorem sweep_leaves_other_contracts_alone w cid c :
  NoDup (PyDict.keys (active_contracts (self w))) ->
  contract_of w cid = Some c ->
  expires_at c = None \/ is_active c = false ->
  contract_of (exec (cleanup_expired_contracts env) w) cid = Some c.
Proof.
  intros Hnd Hc Hskip.
  pose proof (@sweep_skips (active_contracts (self w)) w cid c
                (fun x Hx => @unique_entry _ _ cid c x Hnd Hc Hx)
                Hc Hskip) as H.
  unfold exec, cleanup_expired_contracts, bind, get_self. simpl.
  unfold exec in H.
  destruct (sweep_contracts env (active_contracts (self w)) w)
    as [[expired|x] w1]; simpl in *; exact H.
Qed.

End Sweep.

(* ------------------------------------------------------------------ *)
(** ** The sweep and the session index *)

Section Cleanup.

Variable env : Env.

(** The first loop deactivates exactly the contracts it returns. *)
Lemma sweep_exact items w :
  exists expired w',
    sweep_contracts env items w = (Returned expired, w') /\
    client_sessions (self w') = client_sessions (self w) /\
    forall k,
      contract_of w' k =
      if str_in k expired
      then option_map (set_is_active false) (contract_of w k)
      else contract_of w k.
Proof.
  revert w. induction items as [|[cid c] rest IH]; intros w; simpl.
  - exists [], w. repeat split.
  - destruct (is_expired_run env c w) as (b & w1 & E & Hs & _ & _).
    unfold bind. rewrite E.
    destruct (b && is_active c); simpl.
    + set (w2 := with_self _ w1).
      destruct (IH w2) as (more & w' & E' & Hs' & Hk).
      rewrite E'. exists (cid :: more), w'.
      split; [reflexivity|].
      split; [rewrite Hs'; simpl; rewrite Hs; reflexivity|].
      intros k. rewrite Hk.
      assert (H2 : contract_of w2 k =
                   if String.eqb cid k
                   then option_map (set_is_active false) (contract_of w k)
                   else contract_of w k).
      { unfold contract_of, w2. simpl. rewrite PyDictFacts.get_alter, Hs.
        reflexivity. }
      rewrite H2. unfold str_in. simpl. rewrite (String.eqb_sym k cid).
      destruct (String.eqb cid k); simpl;
        destruct (existsb (String.eqb k) more); try reflexivity.
      destruct (contract_of w k); reflexivity.
    + destruct (IH w1) as (more & w' & E' & Hs' & Hk).
      rewrite E'. exists more, w'.
      split; [reflexivity|]. split; [congruence|].
      intros k. rewrite Hk. unfold contract_of. rewrite Hs. reflexivity.
Qed.

(** A contract the first loop returns was active, and was past its
    expiry at a clock reading of the pass. *)
Lemma sweep_returns_expired items :
  forall w expired w' cid c,
    sweep_contracts env items w = (Returned expired, w') ->
    (forall x, In (cid, x) items -> x = c) ->
    In cid expired ->
    is_active c = true /\
    exists e n,
      expires_at c = Some e /\ (clock_reads w <= n)%nat /\
      e < utcnow_reading env n.
Proof.
  induction items as [|[k0 c0] rest IH]; intros w expired w' cid c E Hu Hin;
    simpl in E.
  - injection E as <- _. contradiction.
  - destruct (is_expired_run env c0 w) as (b & w1 & E1 & Hs & Hclk & Hb).
    assert (Hu' : forall x, In (cid, x) rest -> x = c)
      by (intros x Hx; apply Hu; right; exact Hx).
    unfold bind in E. rewrite E1 in E.
    destruct (b && is_active c0) eqn:Hsw; simpl in E.
    + destruct (sweep_contracts env rest _) as [[more|x] w''] eqn:E';
        [|discriminate].
      injection E as <- _.
      destruct Hin as [->|Hin].
      * assert (c0 = c) by (apply Hu; left; reflexivity). subst c0.
        apply andb_true_iff in Hsw. destruct Hsw as [Hb' Ha].
        split; [exact Ha|].
        destruct (expires_at c) as [e|] eqn:He.
        -- exists e, (clock_reads w).
           split; [reflexivity|]. split; [lia|].
           apply Z.ltb_lt. rewrite <- (Hb e eq_refl). exact Hb'.
        -- unfold is_expired in E1. rewrite He in E1.
           injection E1 as <- _. discriminate.
      * destruct (IH _ more w'' cid c E' Hu' Hin)
          as (Ha & e & n & He & Hn & Hlt).
        split; [exact Ha|]. exists e, n.
        split; [exact He|]. split; [simpl in Hn; lia | exact Hlt].
    + destruct (IH w1 expired w' cid c E Hu' Hin)
        as (Ha & e & n & He & Hn & Hlt).
      split; [exact Ha|]. exists e, n.
      split; [exact He|]. split; [lia | exact Hlt].
Qed.

(** With distinct client keys, the session of a client is marked for
    removal exactly when its contract was returned by the first loop. *)
Lemma sessions_of_unique expired (sessions : dict string) client cid :
  NoDup (PyDict.keys sessions) ->
  PyDict.get sessions client = Some cid ->
  str_in client (sessions_of expired sessions) = str_in cid expired.
Proof.
  intros Hnd Hg.
  destruct (str_in cid expired) eqn:Hin.
  - apply (@sessions_of_In expired sessions client cid Hg).
    apply str_in_In. exact Hin.
  - destruct (str_in client (sessions_of expired sessions)) eqn:Hc;
      [|reflexivity].
    apply str_in_In in Hc. unfold sessions_of in Hc.
    apply in_map_iff in Hc. destruct Hc as ([k v] & Hk & Hf).
    simpl in Hk. subst k.
    apply filter_In in Hf. destruct Hf as [Hi Hv]. simpl in Hv.
    rewrite (@unique_entry _ sessions client cid v Hnd Hg Hi) in Hv.
    congruence.
Qed.

(** C10 (amended).  After a pass of the sweeper: every stored contract
    whose expiry lies before the clock is inactive; no session entry maps
    to a contract that the pass deactivated, an entry that survives being
    as it was, with its contract as it was; and (the keys of the two
    dictionaries being distinct) the pass removes exactly the entries
    whose contract it deactivated, a contract that was active and found
    expired.  Every other entry is kept: in particular the entry of a
    contract that was already inactive, as after five violations, or
    that has no expiry, stays, with its contract unchanged. *)
Theorem sweep_drops_exactly_the_sessions_it_expires w :
  let w' := exec (cleanup_expired_contracts env) w in
  (forall cid c e,
     contract_of w cid = Some c ->
     expires_at c = Some e ->
     (forall n, (clock_reads w <= n)%nat -> e < utcnow_reading env n) ->
     exists c', contract_of w' cid = Some c' /\ is_active c' = false) /\
  (forall client cid c,
     PyDict.get (client_sessions (self w')) client = Some cid ->
     contract_of w cid = Some c ->
     PyDict.get (client_sessions (self w)) client = Some cid /\
     contract_of w' cid = Some c) /\
  (NoDup (PyDict.keys (active_contracts (self w))) ->
   NoDup (PyDict.keys (client_sessions (self w))) ->
   forall client cid c,
     PyDict.get (client_sessions (self w)) client = Some cid ->
     contract_of w cid = Some c ->
     (contract_of w' cid = Some c /\
      PyDict.get (client_sessions (self w')) client = Some cid) \/
     (is_active c = true /\
      (exists e n,
         expires_at c = Some e /\ (clock_reads w <= n)%nat /\
         e < utcnow_reading env n) /\
      contract_of w' cid = Some (set_is_active false c) /\
      PyDict.get (client_sessions (self w')) client = None)) /\
  (NoDup (PyDict.keys (active_contracts (self w))) ->
   NoDup (PyDict.keys (client_sessions (self w))) ->
   forall client cid c,
     PyDict.get (client_sessions (self w)) client = Some cid ->
     contract_of w cid = Some c ->
     is_active c = false \/ expires_at c = None ->
     PyDict.get (client_sessions (self w')) client = Some cid /\
     contract_of w' cid = Some c).
Proof.
  intros w'.
  destruct (sweep_exact (active_contracts (self w)) w)
    as (expired & w1 & E & Hs & Hk).
  assert (Hw' : contract_of w' = contract_of w1 /\
                client_sessions (self w') =
                fold_left (fun d client => PyDict.del d client)
                  (sessions_of expired (client_sessions (self w)))
                  (client_sessions (self w))).
  { unfold w', exec, cleanup_expired_contracts, bind, get_self. simpl.
    rewrite E. simpl. rewrite Hs. split; reflexivity. }
  destruct Hw' as [Hcw Hsw].
  assert (Hexact :
    NoDup (PyDict.keys (active_contracts (self w))) ->
    NoDup (PyDict.keys (client_sessions (self w))) ->
    forall client cid c,
      PyDict.get (client_sessions (self w)) client = Some cid ->
      contract_of w cid = Some c ->
      (contract_of w' cid = Some c /\
       PyDict.get (client_sessions (self w')) client = Some cid) \/
      (is_active c = true /\
       (exists e n,
          expires_at c = Some e /\ (clock_reads w <= n)%nat /\
          e < utcnow_reading env n) /\
       contract_of w' cid = Some (set_is_active false c) /\
       PyDict.get (client_sessions (self w')) client = None)).
  { intros Hndc Hnds client cid c Hg Hc.
    rewrite Hcw, Hsw, PyDictFacts.get_del_all, Hk.
    rewrite (@sessions_of_unique expired _ client cid Hnds Hg), Hc, Hg.
    destruct (str_in cid expired) eqn:Hin; [right | left; split; reflexivity].
    apply str_in_In in Hin.
    destruct (@sweep_returns_expired (active_contracts (self w)) w expired w1
                cid c E
                (fun x Hx => @unique_entry _ _ cid c x Hndc Hc Hx) Hin)
      as [Ha Hexp].
    split; [exact Ha|]. split; [exact Hexp|]. split; reflexivity. }
  split; [|split; [|split; [exact Hexact|]]].
  - intros cid c e Hc He Hclk. rewrite Hcw.
    replace w1 with (exec (sweep_contracts env (active_contracts (self w))) w)
      by (unfold exec; rewrite E; reflexivity).
    apply (@sweep_deactivates env _ w cid c e); auto.
    apply PyDictFacts.get_In. exact Hc.
  - intros client cid c Hg Hc. rewrite Hsw, PyDictFacts.get_del_all in Hg.
    destruct (str_in client _) eqn:Hin; [discriminate|].
    split; [exact Hg|]. rewrite Hcw, Hk, Hc.
    destruct (str_in cid expired) eqn:Hex; [|reflexivity].
    apply str_in_In in Hex.
    rewrite (@sessions_of_In _ _ _ _ Hg Hex) in Hin. discriminate.
  - intros Hndc Hnds client cid c Hg Hc Hskip.
    destruct (Hexact Hndc Hnds client cid c Hg Hc)
      as [[H1 H2]|(Ha & (e & n & He & _) & _)].
    + split; [exact H2 | exact H1].
    + destruct Hskip; congruence.
Qed.

End Cleanup.

(* ------------------------------------------------------------------ *)
(** ** The shipped transaction check *)

Section Shipped.

Variable env : Env.
Variable o : TransactionOracle.

(** The broker's analyzer validates transactions as the shipped
    [OllamaIntentAnalyzer] does. *)
Hypothesis shipped :
  llm_validate_transaction_intent (analyzer env) = validate_transaction_intent o.

Lemma validate_transaction_intent_returns h req resp purpose cs :
  exists v,
    llm_validate_transaction_intent (analyzer env) h req resp purpose cs
    = Returned v.
Proof.
  rewrite shipped. unfold validate_transaction_intent.
  destruct (transaction_analysis o h req resp purpose cs);
    eexists; reflexivity.
Qed.


End Shipped.

(* ------------------------------------------------------------------ *)
(** ** Concrete runs of the further properties *)

Lemma validate_unknown_contract_witness :
  exists v,
    result (validate_transaction Sample.env_valid "nope" Sample.request None)
      World_init = Returned v /\
    tv_validation_result v = INVALID /\
    tv_risk_factors v = ["unknown_contract"].
Proof.
  destruct (@validate_unknown_contract Sample.env_valid World_init "nope"
              Sample.request None ltac:(reflexivity))
    as (v & H1 & H2 & _ & H3 & _).
  exists v. split; [exact H1 | split; [exact H2 | exact H3]].
Defined.

Lemma validate_inactive_contract_witness :
  exists v,
    result (validate_transaction Sample.env_invalid Sample.cid
              Sample.request None)
      (run Sample.env_invalid (Sample.setup ++ Sample.validations 5)
         World_init) = Returned v /\
    tv_risk_factors v = ["inactive_contract"] /\
    analyzer_calls
      (exec (validate_transaction Sample.env_invalid Sample.cid
               Sample.request None)
         (run Sample.env_invalid (Sample.setup ++ Sample.validations 5)
            World_init))
    = analyzer_calls
        (run Sample.env_invalid (Sample.setup ++ Sample.validations 5)
           World_init).
Proof.
  destruct (@validate_inactive_contract Sample.env_invalid
              (run Sample.env_invalid (Sample.setup ++ Sample.validations 5)
                 World_init) Sample.cid _ Sample.request None
              ltac:(vm_compute; reflexivity) ltac:(reflexivity))
    as (v & H1 & _ & _ & H2 & _ & _ & H3).
  exists v. split; [exact H1 | split; [exact H2 | exact H3]].
Defined.

Lemma validate_server_response_unknown_witness :
  exists rv,
    result (validate_server_response Sample.env_valid "nope" "t"
              Sample.request Sample.response) World_init = Returned rv /\
    rv_validation_result rv = INVALID /\
    rv_privacy_violations rv = ["unknown_contract"].
Proof.
  destruct (@validate_server_response_unknown_contract Sample.env_valid
              World_init "nope" "t" Sample.request Sample.response
              ltac:(reflexivity))
    as (rv & H1 & H2 & _ & H3 & _).
  exists rv. split; [exact H1 | split; [exact H2 | exact H3]].
Defined.

Lemma valid_transaction_witness :
  exists c',
    contract_of
      (exec (validate_transaction Sample.env_valid Sample.cid Sample.request
               None)
         (run Sample.env_valid Sample.setup World_init)) Sample.cid
    = Some c' /\
    transaction_count c' = 1 /\ successful_transactions c' = 1 /\
    violation_count c' = 0 /\ is_active c' = true.
Proof.
  destruct (@valid_transaction_is_counted Sample.env_valid
              (run Sample.env_valid Sample.setup World_init) Sample.cid
              _ Sample.request None _ _
              ltac:(vm_compute; reflexivity) ltac:(reflexivity)
              ltac:(vm_compute; reflexivity) ltac:(vm_compute; reflexivity)
              ltac:(vm_compute; reflexivity) ltac:(reflexivity))
    as (_ & c' & H1 & H2 & H3 & _ & H4 & H5 & _).
  exists c'.
  split; [exact H1 | split; [exact H2 | split; [exact H3 |
    split; [exact H4 | exact H5]]]].
Defined.

Lemma rejected_transaction_witness :
  exists c',
    contract_of
      (exec (validate_transaction Sample.env_invalid Sample.cid
               Sample.request None)
         (run Sample.env_invalid (Sample.setup ++ Sample.validations 4)
            World_init)) Sample.cid
    = Some c' /\
    failed_transactions c' = 5 /\ violation_count c' = 5 /\
    is_active c' = false.
Proof.
  destruct (@rejected_transaction_is_a_violation Sample.env_invalid
              (run Sample.env_invalid (Sample.setup ++ Sample.validations 4)
                 World_init) Sample.cid
              _ Sample.request None _ _
              ltac:(vm_compute; reflexivity) ltac:(reflexivity)
              ltac:(vm_compute; reflexivity) ltac:(vm_compute; reflexivity)
              ltac:(vm_compute; reflexivity) ltac:(vm_compute; discriminate))
    as (c' & H1 & _ & _ & H2 & H3 & H4).
  exists c'. split; [exact H1 | split; [exact H2 | split; [exact H3 |]]].
  apply H4. vm_compute. discriminate.
Defined.

Lemma validation_consults_analyzer_witness :
  analyzer_calls
    (exec (validate_transaction Sample.env_valid Sample.cid Sample.request
             None)
       (run Sample.env_valid Sample.setup World_init))
  = [CallCompatibility Sample.intent Sample.capability;
     CallTransaction Sample.request None "X" ["read_only"]].
Proof.
  apply (@validation_consults_analyzer_once Sample.env_valid
           (run Sample.env_valid Sample.setup World_init) Sample.cid
           _ Sample.request None
           ltac:(vm_compute; reflexivity) ltac:(reflexivity)
           ltac:(vm_compute; reflexivity)).
Defined.

Lemma drift_of_unknown_contract_witness :
  analyze_intent_drift Sample.env_valid "nope" 24 World_init
  = (Returned [("error", PyStr "Contract not found")], World_init).
Proof.
  apply (@drift_of_unknown_contract Sample.env_valid World_init "nope" 24).
  reflexivity.
Defined.

Lemma drift_with_empty_window_witness :
  result (analyze_intent_drift Sample.env_valid Sample.cid 24)
    (run Sample.env_valid Sample.setup World_init)
  = Returned no_recent_transactions /\
  analyzer_calls
    (exec (analyze_intent_drift Sample.env_valid Sample.cid 24)
       (run Sample.env_valid Sample.setup World_init))
  = analyzer_calls (run Sample.env_valid Sample.setup World_init).
Proof.
  destruct (@drift_with_empty_window Sample.env_valid
              (run Sample.env_valid Sample.setup World_init) Sample.cid
              _ 24 _ _
              ltac:(vm_compute; reflexivity) ltac:(vm_compute; reflexivity)
              ltac:(vm_compute; reflexivity) ltac:(vm_compute; reflexivity))
    as (H1 & _ & H2).
  split; [exact H1 | exact H2].
Defined.

Lemma drift_analyzer_failure_witness :
  result (analyze_intent_drift Sample.env_all_valid Sample.cid 24)
    (run Sample.env_all_valid (Sample.setup ++ Sample.validations 1)
       World_init)
  = Returned (drift_failed Sample.unreachable) /\
  self (exec (analyze_intent_drift Sample.env_all_valid Sample.cid 24)
          (run Sample.env_all_valid (Sample.setup ++ Sample.validations 1)
             World_init))
  = self (run Sample.env_all_valid (Sample.setup ++ Sample.validations 1)
            World_init).
Proof.
  destruct (@drift_analyzer_failure Sample.env_all_valid
              (run Sample.env_all_valid
                 (Sample.setup ++ Sample.validations 1) World_init)
              Sample.cid _ 24 _ _ _ _ Sample.unreachable
              ltac:(vm_compute; reflexivity) ltac:(vm_compute; reflexivity)
              ltac:(vm_compute; reflexivity) ltac:(vm_compute; reflexivity)
              ltac:(vm_compute; reflexivity))
    as (H1 & _ & _ & H2).
  split; [exact H1 | exact H2].
Defined.

Lemma drift_only_deactivates_witness :
  exists c,
    contract_of
      (run Sample.env_valid (Sample.setup ++ Sample.validations 1) World_init)
      Sample.cid = Some c /\
    (contract_of
       (exec (analyze_intent_drift Sample.env_valid Sample.cid 24)
          (run Sample.env_valid (Sample.setup ++ Sample.validations 1)
             World_init)) Sample.cid = Some c \/
     contract_of
       (exec (analyze_intent_drift Sample.env_valid Sample.cid 24)
          (run Sample.env_valid (Sample.setup ++ Sample.validations 1)
             World_init)) Sample.cid = Some (set_is_active false c)).
Proof.
  eexists. split; [vm_compute; reflexivity|].
  apply (@drift_only_deactivates Sample.env_valid).
  vm_compute. reflexivity.
Defined.

Lemma bidirectional_without_response_witness :
  exists v w1,
    validate_bidirectional_transaction Sample.env_valid Sample.cid
      Sample.request (Some [])
      (run Sample.env_valid Sample.setup World_init) = (Returned v, w1) /\
    tv_validation_result v = VALID /\
    tv_client_protection v = None.
Proof.
  eexists. eexists. split.
  - apply (@bidirectional_without_response Sample.env_valid
             (run Sample.env_valid Sample.setup World_init) Sample.cid
             Sample.request (Some []));
      [vm_compute; reflexivity | reflexivity].
  - split; reflexivity.
Defined.

Lemma bidirectional_both_valid_witness :
  exists outer w2,
    validate_bidirectional_transaction Sample.env_all_valid Sample.cid
      Sample.request (Some Sample.response)
      (run Sample.env_all_valid Sample.setup World_init)
    = (Returned outer, w2) /\
    tv_validation_result outer = VALID /\
    tv_risk_factors outer = ["r0"] /\
    tv_client_protection outer <> None.
Proof.
  destruct (@bidirectional_both_valid Sample.env_all_valid
              (run Sample.env_all_valid Sample.setup World_init) Sample.cid
              Sample.request ("temperature", PyInt 21) [] _ _ _ _
              ltac:(vm_compute; reflexivity) ltac:(reflexivity)
              ltac:(vm_compute; reflexivity) ltac:(reflexivity))
    as [H _].
  eexists. eexists. split; [exact H|].
  split; [reflexivity | split; [reflexivity | discriminate]].
Defined.

Lemma negotiate_compatible_witness :
  exists c,
    result (negotiate_intent_contract Sample.env_valid (Sample.uuid 0)
              (Sample.uuid 1) (Some ["no_pii"]))
      (run Sample.env_valid (Sample.declared Sample.intent) World_init)
    = Returned c /\
    is_active c = true /\
    agreed_purpose c = "X" /\
    constraints c = ["read_only"; "no_pii"] /\
    expires_at c = Some (created_at c + 60 * MICROS_PER_MINUTE).
Proof.
  destruct (@negotiate_compatible Sample.env_valid
              (run Sample.env_valid (Sample.declared Sample.intent)
                 World_init)
              (Sample.uuid 0) (Sample.uuid 1) (Some ["no_pii"])
              Sample.intent Sample.capability
              (Sample.compat COMPATIBLE) 60
              ltac:(vm_compute; reflexivity) ltac:(vm_compute; reflexivity)
              ltac:(reflexivity) ltac:(reflexivity) ltac:(reflexivity)
              ltac:(discriminate)
              ltac:(vm_compute; split; discriminate)
              ltac:(vm_compute; split; discriminate))
    as (c & H1 & _ & H2 & H3 & _ & _ & H4 & _ & H5 & H6 & _).
  exists c. split; [exact H1 | split; [exact H2 | split; [exact H3 |
    split; [exact H4 |]]]].
  rewrite H6, H5. reflexivity.
Defined.

Lemma negotiate_not_compatible_witness :
  exists c,
    result (negotiate_intent_contract Sample.env_pending (Sample.uuid 0)
              (Sample.uuid 1) None)
      (run Sample.env_pending (Sample.declared Sample.intent) World_init)
    = Returned c /\
    is_active c = false /\
    agreed_purpose c = "PENDING: X" /\
    client_sessions
      (self (exec (negotiate_intent_contract Sample.env_pending
                     (Sample.uuid 0) (Sample.uuid 1) None)
               (run Sample.env_pending (Sample.declared Sample.intent)
                  World_init)))
    = [].
Proof.
  destruct (@negotiate_not_compatible Sample.env_pending
              (run Sample.env_pending (Sample.declared Sample.intent)
                 World_init)
              (Sample.uuid 0) (Sample.uuid 1) None
              Sample.intent Sample.capability
              (Sample.compat REQUIRES_NEGOTIATION)
              ltac:(vm_compute; reflexivity) ltac:(vm_compute; reflexivity)
              ltac:(reflexivity) ltac:(discriminate)
              ltac:(intros d [= <-] _; vm_compute;
                    split; split; discriminate))
    as (c & H1 & _ & H2 & H3 & _ & _ & _ & _ & H4 & _).
  exists c. split; [exact H1 | split; [exact H2 | split; [exact H3 |
    exact H4]]].
Defined.

Lemma negotiate_analyzer_failure_witness :
  exists c,
    result (negotiate_intent_contract Sample.env_offline (Sample.uuid 0)
              (Sample.uuid 1) None)
      (run Sample.env_offline (Sample.declared Sample.intent) World_init)
    = Returned c /\
    is_active c = false /\
    agreed_purpose c = "FAILED: Ollama connection failed" /\
    contract_transactions
      (self (exec (negotiate_intent_contract Sample.env_offline
                     (Sample.uuid 0) (Sample.uuid 1) None)
               (run Sample.env_offline (Sample.declared Sample.intent)
                  World_init)))
    = [].
Proof.
  destruct (@negotiate_analyzer_failure Sample.env_offline
              (run Sample.env_offline (Sample.declared Sample.intent)
                 World_init)
              (Sample.uuid 0) (Sample.uuid 1) None
              Sample.intent Sample.capability Sample.unreachable
              ltac:(vm_compute; reflexivity) ltac:(vm_compute; reflexivity)
              ltac:(reflexivity)
              ltac:(intros d [= <-] _; vm_compute;
                    split; split; discriminate))
    as (c & H1 & _ & H2 & H3 & _ & _ & H4 & _).
  exists c. split; [exact H1 | split; [exact H2 | split; [exact H3 |
    exact H4]]].
Defined.

Lemma negotiate_overflow_witness :
  (exists e,
     result (negotiate_intent_contract Sample.env_valid (Sample.uuid 0)
               (Sample.uuid 1) None)
       (run Sample.env_valid (Sample.declared Sample.intent_huge) World_init)
     = Raised e /\ exc_class e = "OverflowError") /\
  active_contracts
    (self (exec (negotiate_intent_contract Sample.env_valid (Sample.uuid 0)
                   (Sample.uuid 1) None)
             (run Sample.env_valid (Sample.declared Sample.intent_huge)
                World_init)))
  = [].
Proof.
  destruct (@negotiate_overflow_escapes Sample.env_valid
              (run Sample.env_valid (Sample.declared Sample.intent_huge)
                 World_init)
              (Sample.uuid 0) (Sample.uuid 1) None
              Sample.intent_huge Sample.capability 1000000000000000
              ltac:(vm_compute; reflexivity) ltac:(vm_compute; reflexivity)
              ltac:(reflexivity) ltac:(vm_compute; reflexivity))
    as (H1 & H2 & _).
  split; [exact H1 | exact H2].
Defined.

Lemma negotiated_contract_found_witness :
  exists c,
    get_contract_by_client
      (self (exec (negotiate_intent_contract Sample.env_valid (Sample.uuid 0)
                     (Sample.uuid 1) None)
               (run Sample.env_valid (Sample.declared Sample.intent)
                  World_init)))
      "client-1" = Some c /\
    result (negotiate_intent_contract Sample.env_valid (Sample.uuid 0)
              (Sample.uuid 1) None)
      (run Sample.env_valid (Sample.declared Sample.intent) World_init)
    = Returned c.
Proof.
  destruct (@negotiated_contract_is_found_by_client Sample.env_valid
              (run Sample.env_valid (Sample.declared Sample.intent)
                 World_init)
              (Sample.uuid 0) (Sample.uuid 1) None
              Sample.intent Sample.capability (Sample.compat COMPATIBLE)
              ltac:(vm_compute; reflexivity) ltac:(vm_compute; reflexivity)
              ltac:(reflexivity) ltac:(reflexivity)
              ltac:(intros d [= <-] _; vm_compute;
                    split; split; discriminate)
              ltac:(vm_compute; discriminate))
    as (c & H1 & H2 & _).
  exists c. split; [exact H2 | exact H1].
Defined.

Lemma renegotiation_witness :
  PyDict.get
    (client_sessions
       (self (exec (negotiate_intent_contract Sample.env_valid
                      (Sample.uuid 0) (Sample.uuid 1) None)
                (run Sample.env_valid Sample.setup World_init))))
    "client-1" = Some (Sample.uuid 3) /\
  exists old,
    contract_of
      (exec (negotiate_intent_contract Sample.env_valid (Sample.uuid 0)
               (Sample.uuid 1) None)
         (run Sample.env_valid Sample.setup World_init)) (Sample.uuid 2)
    = Some old /\
    is_active old = true.
Proof.
  destruct (@renegotiation_keeps_the_old_contract Sample.env_valid
              (run Sample.env_valid Sample.setup World_init)
              (Sample.uuid 0) (Sample.uuid 1) None
              Sample.intent Sample.capability (Sample.compat COMPATIBLE)
              (Sample.uuid 2) _
              ltac:(vm_compute; reflexivity) ltac:(vm_compute; reflexivity)
              ltac:(reflexivity) ltac:(reflexivity)
              ltac:(intros d [= <-] _; vm_compute;
                    split; split; discriminate)
              ltac:(vm_compute; reflexivity) ltac:(vm_compute; reflexivity)
              ltac:(vm_compute; discriminate))
    as (H1 & H2).
  split; [exact H1|]. eexists. split; [exact H2 | reflexivity].
Defined.

Lemma no_duration_witness :
  exists c,
    result (negotiate_intent_contract Sample.env_valid (Sample.uuid 0)
              (Sample.uuid 1) None)
      (run Sample.env_valid (Sample.declared Sample.intent_forever)
         World_init)
    = Returned c /\
    expires_at c = None.
Proof.
  destruct (@no_duration_means_no_expiry Sample.env_valid
              (run Sample.env_valid (Sample.declared Sample.intent_forever)
                 World_init)
              (Sample.uuid 0) (Sample.uuid 1) None
              Sample.intent_forever Sample.capability
              (Sample.compat COMPATIBLE)
              ltac:(vm_compute; reflexivity) ltac:(vm_compute; reflexivity)
              ltac:(reflexivity) ltac:(reflexivity)
              ltac:(left; reflexivity))
    as (c & H1 & _ & H2 & _).
  exists c. split; [exact H1 | exact H2].
Defined.

Lemma violations_equal_failed_witness :
  exists c,
    contract_of
      (run Sample.env_failing (Sample.setup ++ Sample.validations 3)
         World_init) Sample.cid = Some c /\
    violation_count c = 3 /\
    violation_count c = failed_transactions c.
Proof.
  eexists. split; [vm_compute; reflexivity|]. split; [reflexivity|].
  apply (@violations_equal_failed_transactions Sample.env_failing
           (Sample.setup ++ Sample.validations 3) Sample.cid).
  vm_compute. reflexivity.
Defined.

Lemma session_names_stored_witness :
  exists c,
    contract_of
      (run Sample.env_invalid
         (Sample.setup ++ Sample.validations 5 ++ [Cleanup]) World_init)
      Sample.cid = Some c.
Proof.
  apply (@session_names_a_stored_contract Sample.env_invalid
           (Sample.setup ++ Sample.validations 5 ++ [Cleanup])
           "client-1" Sample.cid).
  vm_compute. reflexivity.
Defined.

Lemma validation_counted_once_witness :
  exists c',
    contract_of
      (exec (validate_transaction Sample.env_failing Sample.cid
               Sample.request None)
         (run Sample.env_failing (Sample.setup ++ Sample.validations 2)
            World_init)) Sample.cid = Some c' /\
    transaction_count c' = 3.
Proof.
  destruct (@validation_is_counted_once Sample.env_failing
              (Sample.setup ++ Sample.validations 2) Sample.cid _
              Sample.request None
              ltac:(vm_compute; reflexivity) ltac:(reflexivity)
              ltac:(vm_compute; reflexivity))
    as (c' & H1 & H2 & _).
  exists c'. split; [exact H1 | exact H2].
Defined.

Lemma contract_identity_witness :
  exists c c',
    contract_of (run Sample.env_slow Sample.setup World_init) Sample.cid
      = Some c /\
    contract_of
      (run Sample.env_slow (Sample.validations 1 ++ [Cleanup])
         (run Sample.env_slow Sample.setup World_init)) Sample.cid
      = Some c' /\
    is_active c = true /\ is_active c' = false /\
    contract_id c' = contract_id c /\
    expires_at c' = expires_at c.
Proof.
  destruct (@contract_identity_and_expiry_are_fixed Sample.env_slow
              (Sample_uuid_fresh _ _) Sample.setup
              (Sample.validations 1 ++ [Cleanup]) Sample.cid _
              ltac:(vm_compute; reflexivity))
    as (c' & H1 & H2 & H3).
  eexists. exists c'.
  split; [vm_compute; reflexivity|]. split; [exact H1|].
  split; [reflexivity|]. split; [|split; [exact H2 | exact H3]].
  vm_compute in H1. injection H1 as <-. reflexivity.
Defined.

Lemma sweep_leaves_alone_witness :
  exists c,
    contract_of
      (exec (cleanup_expired_contracts Sample.env_slow)
         (run Sample.env_slow
            (Sample.declared Sample.intent_forever ++
             [Negotiate (Sample.uuid 0) (Sample.uuid 1) None]) World_init))
      Sample.cid = Some c /\
    is_active c = true.
Proof.
  eexists. split.
  - apply (@sweep_leaves_other_contracts_alone Sample.env_slow).
    + vm_compute. constructor; [intros [] | constructor].
    + vm_compute. reflexivity.
    + left. reflexivity.
  - reflexivity.
Defined.

Lemma ledger_grows_witness :
  exists r1 r2,
    PyDict.get
      (contract_transactions
         (self (exec (validate_transaction Sample.env_valid Sample.cid
                        Sample.request None)
                  (run Sample.env_valid
                     (Sample.setup ++ Sample.validations 1) World_init))))
      Sample.cid = Some ([r1] ++ [r2]) /\
    tx_transaction_id r1 = Sample.uuid 3 /\
    tx_transaction_id r2 = Sample.uuid 4.
Proof.
  destruct (@ledger_grows_below_cap Sample.env_valid
              (run Sample.env_valid (Sample.setup ++ Sample.validations 1)
                 World_init) Sample.cid _ Sample.request None _ _
              ltac:(vm_compute; reflexivity) ltac:(reflexivity)
              ltac:(vm_compute; reflexivity) ltac:(vm_compute; reflexivity)
              ltac:(vm_compute; reflexivity)
              ltac:(vm_compute; repeat constructor))
    as (r & H1 & _ & _ & _ & H2).
  eexists. exists r. split; [exact H2 | split; [reflexivity | exact H1]].
Defined.


(** A pass of the sweeper over two sessions: the one-hour contract of
    ["client-1"] has run out and is deactivated, and its session goes;
    the contract of ["client-2"], inactive after five violations, keeps
    its session. *)
Lemma sweep_witness :
  PyDict.get
    (client_sessions
       (self (run Sample.env_slow_invalid Sample.two_clients World_init)))
    "client-1" = Some (Sample.uuid 4) /\
  PyDict.get
    (client_sessions
       (self (run Sample.env_slow_invalid Sample.two_clients World_init)))
    "client-2" = Some (Sample.uuid 2) /\
  (exists c',
     contract_of
       (exec (cleanup_expired_contracts Sample.env_slow_invalid)
          (run Sample.env_slow_invalid Sample.two_clients World_init))
       (Sample.uuid 4) = Some c' /\
     is_active c' = false) /\
  PyDict.get
    (client_sessions
       (self (exec (cleanup_expired_contracts Sample.env_slow_invalid)
                (run Sample.env_slow_invalid Sample.two_clients World_init))))
    "client-1" = None /\
  PyDict.get
    (client_sessions
       (self (exec (cleanup_expired_contracts Sample.env_slow_invalid)
                (run Sample.env_slow_invalid Sample.two_clients World_init))))
    "client-2" = Some (Sample.uuid 2) /\
  (exists c,
     contract_of
       (exec (cleanup_expired_contracts Sample.env_slow_invalid)
          (run Sample.env_slow_invalid Sample.two_clients World_init))
       (Sample.uuid 2) = Some c /\
     is_active c = false /\ violation_count c = 5).
Proof.
  destruct (@sweep_drops_exactly_the_sessions_it_expires
              Sample.env_slow_invalid
              (run Sample.env_slow_invalid Sample.two_clients World_init))
    as (_ & _ & Hexact & Hkept).
  assert (Hndc : NoDup
            (PyDict.keys
               (active_contracts
                  (self (run Sample.env_slow_invalid Sample.two_clients
                           World_init))))).
  { vm_compute. repeat constructor; simpl; intuition discriminate. }
  assert (Hnds : NoDup
            (PyDict.keys
               (client_sessions
                  (self (run Sample.env_slow_invalid Sample.two_clients
                           World_init))))).
  { vm_compute. repeat constructor; simpl; intuition discriminate. }
  split; [vm_compute; reflexivity|]. split; [vm_compute; reflexivity|].
  destruct (Hexact Hndc Hnds "client-1" (Sample.uuid 4) _
              ltac:(vm_compute; reflexivity) ltac:(vm_compute; reflexivity))
    as [[_ H2]|(_ & _ & H3 & H4)].
  - vm_compute in H2. discriminate H2.
  - split; [eexists; split; [exact H3 | reflexivity]|].
    split; [exact H4|].
    destruct (Hkept Hndc Hnds "client-2" (Sample.uuid 2) _
                ltac:(vm_compute; reflexivity) ltac:(vm_compute; reflexivity)
                ltac:(left; reflexivity))
      as [H5 H6].
    split; [exact H5|].
    eexists. split; [exact H6|]. split; reflexivity.
Defined.
